(** * Order, inventory and cart logic of [VlibeBaseEcommerce]

    A shallow embedding of the e-commerce layer of the SDK
    (class [VlibeBaseEcommerce]) over an in-memory model of the record
    store it talks to, together with the properties of order totals,
    inventory updates, carts, checkout and revenue statistics.

    Conventions of the embedding:
    - a JavaScript [number] that holds a price, a stock or a quantity is an
      integer of [Z] (all monetary values are integer minor units), and the
      methods take their sums, differences and products exactly, as the
      doubles do up to [2^53]; the module [Rounded] gives the order total,
      the order creation and the inventory updates with the rounding of the
      doubles, for the properties that depend on it.  The averages of the
      analytics are rounded quotients, its percentages exact rationals of
      [Q];
    - an ISO timestamp string is the number of milliseconds since the epoch
      it denotes ([toISOString] and [new Date(string)] are inverse to each
      other at millisecond precision);
    - an [async] method is a function from the world (the four collections
      plus the two sources of non-determinism, [crypto.randomUUID] and the
      clock) to the world after the call and either the value returned or
      the error thrown.  The world after a throw is kept: whatever was
      written before the throw stays written. *)

From Stdlib Require Import ZArith List String Bool Lia QArith Qround.
Import ListNotations.

Local Open Scope Z_scope.

(** ** Data model *)

Module Product.
Record t := mk {
  id : string;
  name : string;
  description : option string;
  sku : option string;
  price : Z;
  currency : string;
  images : list string;
  stock : Z;
  isActive : bool;
  category : option string;
  metadata : option (list (string * string));
  created_at : Z;
  updated_at : Z
}.
End Product.

(** [Partial<Product>], as far as [updateProduct] is called with it. *)
Module ProductUpdates.
Record t := mk {
  name : option string;
  price : option Z;
  stock : option Z;
  isActive : option bool
}.
Definition none : t := mk None None None None.
End ProductUpdates.

Module CartItem.
Record t := mk { productId : string; quantity : Z }.
End CartItem.

(** A record of the [carts] collection. *)
Module CartRow.
Record t := mk {
  id : string;
  userId : string;
  productId : string;
  quantity : Z;
  created_at : Z;
  updated_at : Z
}.
End CartRow.

Module Address.
Record t := mk {
  line1 : string;
  line2 : option string;
  city : string;
  state : string;
  postalCode : string;
  country : string
}.
End Address.

Module OrderItem.
Record t := mk {
  productId : string;
  name : string;
  quantity : Z;
  price : Z
}.
End OrderItem.

Inductive OrderStatus := pending | processing | shipped | delivered | cancelled.

Module Order.
Record t := mk {
  id : string;
  userId : string;
  status : OrderStatus;
  items : list OrderItem.t;
  subtotal : Z;
  tax : Z;
  shipping : Z;
  total : Z;
  shippingAddress : Address.t;
  billingAddress : option Address.t;
  paymentMethodId : option string;
  notes : option string;
  created_at : Z;
  updated_at : Z
}.
End Order.

(** A record of the [order_items] collection. *)
Module OrderItemRow.
Record t := mk {
  id : string;
  orderId : string;
  productId : string;
  name : string;
  quantity : Z;
  price : Z;
  lineTotal : Z;
  created_at : Z
}.
End OrderItemRow.

(** [CreateOrderInput] and [OrderCalculation] with the fields that
    [createOrder] and [calculateOrderTotal] read and write. *)
Module CreateOrderInput.
Record t := mk {
  userId : string;
  items : list CartItem.t;
  shippingAddress : Address.t;
  billingAddress : option Address.t;
  paymentMethodId : option string;
  notes : option string
}.
End CreateOrderInput.

(** An element of [OrderCalculation['items']]. *)
Module CalculatedItem.
Record t := mk {
  productId : string;
  name : string;
  price : Z;
  quantity : Z;
  lineTotal : Z;
  inStock : bool
}.
End CalculatedItem.

Module OrderCalculation.
Record t := mk {
  subtotal : Z;
  tax : Z;
  shipping : Z;
  total : Z;
  items : list CalculatedItem.t
}.
End OrderCalculation.

Module InventoryUpdate.
Inductive operation := set | increment | decrement.
Record t := mk { productId : string; quantity : Z; op : operation }.
End InventoryUpdate.

(** The errors thrown by the methods, one constructor per message. *)
Inductive error :=
| ProductNotFound (productId : string)
    (* `Product not found: ${productId}` *)
| InsufficientStock (productId : string) (available requested : Z)
    (* `Insufficient stock for product ${productId}. Available: ..., requested: ...` *)
| ItemsOutOfStock (names : list string)
    (* `Items out of stock: ${names.join(', ')}` *)
| CartItemNotFound (productId : string)
    (* `Cart item not found for product: ${productId}` *)
| CartIsEmpty.
    (* 'Cart is empty' *)

Inductive result (A : Type) :=
| Ok (a : A)
| Err (e : error).
Arguments Ok {A} a.
Arguments Err {A} e.

(** ** The record store *)

(** Modelled from the spec: the Record Store collaborator (the remote
    service behind [VlibeBaseDatabase]) is not part of the repository; a
    collection is the list of its records in insertion order, [get] returns
    the record with the given identifier or nothing, [update] replaces the
    record with the given identifier by the data sent (the callers always
    send the whole record), [delete] removes it, and [query] keeps the
    records that match every field of [where]. *)
Module Db.
Section Collection.
Context {R : Type} (id_of : R -> string).

Definition get (rows : list R) (id : string) : option R :=
  find (fun r => String.eqb (id_of r) id) rows.

Definition insert (rows : list R) (r : R) : list R := rows ++ [r].

Definition update (rows : list R) (id : string) (data : R) : list R :=
  map (fun r => if String.eqb (id_of r) id then data else r) rows.

Definition delete (rows : list R) (id : string) : list R :=
  filter (fun r => negb (String.eqb (id_of r) id)) rows.

Definition query (rows : list R) (where_ : R -> bool) : list R :=
  filter where_ rows.
End Collection.
End Db.

(** The world: the four collections, and how many values have been drawn
    from [crypto.randomUUID] and read from the clock so far. *)
Record World := mkWorld {
  products : list Product.t;
  orders : list Order.t;
  order_items : list OrderItemRow.t;
  carts : list CartRow.t;
  uuid_draws : nat;
  clock_reads : nat
}.

Definition with_products (ps : list Product.t) (w : World) : World :=
  mkWorld ps (orders w) (order_items w) (carts w) (uuid_draws w) (clock_reads w).
Definition with_orders (os : list Order.t) (w : World) : World :=
  mkWorld (products w) os (order_items w) (carts w) (uuid_draws w) (clock_reads w).
Definition with_order_items (rs : list OrderItemRow.t) (w : World) : World :=
  mkWorld (products w) (orders w) rs (carts w) (uuid_draws w) (clock_reads w).
Definition with_carts (cs : list CartRow.t) (w : World) : World :=
  mkWorld (products w) (orders w) (order_items w) cs (uuid_draws w) (clock_reads w).

(** ** The monad of [async] methods *)

Definition M (A : Type) : Type := World -> World * result A.

Definition ret {A} (a : A) : M A := fun w => (w, Ok a).
Definition throw {A} (e : error) : M A := fun w => (w, Err e).
Definition bind {A B} (m : M A) (k : A -> M B) : M B :=
  fun w => match m w with
           | (w', Ok a) => k a w'
           | (w', Err e) => (w', Err e)
           end.

Declare Scope async_scope.
Delimit Scope async_scope with async.
Notation "x <- m ;; k" := (bind m (fun x => k))
  (at level 61, m at next level, right associativity) : async_scope.
Notation "m ;; k" := (bind m (fun _ => k))
  (at level 61, right associativity) : async_scope.
Local Open Scope async_scope.

(** [for (const x of xs) { await body(x) }] *)
Fixpoint for_each {A} (body : A -> M unit) (xs : list A) : M unit :=
  match xs with
  | [] => ret tt
  | x :: rest => body x ;; for_each body rest
  end.

(** ** Rounding *)

(** [Math.round]: the nearest integer, a tie going up. *)
Definition Math_round (q : Q) : Z := Qfloor (q + (1 # 2)).

(** ** Doubles *)

(** The numbers of the source are IEEE 754 binary64 values, and every sum,
    difference, product and quotient is rounded to the nearest of them.
    An amount that is an integer is modelled by that integer. *)
Module Binary64.

(** [n] rounded to 53 significant bits, a tie going to the even
    significand: [round53 n * 2^k] is the double nearest to [n * 2^k], for
    every scale [k] at which it is a normal number. *)
Definition round53 (n : Z) : Z :=
  let e := Z.log2 (Z.abs n) - 52 in
  if e <=? 0 then n
  else
    let q := n / 2 ^ e in
    let r := n mod 2 ^ e in
    let half := 2 ^ (e - 1) in
    if (r <? half) || ((r =? half) && Z.even q) then q * 2 ^ e
    else (q + 1) * 2 ^ e.

(** The doubles that are finite are below [2^1024]. *)
Definition finite (z : Z) : bool := Z.abs z <? 2 ^ 1024.

(** The double nearest to the integer [n], when it is finite. *)
Definition double (n : Z) : option Z :=
  let r := round53 n in
  if finite r then Some r else None.

(** A stored integer, when it is a double. *)
Definition read (z : Z) : option Z :=
  if (round53 z =? z) && finite z then Some z else None.

Definition add (a b : Z) : option Z := double (a + b).
Definition sub (a b : Z) : option Z := double (a - b).
Definition mul (a b : Z) : option Z := double (a * b).

(** The literal [0.08] is the double [5764607523034235 / 2^56]. *)
Definition eight_hundredths : Z := 5764607523034235.

(** [Math.round(x * 0.08)]: the product is the double
    [round53 (x * eight_hundredths) / 2^56], and [Math.round] is the floor
    of its sum with one half, which is a double. *)
Definition Math_round_times_0_08 (x : Z) : Z :=
  (round53 (x * eight_hundredths) + 2 ^ 55) / 2 ^ 56.

(** [p / q] for a double [p] and a count [q] that is positive: the double
    nearest to the quotient, as a rational number.  The quotient is taken
    with 57 bits or more, the last of them set when the division leaves a
    remainder, so that it rounds as the quotient itself does. *)
Definition quotient (p q : Z) : Q :=
  let k := Z.log2 q + 56 in
  let f := (Z.abs p * 2 ^ k) / q in
  let sticky := if (Z.abs p * 2 ^ k) mod q =? 0 then 0 else 1 in
  Z.sgn p * round53 (2 * f + sticky) # Z.to_pos (2 ^ (k + 1)).


End Binary64.

(** ** Dates *)

(** The [Date] built-in belongs to the platform, not to the repository; it
    is modelled after the ECMAScript specification.  A [Date] object is its
    time value (milliseconds since the epoch); the abstract operations are
    [Day], [TimeWithinDay], [WeekDay], [YearFromTime], [MonthFromTime],
    [DateFromTime], [MakeTime], [MakeDay] and [MakeDate], with the
    proleptic Gregorian calendar computed era by era (an era is 400 years,
    146097 days, and starts on a first of March).  The local time zone is
    the [LocalTZA] of the specification, which belongs to the platform:
    the offset of local time from UTC at an instant ([isUTC] true) or at a
    local time ([isUTC] false); it changes where the zone has a summer
    time.  Time values are not clipped. *)
Module JSDate.

Definition msPerDay : Z := 86400000.

Definition Day (t : Z) : Z := t / msPerDay.
Definition TimeWithinDay (t : Z) : Z := t mod msPerDay.
Definition WeekDay (t : Z) : Z := (Day t + 4) mod 7.

Definition daysPerEra : Z := 146097.
Definition eraShift : Z := 719468.

(** Day of the era of the first day of year-of-era [yoe]. *)
Definition yearStart (yoe : Z) : Z := 365 * yoe + yoe / 4 - yoe / 100.

(** Year of era, month (1 to 12) and day of month of a day of the era. *)
Definition civil_of_doe (doe : Z) : Z * Z * Z :=
  let yoe := (doe - doe / 1460 + doe / 36524 - doe / 146096) / 365 in
  let doy := doe - yearStart yoe in
  let mp := (5 * doy + 2) / 153 in
  let d := doy - (153 * mp + 2) / 5 + 1 in
  let m := if mp <? 10 then mp + 3 else mp - 9 in
  (yoe, m, d).

(** Day of the era of day [d] of month [m] (1 to 12) of year-of-era [yoe]. *)
Definition doe_of_civil (yoe m d : Z) : Z :=
  let mp := if 2 <? m then m - 3 else m + 9 in
  yearStart yoe + (153 * mp + 2) / 5 + d - 1.

(** Year, month (1 to 12), day of month of a day number. *)
Definition civil_from_days (z : Z) : Z * Z * Z :=
  let era := (z + eraShift) / daysPerEra in
  let '(yoe, m, d) := civil_of_doe ((z + eraShift) mod daysPerEra) in
  let y := yoe + era * 400 in
  (if m <=? 2 then y + 1 else y, m, d).

(** Day number of day [d] of month [m] (1 to 12) of year [y]. *)
Definition days_from_civil (y m d : Z) : Z :=
  let y' := if m <=? 2 then y - 1 else y in
  (y' / 400) * daysPerEra + doe_of_civil (y' mod 400) m d - eraShift.

Definition YearFromTime (t : Z) : Z :=
  let '(y, _, _) := civil_from_days (Day t) in y.
Definition MonthFromTime (t : Z) : Z :=
  let '(_, m, _) := civil_from_days (Day t) in m - 1.
Definition DateFromTime (t : Z) : Z :=
  let '(_, _, d) := civil_from_days (Day t) in d.

Definition MakeTime (hour min sec ms : Z) : Z :=
  hour * 3600000 + min * 60000 + sec * 1000 + ms.
Definition MakeDay (year month date : Z) : Z :=
  let ym := year + month / 12 in
  let mn := month mod 12 in
  days_from_civil ym (mn + 1) 1 + date - 1.
Definition MakeDate (day time : Z) : Z := day * msPerDay + time.

Section LocalTime.
Variable LocalTZA : Z -> bool -> Z.

Definition LocalTime (t : Z) : Z := t + LocalTZA t true.
Definition UTC (t : Z) : Z := t - LocalTZA t false.

Definition getDate (tv : Z) : Z := DateFromTime (LocalTime tv).
Definition getDay (tv : Z) : Z := WeekDay (LocalTime tv).

Definition setHours (tv hour min sec ms : Z) : Z :=
  let t := LocalTime tv in
  UTC (MakeDate (Day t) (MakeTime hour min sec ms)).

Definition setDate (tv date : Z) : Z :=
  let t := LocalTime tv in
  UTC (MakeDate (MakeDay (YearFromTime t) (MonthFromTime t) date)
                (TimeWithinDay t)).

Definition setMonth (tv month date : Z) : Z :=
  let t := LocalTime tv in
  UTC (MakeDate (MakeDay (YearFromTime t) month date) (TimeWithinDay t)).
End LocalTime.

(** A zone that keeps one offset all year. *)
Definition fixed_offset (offset : Z) : Z -> bool -> Z := fun _ _ => offset.

(** The zone of New York in 2024: five hours behind UTC, and four from
    the tenth of March, 7:00 UTC, to the third of November, 6:00 UTC.  A
    local time that the clocks skip or show twice is read with the offset
    in force before the change. *)
Definition new_york_2024 (t : Z) (isUTC : bool) : Z :=
  let spring := 1710054000000 in
  let autumn := 1730613600000 in
  let est := -5 * 3600000 in
  let edt := -4 * 3600000 in
  if isUTC
  then if t <? spring then est else if t <? autumn then edt else est
  else if t <? spring + edt then est
       else if t <? autumn + edt then edt else est.

End JSDate.

Inductive Period := day | week | month | year.

(** ** The class [VlibeBaseEcommerce] *)

Section VlibeBaseEcommerce.

(** The [n]-th value returned by [crypto.randomUUID()], the [n]-th
    instant read by [new Date()], and the offset of the local time zone. *)
Variable randomUUID : nat -> string.
Variable clock : nat -> Z.
Variable LocalTZA : Z -> bool -> Z.

Definition crypto_randomUUID : M string := fun w =>
  (mkWorld (products w) (orders w) (order_items w) (carts w)
           (S (uuid_draws w)) (clock_reads w),
   Ok (randomUUID (uuid_draws w))).

Definition new_Date : M Z := fun w =>
  (mkWorld (products w) (orders w) (order_items w) (carts w)
           (uuid_draws w) (S (clock_reads w)),
   Ok (clock (clock_reads w))).

(** *** Products and inventory *)

Definition getProduct (productId : string) : M (option Product.t) := fun w =>
  (w, Ok (Db.get Product.id (products w) productId)).

(** [{ ...existing, ...updates, id: productId, updated_at: now }] *)
Definition merge_updates (existing : Product.t) (updates : ProductUpdates.t)
    (productId : string) (now : Z) : Product.t :=
  Product.mk productId
    (match ProductUpdates.name updates with
     | Some n => n | None => Product.name existing end)
    (Product.description existing)
    (Product.sku existing)
    (match ProductUpdates.price updates with
     | Some p => p | None => Product.price existing end)
    (Product.currency existing)
    (Product.images existing)
    (match ProductUpdates.stock updates with
     | Some s => s | None => Product.stock existing end)
    (match ProductUpdates.isActive updates with
     | Some b => b | None => Product.isActive existing end)
    (Product.category existing)
    (Product.metadata existing)
    (Product.created_at existing)
    now.

Definition updateProduct (productId : string) (updates : ProductUpdates.t)
    : M Product.t :=
  existing <- getProduct productId ;;
  match existing with
  | None => throw (ProductNotFound productId)
  | Some existing =>
      now <- new_Date ;;
      let updated := merge_updates existing updates productId now in
      (fun w => (with_products
                   (Db.update Product.id (products w) productId updated) w,
                 Ok tt)) ;;
      ret updated
  end.

Definition stock_update (newStock : Z) : ProductUpdates.t :=
  ProductUpdates.mk None None (Some newStock) None.

Definition updateInventory (productId : string) (quantity : Z)
    (operation : InventoryUpdate.operation) : M Product.t :=
  product <- getProduct productId ;;
  match product with
  | None => throw (ProductNotFound productId)
  | Some product =>
      match operation with
      | InventoryUpdate.set =>
          updateProduct productId (stock_update quantity)
      | InventoryUpdate.increment =>
          updateProduct productId
            (stock_update (Product.stock product + quantity))
      | InventoryUpdate.decrement =>
          let newStock := Product.stock product - quantity in
          if newStock <? 0
          then throw (InsufficientStock productId
                        (Product.stock product) quantity)
          else updateProduct productId (stock_update newStock)
      end
  end.

(** The loop of [bulkUpdateInventory], [results] being the products
    pushed so far. *)
Fixpoint bulkUpdateInventory_from (results : list Product.t)
    (updates : list InventoryUpdate.t) : M (list Product.t) :=
  match updates with
  | [] => ret results
  | update :: rest =>
      product <- updateInventory (InventoryUpdate.productId update)
                   (InventoryUpdate.quantity update)
                   (InventoryUpdate.op update) ;;
      bulkUpdateInventory_from (results ++ [product]) rest
  end.

Definition bulkUpdateInventory (updates : list InventoryUpdate.t)
    : M (list Product.t) :=
  bulkUpdateInventory_from [] updates.

(** *** Orders *)

(** The loop of [calculateOrderTotal] over the lines. *)
Fixpoint calculateOrderTotal_from (calculatedItems : list CalculatedItem.t)
    (subtotal : Z) (items : list CartItem.t)
    : M (list CalculatedItem.t * Z) :=
  match items with
  | [] => ret (calculatedItems, subtotal)
  | item :: rest =>
      product <- getProduct (CartItem.productId item) ;;
      match product with
      | None => throw (ProductNotFound (CartItem.productId item))
      | Some product =>
          let lineTotal := Product.price product * CartItem.quantity item in
          let inStock := Product.stock product >=? CartItem.quantity item in
          calculateOrderTotal_from
            (calculatedItems ++
             [CalculatedItem.mk (CartItem.productId item)
                (Product.name product) (Product.price product)
                (CartItem.quantity item) lineTotal inStock])
            (subtotal + lineTotal) rest
      end
  end.

Definition tax_of (subtotal : Z) : Z :=
  Math_round (inject_Z subtotal * (8 # 100)).

Definition shipping_of (subtotal : Z) : Z :=
  if subtotal >? 5000 then 0 else 500.

Definition calculateOrderTotal (items : list CartItem.t)
    : M OrderCalculation.t :=
  r <- calculateOrderTotal_from [] 0 items ;;
  let '(calculatedItems, subtotal) := r in
  let allInStock := forallb CalculatedItem.inStock calculatedItems in
  if negb allInStock then
    let outOfStock :=
      filter (fun item => negb (CalculatedItem.inStock item))
             calculatedItems in
    throw (ItemsOutOfStock (map CalculatedItem.name outOfStock))
  else
    let tax := tax_of subtotal in
    let shipping := shipping_of subtotal in
    let total := subtotal + tax + shipping in
    ret (OrderCalculation.mk subtotal tax shipping total calculatedItems).

Definition db_insert_order (order : Order.t) : M unit := fun w =>
  (with_orders (Db.insert (orders w) order) w, Ok tt).

Definition db_insert_order_item (row : OrderItemRow.t) : M unit := fun w =>
  (with_order_items (Db.insert (order_items w) row) w, Ok tt).

Definition insert_order_item (orderId : string) (now : Z)
    (item : OrderItem.t) : M unit :=
  id <- crypto_randomUUID ;;
  db_insert_order_item
    (OrderItemRow.mk id orderId (OrderItem.productId item)
       (OrderItem.name item) (OrderItem.quantity item)
       (OrderItem.price item)
       (OrderItem.price item * OrderItem.quantity item) now).

Definition line_of (item : CartItem.t) : CartItem.t :=
  CartItem.mk (CartItem.productId item) (CartItem.quantity item).

Definition order_item_of (item : CalculatedItem.t) : OrderItem.t :=
  OrderItem.mk (CalculatedItem.productId item) (CalculatedItem.name item)
    (CalculatedItem.quantity item) (CalculatedItem.price item).

Definition decrement_of (item : CartItem.t) : InventoryUpdate.t :=
  InventoryUpdate.mk (CartItem.productId item) (CartItem.quantity item)
    InventoryUpdate.decrement.

Definition createOrder (input : CreateOrderInput.t) : M Order.t :=
  now <- new_Date ;;
  calculation <- calculateOrderTotal
                   (map line_of (CreateOrderInput.items input)) ;;
  let orderItems := map order_item_of (OrderCalculation.items calculation) in
  id <- crypto_randomUUID ;;
  let order :=
    Order.mk id (CreateOrderInput.userId input) pending orderItems
      (OrderCalculation.subtotal calculation)
      (OrderCalculation.tax calculation)
      (OrderCalculation.shipping calculation)
      (OrderCalculation.total calculation)
      (CreateOrderInput.shippingAddress input)
      (CreateOrderInput.billingAddress input)
      (CreateOrderInput.paymentMethodId input)
      (CreateOrderInput.notes input)
      now now in
  db_insert_order order ;;
  for_each (insert_order_item (Order.id order) now) orderItems ;;
  bulkUpdateInventory
    (map decrement_of (CreateOrderInput.items input)) ;;
  ret order.

(** *** Carts *)

Definition cart_item_of (row : CartRow.t) : CartItem.t :=
  CartItem.mk (CartRow.productId row) (CartRow.quantity row).

(** [where: { userId }] and [where: { userId, productId }] *)
Definition where_user (userId : string) (row : CartRow.t) : bool :=
  String.eqb (CartRow.userId row) userId.
Definition where_user_product (userId productId : string) (row : CartRow.t)
    : bool :=
  String.eqb (CartRow.userId row) userId &&
  String.eqb (CartRow.productId row) productId.

Definition db_query_carts (where_ : CartRow.t -> bool)
    : M (list CartRow.t) := fun w =>
  (w, Ok (Db.query (carts w) where_)).
Definition db_update_cart (id : string) (row : CartRow.t) : M unit := fun w =>
  (with_carts (Db.update CartRow.id (carts w) id row) w, Ok tt).
Definition db_insert_cart (row : CartRow.t) : M unit := fun w =>
  (with_carts (Db.insert (carts w) row) w, Ok tt).
Definition db_delete_cart (id : string) : M unit := fun w =>
  (with_carts (Db.delete CartRow.id (carts w) id) w, Ok tt).

Definition getCart (userId : string) : M (list CartItem.t) :=
  items <- db_query_carts (where_user userId) ;;
  ret (map cart_item_of items).

Definition addToCart (userId : string) (item : CartItem.t)
    : M (list CartItem.t) :=
  existingCart <- db_query_carts
                    (where_user_product userId (CartItem.productId item)) ;;
  match existingCart with
  | existing :: _ =>
      now <- new_Date ;;
      db_update_cart (CartRow.id existing)
        (CartRow.mk (CartRow.id existing) (CartRow.userId existing)
           (CartRow.productId existing)
           (CartRow.quantity existing + CartItem.quantity item)
           (CartRow.created_at existing) now)
  | [] =>
      id <- crypto_randomUUID ;;
      created <- new_Date ;;
      updated <- new_Date ;;
      db_insert_cart
        (CartRow.mk id userId (CartItem.productId item)
           (CartItem.quantity item) created updated)
  end ;;
  getCart userId.

Definition updateCartItem (userId productId : string) (quantity : Z)
    : M (list CartItem.t) :=
  items <- db_query_carts (where_user_product userId productId) ;;
  match items with
  | [] => throw (CartItemNotFound productId)
  | item :: _ =>
      (if quantity =? 0 then db_delete_cart (CartRow.id item)
       else
         now <- new_Date ;;
         db_update_cart (CartRow.id item)
           (CartRow.mk (CartRow.id item) (CartRow.userId item)
              (CartRow.productId item) quantity
              (CartRow.created_at item) now)) ;;
      getCart userId
  end.

Definition clearCart (userId : string) : M unit :=
  items <- db_query_carts (where_user userId) ;;
  for_each (fun item => db_delete_cart (CartRow.id item)) items.

Definition checkout (userId : string) (shippingAddress : Address.t)
    (paymentMethodId : option string) : M Order.t :=
  cart <- getCart userId ;;
  if (List.length cart =? 0)%nat then throw CartIsEmpty
  else
    order <- createOrder
               (CreateOrderInput.mk userId (map line_of cart)
                  shippingAddress None paymentMethodId None) ;;
    clearCart userId ;;
    ret order.

(** *** Analytics *)

Definition getPeriodStart (date : Z) (period : Period) : Z :=
  let d := date in
  match period with
  | day => JSDate.setHours LocalTZA d 0 0 0 0
  | week =>
      let d := JSDate.setDate LocalTZA d
                 (JSDate.getDate LocalTZA d - JSDate.getDay LocalTZA d) in
      JSDate.setHours LocalTZA d 0 0 0 0
  | month =>
      let d := JSDate.setDate LocalTZA d 1 in
      JSDate.setHours LocalTZA d 0 0 0 0
  | year =>
      let d := JSDate.setMonth LocalTZA d 0 1 in
      JSDate.setHours LocalTZA d 0 0 0 0
  end.

Record Trend := mkTrend { trend_revenue : Q; trend_orders : Q }.

Record RevenueStats := mkRevenueStats {
  totalRevenue : Z;
  totalOrders : Z;
  averageOrderValue : Q;
  period_start : Z;
  period_end : Z;
  trend : Trend
}.

(** [orders.reduce((sum, o) => sum + o.total, 0)] *)
Definition sum_totals (os : list Order.t) : Z :=
  fold_left (fun sum o => sum + Order.total o) os 0.

(** The two windows of [getRevenueStats]. *)
Definition currentOrders_of (periodStart : Z) (os : list Order.t)
    : list Order.t :=
  filter (fun o => Order.created_at o >=? periodStart) os.
Definition previousOrders_of (previousPeriodStart periodStart : Z)
    (os : list Order.t) : list Order.t :=
  filter (fun o => (Order.created_at o >=? previousPeriodStart) &&
                   (Order.created_at o <? periodStart)) os.

(** The percentage of [getRevenueStats]: [(cur - prev) / prev * 100] when
    the baseline is positive, [0] otherwise. *)
Definition percent_change (cur prev : Z) : Q :=
  if prev >? 0
  then (((inject_Z cur - inject_Z prev) / inject_Z prev) * 100)%Q
  else 0%Q.

(** [Math.round(x * 100) / 100] *)
Definition round2 (x : Q) : Q :=
  (inject_Z (Math_round (x * 100)) / 100)%Q.

Definition getRevenueStats (period : Period) : M RevenueStats :=
  now <- new_Date ;;
  let periodStart := getPeriodStart now period in
  let previousPeriodStart := getPeriodStart periodStart period in
  os <- (fun w => (w, Ok (Db.query (orders w) (fun _ => true)))) ;;
  let currentOrders := currentOrders_of periodStart os in
  let previousOrders :=
    previousOrders_of previousPeriodStart periodStart os in
  let totalRevenue := sum_totals currentOrders in
  let previousRevenue := sum_totals previousOrders in
  let totalOrders := Z.of_nat (List.length currentOrders) in
  let previousOrderCount := Z.of_nat (List.length previousOrders) in
  let averageOrderValue :=
    if totalOrders >? 0
    then Binary64.quotient totalRevenue totalOrders
    else 0%Q in
  let revenueTrend := percent_change totalRevenue previousRevenue in
  let ordersTrend := percent_change totalOrders previousOrderCount in
  ret (mkRevenueStats totalRevenue totalOrders averageOrderValue
         periodStart now
         (mkTrend (round2 revenueTrend) (round2 ordersTrend))).

End VlibeBaseEcommerce.

(** ** Notions used in the statements *)

(** The world after one read of the clock. *)
Definition tick (w : World) : World :=
  mkWorld (products w) (orders w) (order_items w) (carts w)
          (uuid_draws w) (S (clock_reads w)).

(** The stock that an update aims at. *)
Definition target_stock (op : InventoryUpdate.operation) (s q : Z) : Z :=
  match op with
  | InventoryUpdate.set => q
  | InventoryUpdate.increment => s + q
  | InventoryUpdate.decrement => s - q
  end.

(** An update refused by the floor check. *)
Definition refused (op : InventoryUpdate.operation) (s q : Z) : bool :=
  match op with
  | InventoryUpdate.decrement => s - q <? 0
  | _ => false
  end.

(** The line that [calculateOrderTotal] pushes for an item and its product. *)
Definition calculated_line (product : Product.t) (item : CartItem.t)
    : CalculatedItem.t :=
  CalculatedItem.mk (CartItem.productId item) (Product.name product)
    (Product.price product) (CartItem.quantity item)
    (Product.price product * CartItem.quantity item)
    (Product.stock product >=? CartItem.quantity item).

(** The lines of all the items, or the identifier of the first product that
    does not exist. *)
Fixpoint resolve_lines (ps : list Product.t) (items : list CartItem.t)
    : result (list CalculatedItem.t) :=
  match items with
  | [] => Ok []
  | item :: rest =>
      match Db.get Product.id ps (CartItem.productId item) with
      | None => Err (ProductNotFound (CartItem.productId item))
      | Some product =>
          match resolve_lines ps rest with
          | Ok ls => Ok (calculated_line product item :: ls)
          | Err e => Err e
          end
      end
  end.

Definition sum_lines (ls : list CalculatedItem.t) : Z :=
  fold_right (fun l acc => CalculatedItem.lineTotal l + acc) 0 ls.

(** The value or the error of [calculateOrderTotal], from the lines. *)
Definition totals_of (r : result (list CalculatedItem.t))
    : result OrderCalculation.t :=
  match r with
  | Err e => Err e
  | Ok ls =>
      if forallb CalculatedItem.inStock ls
      then
        let subtotal := sum_lines ls in
        Ok (OrderCalculation.mk subtotal (tax_of subtotal)
              (shipping_of subtotal)
              (subtotal + tax_of subtotal + shipping_of subtotal) ls)
      else
        Err (ItemsOutOfStock
               (map CalculatedItem.name
                  (filter (fun l => negb (CalculatedItem.inStock l)) ls)))
  end.


Definition with_isActive (b : bool) (p : Product.t) : Product.t :=
  Product.mk (Product.id p) (Product.name p) (Product.description p)
    (Product.sku p) (Product.price p) (Product.currency p)
    (Product.images p) (Product.stock p) b (Product.category p)
    (Product.metadata p) (Product.created_at p) (Product.updated_at p).

(** The world in which the product [id] has the active flag [flags id]. *)
Definition reflag_product (flags : string -> bool) (p : Product.t)
    : Product.t :=
  with_isActive (flags (Product.id p)) p.

Definition reflag (flags : string -> bool) (w : World) : World :=
  with_products (map (reflag_product flags) (products w)) w.

Definition map_result {A B} (f : A -> B) (r : result A) : result B :=
  match r with
  | Ok a => Ok (f a)
  | Err e => Err e
  end.

(** The rows left when the rows with the identifiers [ids] are deleted
    one after the other. *)
Definition delete_all (ids : list string) (rows : list CartRow.t)
    : list CartRow.t :=
  fold_left (fun rows id => Db.delete CartRow.id rows id) ids rows.

(** The input that [checkout] hands to [createOrder]. *)
Definition checkout_input (userId : string) (shippingAddress : Address.t)
    (paymentMethodId : option string) (w : World) : CreateOrderInput.t :=
  CreateOrderInput.mk userId
    (map line_of
       (map cart_item_of (Db.query (carts w) (where_user userId))))
    shippingAddress None paymentMethodId None.

(** The day number of the first day of the period that holds the local
    time [t]. *)
Definition first_day (period : Period) (t : Z) : Z :=
  match period with
  | day => JSDate.Day t
  | week => JSDate.Day t - JSDate.WeekDay t
  | month => JSDate.MakeDay (JSDate.YearFromTime t) (JSDate.MonthFromTime t) 1
  | year => JSDate.MakeDay (JSDate.YearFromTime t) 0 1
  end.

Section Notions.
Variable randomUUID : nat -> string.
Variable clock : nat -> Z.
Variable LocalTZA : Z -> bool -> Z.

Definition run_update (u : InventoryUpdate.t) : M Product.t :=
  updateInventory clock (InventoryUpdate.productId u)
    (InventoryUpdate.quantity u) (InventoryUpdate.op u).

(** The records of [order_items] written for an order, the first of them
    with the [n]-th identifier drawn. *)
Fixpoint order_item_rows (orderId : string) (now : Z) (n : nat)
    (items : list OrderItem.t) : list OrderItemRow.t :=
  match items with
  | [] => []
  | item :: rest =>
      OrderItemRow.mk (randomUUID n) orderId (OrderItem.productId item)
        (OrderItem.name item) (OrderItem.quantity item)
        (OrderItem.price item)
        (OrderItem.price item * OrderItem.quantity item) now
      :: order_item_rows orderId now (S n) rest
  end.

(** The order that [createOrder] builds from a calculation. *)
Definition order_of (w : World) (input : CreateOrderInput.t)
    (calculation : OrderCalculation.t) : Order.t :=
  Order.mk (randomUUID (uuid_draws w)) (CreateOrderInput.userId input)
    pending (map order_item_of (OrderCalculation.items calculation))
    (OrderCalculation.subtotal calculation)
    (OrderCalculation.tax calculation)
    (OrderCalculation.shipping calculation)
    (OrderCalculation.total calculation)
    (CreateOrderInput.shippingAddress input)
    (CreateOrderInput.billingAddress input)
    (CreateOrderInput.paymentMethodId input)
    (CreateOrderInput.notes input)
    (clock (clock_reads w)) (clock (clock_reads w)).

(** The world once the order and its items are inserted, and before any
    stock is touched. *)
Definition inserted (w : World) (order : Order.t) : World :=
  mkWorld (products w) (orders w ++ [order])
    (order_items w ++
     order_item_rows (Order.id order) (Order.created_at order)
       (S (uuid_draws w)) (Order.items order))
    (carts w) (S (uuid_draws w) + List.length (Order.items order))
    (S (clock_reads w)).

(** What is on record after a throw of [createOrder]: either nothing (the
    calculation threw), or the order, its items and the decrements of the
    entries [pre] that come before the entry [u] whose decrement threw. *)
Definition thrown_after (input : CreateOrderInput.t) (w w' : World)
    (e : error) : Prop :=
  let lines :=
    resolve_lines (products w)
      (map line_of (CreateOrderInput.items input)) in
  (totals_of lines = Err e /\ w' = tick w) \/
  (exists calculation pre u post rs,
     totals_of lines = Ok calculation /\
     let order := order_of w input calculation in
     map decrement_of (CreateOrderInput.items input) = pre ++ u :: post /\
     bulkUpdateInventory clock pre (inserted w order)
       = (w', Ok rs) /\
     run_update u w' = (w', Err e) /\
     orders w' = orders w ++ [order] /\
     order_items w' =
       order_items w ++
       order_item_rows (Order.id order) (Order.created_at order)
         (S (uuid_draws w)) (Order.items order) /\
     carts w' = carts w).

(** Midnight, local time, of the day numbered [d]. *)
Definition midnight (d : Z) : Z :=
  JSDate.UTC LocalTZA (JSDate.MakeDate d 0).

End Notions.

(** ** A small shop, for the concrete runs *)

Module Sample.
Local Open Scope string_scope.

Definition uuid (n : nat) : string :=
  match n with
  | 0%nat => "uuid-0"
  | 1%nat => "uuid-1"
  | 2%nat => "uuid-2"
  | 3%nat => "uuid-3"
  | _ => "uuid-n"
  end.

(** The clock is read around noon of the second of January 1970, UTC. *)
Definition clock (n : nat) : Z := 129600000 + Z.of_nat n.

Definition address : Address.t :=
  Address.mk "1 Main St" None "Springfield" "IL" "62701" "US".

Definition widget (stock : Z) (isActive : bool) : Product.t :=
  Product.mk "p1" "Widget" None None 250 "usd" [] stock isActive None None
    0 0.

(** One product, nothing else. *)
Definition shop (stock : Z) (isActive : bool) : World :=
  mkWorld [widget stock isActive] [] [] [] 0 0.

Definition input (items : list CartItem.t) : CreateOrderInput.t :=
  CreateOrderInput.mk "u1" items address None None None.

(** The shop with one cart row of the user [u1]. *)
Definition shop_with_cart (stock quantity : Z) : World :=
  mkWorld [widget stock true] [] [] [CartRow.mk "c1" "u1" "p1" quantity 0 0]
    0 0.

Definition order_at (id : string) (created_at total : Z) : Order.t :=
  Order.mk id "u1" pending [] total 0 0 total address None None None
    created_at created_at.

(** One order at noon of the first of January 1970, two in the morning
    of the second. *)
Definition ledger : World :=
  mkWorld [] [order_at "o1" 43200000 100; order_at "o2" 100000000 150;
              order_at "o3" 108000000 150] [] [] 0 0.
End Sample.

(** * Further methods of the SDK *)

From Stdlib Require Import NArith Sorted Permutation Ascii.
From Stdlib Require Qabs.

(** ** Orders: reading, status and cancellation *)

(** The errors of the methods on orders: their own, or one thrown by a
    method above that they call. *)
Inductive order_error :=
| OrderNotFound (orderId : string)
    (* `Order not found: ${orderId}` *)
| Thrown (e : error).

Inductive outcome (A : Type) :=
| Returned (a : A)
| Failed (e : order_error).
Arguments Returned {A} a.
Arguments Failed {A} e.

Definition MO (A : Type) : Type := World -> World * outcome A.

Definition retO {A} (a : A) : MO A := fun w => (w, Returned a).
Definition throwO {A} (e : order_error) : MO A := fun w => (w, Failed e).
Definition bindO {A B} (m : MO A) (k : A -> MO B) : MO B :=
  fun w => match m w with
           | (w', Returned a) => k a w'
           | (w', Failed e) => (w', Failed e)
           end.

(** A call of a method above from a method on orders. *)
Definition await {A} (m : M A) : MO A :=
  fun w => match m w with
           | (w', Ok a) => (w', Returned a)
           | (w', Err e) => (w', Failed (Thrown e))
           end.

Declare Scope order_scope.
Delimit Scope order_scope with order.
Notation "x <- m ;; k" := (bindO m (fun x => k))
  (at level 61, m at next level, right associativity) : order_scope.
Notation "m ;; k" := (bindO m (fun _ => k))
  (at level 61, right associativity) : order_scope.

Section OrderLifecycle.
Variable clock : nat -> Z.

(** The item of an order read back from a record of [order_items]. *)
Definition order_item_of_row (item : OrderItemRow.t) : OrderItem.t :=
  OrderItem.mk (OrderItemRow.productId item) (OrderItemRow.name item)
    (OrderItemRow.quantity item) (OrderItemRow.price item).

Definition with_items (items : list OrderItem.t) (order : Order.t)
    : Order.t :=
  Order.mk (Order.id order) (Order.userId order) (Order.status order) items
    (Order.subtotal order) (Order.tax order) (Order.shipping order)
    (Order.total order) (Order.shippingAddress order)
    (Order.billingAddress order) (Order.paymentMethodId order)
    (Order.notes order) (Order.created_at order) (Order.updated_at order).

Definition getOrder (orderId : string) : M (option Order.t) := fun w =>
  match Db.get Order.id (orders w) orderId with
  | None => (w, Ok None)
  | Some order =>
      let items :=
        Db.query (order_items w)
          (fun item => String.eqb (OrderItemRow.orderId item) orderId) in
      (w, Ok (Some (with_items (map order_item_of_row items) order)))
  end.

(** [{ ...order, status, updated_at: now }] *)
Definition with_status (status : OrderStatus) (now : Z) (order : Order.t)
    : Order.t :=
  Order.mk (Order.id order) (Order.userId order) status (Order.items order)
    (Order.subtotal order) (Order.tax order) (Order.shipping order)
    (Order.total order) (Order.shippingAddress order)
    (Order.billingAddress order) (Order.paymentMethodId order)
    (Order.notes order) (Order.created_at order) now.

Definition db_update_order (id : string) (order : Order.t) : M unit := fun w =>
  (with_orders (Db.update Order.id (orders w) id order) w, Ok tt).

Definition updateOrderStatus (orderId : string) (status : OrderStatus)
    : MO Order.t :=
  (order <- await (getOrder orderId) ;;
   match order with
   | None => throwO (OrderNotFound orderId)
   | Some order =>
       now <- await (new_Date clock) ;;
       let updated := with_status status now order in
       await (db_update_order orderId updated) ;;
       retO updated
   end)%order.

Definition OrderStatus_eqb (a b : OrderStatus) : bool :=
  match a, b with
  | pending, pending | processing, processing | shipped, shipped
  | delivered, delivered | cancelled, cancelled => true
  | _, _ => false
  end.

Definition increment_of (item : OrderItem.t) : InventoryUpdate.t :=
  InventoryUpdate.mk (OrderItem.productId item) (OrderItem.quantity item)
    InventoryUpdate.increment.

Definition cancelOrder (orderId : string) (restoreInventory : bool)
    : MO Order.t :=
  (order <- await (getOrder orderId) ;;
   match order with
   | None => throwO (OrderNotFound orderId)
   | Some order =>
       if OrderStatus_eqb (Order.status order) cancelled then retO order
       else
         (if restoreInventory
          then
            await (bulkUpdateInventory clock
                     (map increment_of (Order.items order))) ;;
            retO tt
          else retO tt) ;;
         updateOrderStatus orderId cancelled
   end)%order.

End OrderLifecycle.







(** ** Products: soft delete and low stock *)

Section ProductCatalog.
Variable clock : nat -> Z.

Definition deleteProduct (productId : string) : M unit :=
  (updateProduct clock productId
     (ProductUpdates.mk None None None (Some false)) ;;
   ret tt)%async.

(** [threshold: number = 10]: [None] is the call without the argument. *)
Definition getLowStockProducts (threshold : option Z) : M (list Product.t) :=
  fun w =>
    let threshold := match threshold with Some t => t | None => 10 end in
    let products := Db.query (products w) Product.isActive in
    (w, Ok (filter (fun p => Product.stock p <=? threshold) products)).

End ProductCatalog.

(** ** The cart with its products *)

Module CartItemWithProduct.
Record t := mk {
  productId : string;
  quantity : Z;
  product : Product.t;
  lineTotal : Z
}.
End CartItemWithProduct.



(** ** Order and product statistics *)

Module OrderStats.
Record t := mk {
  pending : Z;
  processing : Z;
  shipped : Z;
  delivered : Z;
  cancelled : Z;
  averageOrderValue : Q
}.
End OrderStats.




Module ProductStats.
Record t := mk {
  productId : string;
  name : string;
  totalSold : Z;
  revenue : Z
}.
End ProductStats.










Section TopProducts.
Variable clock : nat -> Z.
Variable LocalTZA : Z -> bool -> Z.


End TopProducts.

(** ** Payments: fees *)

Inductive Plan := free | premium.

(** [plan: 'free' | 'premium' = 'free'] *)
Definition calculateFee (amount : Z) (plan : option Plan) : Z :=
  let plan := match plan with Some p => p | None => free end in
  let feeRate := match plan with premium => 5 # 1000 | free => 2 # 100 end in
  Math_round (inject_Z amount * feeRate).

Definition calculateNetAmount (amount : Z) (plan : option Plan) : Z :=
  let fee := calculateFee amount plan in
  amount - fee.

(** ** Notions on carts *)

(** The sum of the quantities of the rows that [f] selects. *)
Definition quantity_sum (f : CartRow.t -> bool) (rows : list CartRow.t) : Z :=
  fold_right (fun r acc => (if f r then CartRow.quantity r else 0) + acc)
    0 rows.

(** The quantity of the product in the cart of the user, all the rows of
    the pair taken together. *)
Definition cart_quantity (w : World) (userId productId : string) : Z :=
  quantity_sum (where_user_product userId productId) (carts w).

(** No two cart rows with the same identifier. *)
Definition unique_cart_ids (w : World) : Prop :=
  NoDup (map CartRow.id (carts w)).

(** At most one cart row for a user and a product. *)
Definition one_row_per_pair (w : World) : Prop :=
  NoDup (map (fun r => (CartRow.userId r, CartRow.productId r)) (carts w)).





(** ** Notions on the statistics *)








(** ** Table names

    [VlibeBaseDatabase.getFullTableName].  A string is the list of its
    UTF-16 code units. *)

Module TableName.

(** The code units of a literal of the source, which is in ASCII. *)
Definition literal (s : string) : list N :=
  map N_of_ascii (list_ascii_of_string s).

Definition in_range (lo hi c : N) : bool := (lo <=? c)%N && (c <=? hi)%N.

(** [\d] *)
Definition is_digit (c : N) : bool := in_range 48 57 c.
(** [a-z] *)
Definition is_lower (c : N) : bool := in_range 97 122 c.
Definition is_underscore (c : N) : bool := (c =? 95)%N.
Definition is_dash (c : N) : bool := (c =? 45)%N.

(** [[a-z0-9]] and [[a-z0-9_]] *)
Definition is_alnum (c : N) : bool := is_lower c || is_digit c.
Definition is_word (c : N) : bool := is_alnum c || is_underscore c.

(** What a code unit leaves in [a-z0-9_] once the string is put in lower
    case.  [toLowerCase] is the lower case of Unicode: among the
    characters outside of [a-z0-9_], it takes one of A to Z to its letter,
    the Kelvin sign (U+212A) to [k] and the capital I with a dot above
    (U+0130) to [i] followed by a combining dot, and no other character to
    a string that holds a character of ASCII. *)
Definition lower_word (c : N) : option N :=
  if is_word c then Some c
  else if in_range 65 90 c then Some (c + 32)%N
  else if (c =? 8490)%N then Some 107%N
  else if (c =? 304)%N then Some 105%N
  else None.

(** [s.toLowerCase().replace(/[^a-z0-9_]/g, '')] *)
Definition lower_words (s : list N) : list N :=
  flat_map (fun c => match lower_word c with Some l => [l] | None => [] end)
    s.

(** [s.toLowerCase().replace(/[^a-z0-9]/g, '')] *)
Definition lower_alnums (s : list N) : list N :=
  filter is_alnum (lower_words s).

(** [parts[parts.length - 1]] for [parts = s.split('-')]: what follows the
    last dash, the whole string when it has none. *)
Definition last_part (s : list N) : list N :=
  fold_left (fun part c => if is_dash c then [] else part ++ [c]) s [].

(** [/^\d+$/.test(s)] *)
Definition all_digits (s : list N) : bool :=
  match s with
  | [] => false
  | _ => forallb is_digit s
  end.

(** [s] without the prefix [p], when it starts with it. *)
Fixpoint without_prefix (p s : list N) : option (list N) :=
  match p, s with
  | [], _ => Some s
  | a :: p', b :: s' => if (a =? b)%N then without_prefix p' s' else None
  | _ :: _, [] => None
  end.

(** [s.replace(/^(vlibe-brief-|proj-|project-)/, '')] *)
Definition strip_project_prefix (s : list N) : list N :=
  match without_prefix (literal "vlibe-brief-") s with
  | Some rest => rest
  | None =>
      match without_prefix (literal "proj-") s with
      | Some rest => rest
      | None =>
          match without_prefix (literal "project-") s with
          | Some rest => rest
          | None => s
          end
      end
  end.

(** [s.slice(0, 8)] *)
Definition slice8 (s : list N) : list N := firstn 8 s.

Definition project_prefix (projectId : list N) : list N :=
  let lastPart := last_part projectId in
  if all_digits lastPart && (8 <=? List.length lastPart)%nat
  then slice8 lastPart
  else lower_alnums (slice8 (strip_project_prefix projectId)).

Definition getFullTableName (projectId tableName : list N) : list N :=
  literal "proj_" ++ project_prefix projectId ++ literal "_" ++
  lower_words tableName.

(** The lower case of a letter of ASCII. *)
Definition lower_ascii (c : N) : N :=
  if in_range 65 90 c then (c + 32)%N else c.

End TableName.

(** ** Notions on the stock floor *)

(** No product of the store has a negative stock. *)
Definition stocks_non_negative (w : World) : Prop :=
  Forall (fun p => 0 <= Product.stock p) (products w).

(** An update that is a decrement, or that carries a quantity that is not
    negative. *)
Definition keeps_floor (u : InventoryUpdate.t) : bool :=
  match InventoryUpdate.op u with
  | InventoryUpdate.decrement => true
  | _ => 0 <=? InventoryUpdate.quantity u
  end.

(** A store with two products and cart rows of two users, the lines of
    the order that the first user places from it, and the store after
    that order. *)
Module Store.
Local Open Scope string_scope.

Definition gadget (stock : Z) : Product.t :=
  Product.mk "p2" "Gadget" None None 400 "usd" [] stock true None None 0 0.

Definition stocked : World :=
  mkWorld [Sample.widget 5 true; gadget 3] [] []
    [CartRow.mk "c1" "u1" "p1" 2 0 0; CartRow.mk "c2" "u2" "p1" 1 0 0;
     CartRow.mk "c3" "u1" "p2" 1 0 0] 0 0.

Definition lines : list CartItem.t :=
  [CartItem.mk "p1" 2; CartItem.mk "p2" 1; CartItem.mk "p1" 1].

Definition placed : World :=
  fst (createOrder Sample.uuid Sample.clock (Sample.input lines) stocked).
End Store.


(** * Amounts as IEEE 754 doubles *)

From Stdlib Require SpecFloat.

(** The methods above take the amounts as exact integers.  This module
    gives the order total, the order creation and the inventory updates
    with the arithmetic of [Binary64], in which every result is rounded.
    A run in which a stored integer is not a double, or in which a result
    is not finite, is outside the model: it has no outcome ([None]). *)
Module Rounded.

(** ** The monad of the methods, with the runs outside the model *)

Definition F (A : Type) : Type := World -> option (World * result A).

Definition lift {A} (m : M A) : F A := fun w => Some (m w).

Definition number (o : option Z) : F Z := fun w =>
  match o with
  | Some z => Some (w, Ok z)
  | None => None
  end.

Definition bindF {A B} (m : F A) (k : A -> F B) : F B :=
  fun w => match m w with
           | Some (w', Ok a) => k a w'
           | Some (w', Err e) => Some (w', Err e)
           | None => None
           end.

Declare Scope double_scope.
Delimit Scope double_scope with double.
Notation "x <- m ;; k" := (bindF m (fun x => k))
  (at level 61, m at next level, right associativity) : double_scope.
Notation "m ;; k" := (bindF m (fun _ => k))
  (at level 61, right associativity) : double_scope.

Fixpoint for_each {A} (body : A -> F unit) (xs : list A) : F unit :=
  match xs with
  | [] => lift (ret tt)
  | x :: rest => (body x ;; for_each body rest)%double
  end.

Section Methods.
Variable randomUUID : nat -> string.
Variable clock : nat -> Z.

(** ** Inventory *)

Definition updateInventory (productId : string) (quantity : Z)
    (operation : InventoryUpdate.operation) : F Product.t :=
  (product <- lift (getProduct productId) ;;
   match product with
   | None => lift (throw (ProductNotFound productId))
   | Some product =>
       match operation with
       | InventoryUpdate.set =>
           newStock <- number (Binary64.read quantity) ;;
           lift (updateProduct clock productId (stock_update newStock))
       | InventoryUpdate.increment =>
           stock <- number (Binary64.read (Product.stock product)) ;;
           quantity <- number (Binary64.read quantity) ;;
           newStock <- number (Binary64.add stock quantity) ;;
           lift (updateProduct clock productId (stock_update newStock))
       | InventoryUpdate.decrement =>
           stock <- number (Binary64.read (Product.stock product)) ;;
           quantity <- number (Binary64.read quantity) ;;
           newStock <- number (Binary64.sub stock quantity) ;;
           if newStock <? 0
           then lift (throw (InsufficientStock productId stock quantity))
           else lift (updateProduct clock productId (stock_update newStock))
       end
   end)%double.

Fixpoint bulkUpdateInventory_from (results : list Product.t)
    (updates : list InventoryUpdate.t) : F (list Product.t) :=
  match updates with
  | [] => lift (ret results)
  | update :: rest =>
      (product <- updateInventory (InventoryUpdate.productId update)
                    (InventoryUpdate.quantity update)
                    (InventoryUpdate.op update) ;;
       bulkUpdateInventory_from (results ++ [product]) rest)%double
  end.

Definition bulkUpdateInventory (updates : list InventoryUpdate.t)
    : F (list Product.t) :=
  bulkUpdateInventory_from [] updates.

(** ** Orders *)

Fixpoint calculateOrderTotal_from (calculatedItems : list CalculatedItem.t)
    (subtotal : Z) (items : list CartItem.t)
    : F (list CalculatedItem.t * Z) :=
  match items with
  | [] => lift (ret (calculatedItems, subtotal))
  | item :: rest =>
      (product <- lift (getProduct (CartItem.productId item)) ;;
       match product with
       | None => lift (throw (ProductNotFound (CartItem.productId item)))
       | Some product =>
           price <- number (Binary64.read (Product.price product)) ;;
           quantity <- number (Binary64.read (CartItem.quantity item)) ;;
           lineTotal <- number (Binary64.mul price quantity) ;;
           stock <- number (Binary64.read (Product.stock product)) ;;
           let inStock := stock >=? quantity in
           subtotal <- number (Binary64.add subtotal lineTotal) ;;
           calculateOrderTotal_from
             (calculatedItems ++
              [CalculatedItem.mk (CartItem.productId item)
                 (Product.name product) price quantity lineTotal inStock])
             subtotal rest
       end)%double
  end.

Definition calculateOrderTotal (items : list CartItem.t)
    : F OrderCalculation.t :=
  (r <- calculateOrderTotal_from [] 0 items ;;
   let '(calculatedItems, subtotal) := r in
   let allInStock := forallb CalculatedItem.inStock calculatedItems in
   if negb allInStock then
     let outOfStock :=
       filter (fun item => negb (CalculatedItem.inStock item))
              calculatedItems in
     lift (throw (ItemsOutOfStock (map CalculatedItem.name outOfStock)))
   else
     let tax := Binary64.Math_round_times_0_08 subtotal in
     let shipping := if subtotal >? 5000 then 0 else 500 in
     withTax <- number (Binary64.add subtotal tax) ;;
     total <- number (Binary64.add withTax shipping) ;;
     lift (ret (OrderCalculation.mk subtotal tax shipping total
                  calculatedItems)))%double.

Definition insert_order_item (orderId : string) (now : Z)
    (item : OrderItem.t) : F unit :=
  (id <- lift (crypto_randomUUID randomUUID) ;;
   price <- number (Binary64.read (OrderItem.price item)) ;;
   quantity <- number (Binary64.read (OrderItem.quantity item)) ;;
   lineTotal <- number (Binary64.mul price quantity) ;;
   lift (db_insert_order_item
           (OrderItemRow.mk id orderId (OrderItem.productId item)
              (OrderItem.name item) quantity price lineTotal now)))%double.

Definition createOrder (input : CreateOrderInput.t) : F Order.t :=
  (now <- lift (new_Date clock) ;;
   calculation <- calculateOrderTotal
                    (map line_of (CreateOrderInput.items input)) ;;
   let orderItems :=
     map order_item_of (OrderCalculation.items calculation) in
   id <- lift (crypto_randomUUID randomUUID) ;;
   let order :=
     Order.mk id (CreateOrderInput.userId input) pending orderItems
       (OrderCalculation.subtotal calculation)
       (OrderCalculation.tax calculation)
       (OrderCalculation.shipping calculation)
       (OrderCalculation.total calculation)
       (CreateOrderInput.shippingAddress input)
       (CreateOrderInput.billingAddress input)
       (CreateOrderInput.paymentMethodId input)
       (CreateOrderInput.notes input)
       now now in
   lift (db_insert_order order) ;;
   for_each (insert_order_item (Order.id order) now) orderItems ;;
   bulkUpdateInventory
     (map decrement_of (CreateOrderInput.items input)) ;;
   lift (ret order))%double.

End Methods.

End Rounded.

(** A store whose one product costs [price], with five in stock. *)
Definition priced (price : Z) : World :=
  mkWorld [Product.mk "p1"%string "Widget"%string None None price
             "usd"%string [] 5 true None None 0 0] [] [] [] 0 0.



(** ** Notions on the amounts that the doubles hold exactly *)

(** The sum of price times quantity over the lines whose product exists. *)
Definition line_sum (ps : list Product.t) (items : list CartItem.t) : Z :=
  fold_right
    (fun item acc =>
       match Db.get Product.id ps (CartItem.productId item) with
       | Some product => Product.price product * CartItem.quantity item
       | None => 0
       end + acc)
    0 items.

(** Lines of amounts that are not negative, with prices, quantities and
    stocks of at most [2^53] and a sum of at most [2^51]. *)
Definition exact_lines (ps : list Product.t) (items : list CartItem.t)
    : Prop :=
  (forall item product,
     In item items ->
     Db.get Product.id ps (CartItem.productId item) = Some product ->
     0 <= Product.price product <= 2 ^ 53 /\
     0 <= CartItem.quantity item <= 2 ^ 53 /\
     0 <= Product.stock product <= 2 ^ 53) /\
  line_sum ps items <= 2 ^ 51.

(** * Properties *)

(** ** The record store *)

Section DbFacts.
Context {R : Type} (id_of : R -> string).

Lemma get_update_same (rows : list R) (id : string) (old data : R) :
  Db.get id_of rows id = Some old ->
  id_of data = id ->
  Db.get id_of (Db.update id_of rows id data) id = Some data.
Proof.
  unfold Db.get, Db.update. intros Hget Hid.
  induction rows as [|r rows IH]; simpl in *; [discriminate|].
  destruct (String.eqb (id_of r) id) eqn:E.
  - rewrite Hid, String.eqb_refl. reflexivity.
  - rewrite E. apply IH. exact Hget.
Qed.


Lemma get_some_id (rows : list R) (id : string) (r : R) :
  Db.get id_of rows id = Some r -> id_of r = id /\ In r rows.
Proof.
  unfold Db.get. intros H. apply find_some in H. destruct H as [Hin E].
  apply String.eqb_eq in E. auto.
Qed.
End DbFacts.

(** ** Inventory *)

Section InventoryFacts.
Variable clock : nat -> Z.

(** What [updateProduct] does to an existing product when only the stock
    is sent. *)
Lemma updateProduct_stock (w : World) (productId : string)
    (existing : Product.t) (newStock : Z) :
  Db.get Product.id (products w) productId = Some existing ->
  let updated := merge_updates existing (stock_update newStock) productId
                   (clock (clock_reads w)) in
  updateProduct clock productId (stock_update newStock) w =
    (with_products (Db.update Product.id (products w) productId updated)
       (tick w),
     Ok updated).
Proof.
  intros Hget. unfold updateProduct, bind, getProduct, new_Date, ret.
  rewrite Hget. reflexivity.
Qed.

Lemma updateInventory_missing (w : World) (productId : string) (q : Z)
    (op : InventoryUpdate.operation) :
  Db.get Product.id (products w) productId = None ->
  updateInventory clock productId q op w = (w, Err (ProductNotFound productId)).
Proof.
  intros Hget. unfold updateInventory, bind, getProduct, throw.
  rewrite Hget. reflexivity.
Qed.

Lemma updateInventory_found (w : World) (productId : string) (q : Z)
    (op : InventoryUpdate.operation) (product : Product.t) :
  Db.get Product.id (products w) productId = Some product ->
  updateInventory clock productId q op w =
    if refused op (Product.stock product) q
    then (w, Err (InsufficientStock productId (Product.stock product) q))
    else
      let updated :=
        merge_updates product
          (stock_update (target_stock op (Product.stock product) q))
          productId (clock (clock_reads w)) in
      (with_products (Db.update Product.id (products w) productId updated)
         (tick w),
       Ok updated).
Proof.
  intros Hget. unfold updateInventory, bind at 1, getProduct at 1.
  rewrite Hget.
  destruct op; simpl.
  - apply updateProduct_stock; exact Hget.
  - apply updateProduct_stock; exact Hget.
  - destruct (Product.stock product - q <? 0); [reflexivity|].
    apply updateProduct_stock; exact Hget.
Qed.

(** A throw of [updateInventory] happens before any write. *)
Lemma updateInventory_err_unchanged (w w' : World) (productId : string)
    (q : Z) (op : InventoryUpdate.operation) (e : error) :
  updateInventory clock productId q op w = (w', Err e) -> w' = w.
Proof.
  destruct (Db.get Product.id (products w) productId) as [product|] eqn:Hget.
  - rewrite (updateInventory_found _ _ _ _ _ Hget).
    destruct (refused op (Product.stock product) q); simpl; congruence.
  - rewrite (updateInventory_missing _ _ _ _ Hget). congruence.
Qed.

(** [updateInventory] writes to the products only. *)
Lemma updateInventory_frame (w w' : World) (productId : string) (q : Z)
    (op : InventoryUpdate.operation) (r : result Product.t) :
  updateInventory clock productId q op w = (w', r) ->
  orders w' = orders w /\ order_items w' = order_items w /\
  carts w' = carts w /\ uuid_draws w' = uuid_draws w.
Proof.
  destruct (Db.get Product.id (products w) productId) as [product|] eqn:Hget.
  - rewrite (updateInventory_found _ _ _ _ _ Hget).
    destruct (refused op (Product.stock product) q); simpl;
      intros H; inversion H; subst; simpl; auto.
  - rewrite (updateInventory_missing _ _ _ _ Hget).
    intros H; inversion H; subst; auto.
Qed.



End InventoryFacts.

(** ** Order totals *)

(** The tax is the integer nearest to eight hundredths of the subtotal. *)
Lemma tax_of_nearest (s : Z) :
  tax_of s = (4 * s + 25) / 50 /\
  100 * tax_of s - 50 <= 8 * s < 100 * tax_of s + 50.
Proof.
  assert (E : tax_of s = (4 * s + 25) / 50).
  { unfold tax_of, Math_round, Qfloor, Qplus, Qmult, inject_Z.
    cbn [Qnum Qden].
    change (Z.pos (1 * 100 * 2)) with (50 * 4).
    replace (s * 8 * 2 + 1 * Z.pos (1 * 100)) with ((4 * s + 25) * 4) by lia.
    rewrite Z.div_mul_cancel_r by lia. reflexivity. }
  split; [exact E|]. rewrite E.
  pose proof (Z.div_mod (4 * s + 25) 50 ltac:(lia)) as Hdm.
  pose proof (Z.mod_pos_bound (4 * s + 25) 50 ltac:(lia)) as Hb.
  lia.
Qed.

Lemma calculateOrderTotal_from_spec (items : list CartItem.t) :
  forall (acc : list CalculatedItem.t) (sub : Z) (w : World),
    calculateOrderTotal_from acc sub items w =
      (w, match resolve_lines (products w) items with
          | Ok ls => Ok (acc ++ ls, sub + sum_lines ls)
          | Err e => Err e
          end).
Proof.
  induction items as [|item rest IH]; intros acc sub w; simpl.
  - unfold ret. rewrite app_nil_r, Z.add_0_r. reflexivity.
  - unfold bind, getProduct.
    destruct (Db.get Product.id (products w) (CartItem.productId item))
      as [product|]; [|reflexivity].
    rewrite IH. fold (calculated_line product item).
    destruct (resolve_lines (products w) rest) as [ls|e]; [|reflexivity].
    rewrite <- app_assoc. simpl. do 3 f_equal. lia.
Qed.

Lemma calculateOrderTotal_spec (items : list CartItem.t) (w : World) :
  calculateOrderTotal items w =
    (w, totals_of (resolve_lines (products w) items)).
Proof.
  unfold calculateOrderTotal, bind. rewrite calculateOrderTotal_from_spec.
  destruct (resolve_lines (products w) items) as [ls|e]; [|reflexivity].
  simpl. destruct (forallb CalculatedItem.inStock ls); reflexivity.
Qed.

Lemma totals_of_sum (r : result (list CalculatedItem.t))
    (c : OrderCalculation.t) :
  totals_of r = Ok c ->
  OrderCalculation.total c =
    OrderCalculation.subtotal c + OrderCalculation.tax c +
    OrderCalculation.shipping c /\
  OrderCalculation.tax c = tax_of (OrderCalculation.subtotal c) /\
  OrderCalculation.shipping c = shipping_of (OrderCalculation.subtotal c).
Proof.
  destruct r as [ls|e]; simpl; [|discriminate].
  destruct (forallb CalculatedItem.inStock ls); [|discriminate].
  intros H. inversion H; subst; simpl. auto.
Qed.

(** ** Bulk updates and order creation *)

Section OrderFacts.
Variable randomUUID : nat -> string.
Variable clock : nat -> Z.

(** [bulkUpdateInventory] writes to the products only. *)
Lemma bulkUpdateInventory_frame (us : list InventoryUpdate.t) :
  forall (rs : list Product.t) (w w' : World) (r : result (list Product.t)),
    bulkUpdateInventory_from clock rs us w = (w', r) ->
    orders w' = orders w /\ order_items w' = order_items w /\
    carts w' = carts w /\ uuid_draws w' = uuid_draws w.
Proof.
  induction us as [|u us IH]; intros rs w w' r; simpl.
  - unfold ret. intros H; inversion H; subst; auto.
  - unfold bind.
    destruct (updateInventory clock _ _ _ w) as [w1 [p|e]] eqn:E;
      apply updateInventory_frame in E; destruct E as (Ho & Hi & Hc & Hu).
    + intros H. apply IH in H. destruct H as (Ho' & Hi' & Hc' & Hu').
      repeat split; congruence.
    + intros H; inversion H; subst; auto.
Qed.

(** The entries are applied in order, and the first throw ends the loop:
    the entries before it stay applied, the ones after it are not run. *)
Lemma bulkUpdateInventory_abort (pre post : list InventoryUpdate.t)
    (u : InventoryUpdate.t) :
  forall (rs rs1 : list Product.t) (w w1 w2 : World) (e : error),
    bulkUpdateInventory_from clock rs pre w = (w1, Ok rs1) ->
    run_update clock u w1 = (w2, Err e) ->
    bulkUpdateInventory_from clock rs (pre ++ u :: post) w = (w1, Err e).
Proof.
  induction pre as [|x pre IH]; intros rs rs1 w w1 w2 e; simpl.
  - unfold ret, bind, run_update. intros H Hu; inversion H; subst.
    rewrite Hu. f_equal. eapply updateInventory_err_unchanged; eauto.
  - unfold bind.
    destruct (updateInventory clock _ _ _ w) as [w' [p|e']];
      [|discriminate].
    intros H Hu. eapply IH; eauto.
Qed.

(** Conversely, a throw of the loop is the throw of one entry, met after
    all the entries before it were applied. *)
Lemma bulkUpdateInventory_err (us : list InventoryUpdate.t) :
  forall (rs : list Product.t) (w w' : World) (e : error),
    bulkUpdateInventory_from clock rs us w = (w', Err e) ->
    exists pre u post rs1,
      us = pre ++ u :: post /\
      bulkUpdateInventory_from clock rs pre w = (w', Ok rs1) /\
      run_update clock u w' = (w', Err e).
Proof.
  induction us as [|x us IH]; intros rs w w' e; simpl.
  - unfold ret. discriminate.
  - unfold bind.
    destruct (updateInventory clock _ _ _ w) as [w1 [p|e1]] eqn:E.
    + intros H. apply IH in H.
      destruct H as (pre & u & post & rs1 & Hus & Hpre & Hu).
      exists (x :: pre), u, post, rs1. subst us. split; [reflexivity|].
      split; [|exact Hu]. simpl. unfold bind. rewrite E. exact Hpre.
    + intros H. inversion H; subst.
      pose proof (updateInventory_err_unchanged _ _ _ _ _ _ _ E) as Hw.
      subst w'.
      exists [], x, us, rs. split; [reflexivity|].
      split; [reflexivity | exact E].
Qed.

Lemma insert_order_items_spec (orderId : string) (now : Z)
    (items : list OrderItem.t) :
  forall w : World,
    for_each (insert_order_item randomUUID orderId now) items w =
      (mkWorld (products w) (orders w)
         (order_items w ++ order_item_rows randomUUID orderId now (uuid_draws w) items)
         (carts w) (uuid_draws w + List.length items) (clock_reads w),
       Ok tt).
Proof.
  induction items as [|item rest IH]; intros w; simpl.
  - unfold ret. rewrite app_nil_r, Nat.add_0_r. destruct w; reflexivity.
  - unfold bind at 1. unfold insert_order_item at 1.
    unfold bind at 1. unfold crypto_randomUUID at 1.
    unfold db_insert_order_item at 1. rewrite IH. simpl.
    unfold Db.insert. rewrite <- app_assoc. simpl.
    rewrite Nat.add_succ_r. reflexivity.
Qed.

(** [createOrder], step by step. *)
Lemma createOrder_spec (input : CreateOrderInput.t) (w : World) :
  createOrder randomUUID clock input w =
    match totals_of (resolve_lines (products w)
                       (map line_of (CreateOrderInput.items input))) with
    | Err e => (tick w, Err e)
    | Ok calculation =>
        let order := order_of randomUUID clock w input calculation in
        match bulkUpdateInventory clock
                (map decrement_of (CreateOrderInput.items input))
                (inserted randomUUID w order) with
        | (w', Ok _) => (w', Ok order)
        | (w', Err e) => (w', Err e)
        end
    end.
Proof.
  unfold createOrder. unfold bind at 1. unfold new_Date at 1.
  unfold bind at 1. rewrite calculateOrderTotal_spec. simpl products.
  destruct (totals_of _) as [calculation|e]; [|reflexivity].
  unfold bind at 1. unfold crypto_randomUUID at 1. simpl.
  unfold bind at 1. unfold db_insert_order at 1.
  unfold bind at 1. rewrite insert_order_items_spec. simpl.
  unfold bind at 1. unfold inserted, order_of, Db.insert, with_orders. simpl.
  destruct (bulkUpdateInventory clock _ _) as [w' [rs|e]]; reflexivity.
Qed.

End OrderFacts.

Section OrderTheorems.
Variable randomUUID : nat -> string.
Variable clock : nat -> Z.

(** The lines resolved are those of the items. *)
Lemma resolve_lines_In (ps : list Product.t) (items : list CartItem.t) :
  forall ls, resolve_lines ps items = Ok ls ->
  forall l, In l ls <->
    exists item product,
      In item items /\
      Db.get Product.id ps (CartItem.productId item) = Some product /\
      l = calculated_line product item.
Proof.
  induction items as [|item rest IH]; simpl; intros ls H l.
  - inversion H; subst. simpl. split; [tauto|].
    intros (i & p & [] & _).
  - destruct (Db.get Product.id ps (CartItem.productId item))
      as [product|] eqn:G; [|discriminate].
    destruct (resolve_lines ps rest) as [ls'|e]; [|discriminate].
    inversion H; subst. simpl. rewrite (IH ls' eq_refl l). split.
    + intros [Hl | (i & p & Hin & Hg & Hl)].
      * exists item, product. auto.
      * exists i, p. auto.
    + intros (i & p & [Hi | Hin] & Hg & Hl).
      * subst i. left. congruence.
      * right. exists i, p. auto.
Qed.

Lemma resolve_lines_total (ps : list Product.t) (items : list CartItem.t) :
  (forall item, In item items ->
     Db.get Product.id ps (CartItem.productId item) <> None) ->
  exists ls, resolve_lines ps items = Ok ls.
Proof.
  induction items as [|item rest IH]; simpl; intros H; [eauto|].
  destruct (Db.get Product.id ps (CartItem.productId item))
    as [product|] eqn:G.
  - destruct IH as [ls E]; [intros; apply H; auto|]. rewrite E. eauto.
  - exfalso. apply (H item); auto.
Qed.

Lemma map_line_of (items : list CartItem.t) : map line_of items = items.
Proof.
  induction items as [|[p q] rest IH]; simpl; [reflexivity|].
  rewrite IH. reflexivity.
Qed.

(** The lines before the first one whose product does not exist resolve,
    and that line gives the error. *)
Lemma resolve_lines_missing (ps : list Product.t) (items : list CartItem.t) :
  (exists item,
     In item items /\
     Db.get Product.id ps (CartItem.productId item) = None) ->
  exists pre missing post,
    items = pre ++ missing :: post /\
    (forall item, In item pre ->
       Db.get Product.id ps (CartItem.productId item) <> None) /\
    Db.get Product.id ps (CartItem.productId missing) = None /\
    resolve_lines ps items
      = Err (ProductNotFound (CartItem.productId missing)).
Proof.
  induction items as [|item rest IH]; intros (i & Hin & Hnone).
  - destruct Hin.
  - simpl.
    destruct (Db.get Product.id ps (CartItem.productId item))
      as [product|] eqn:G.
    + destruct Hin as [<- | Hin]; [congruence|].
      destruct IH as (pre & missing & post & -> & Hpre & Hm & E); [eauto|].
      exists (item :: pre), missing, post. split; [reflexivity|].
      split.
      { intros x [<- | Hx]; [congruence | apply Hpre; exact Hx]. }
      split; [exact Hm|]. rewrite E. reflexivity.
    + exists [], item, rest. split; [reflexivity|].
      split; [intros x []|]. split; [exact G | reflexivity].
Qed.

(** A line that asks for more than the stock of its product makes the
    calculation throw. *)
Lemma totals_of_out_of_stock (ps : list Product.t) (items : list CartItem.t) :
  (exists item product,
     In item items /\
     Db.get Product.id ps (CartItem.productId item) = Some product /\
     Product.stock product < CartItem.quantity item) ->
  exists e, totals_of (resolve_lines ps items) = Err e.
Proof.
  intros (item & product & Hin & Hget & Hlt).
  destruct (resolve_lines ps items) as [ls|e] eqn:Els; [|simpl; eauto].
  pose proof (resolve_lines_In _ _ _ Els) as HIn. simpl.
  destruct (forallb CalculatedItem.inStock ls) eqn:F; [|eauto].
  rewrite forallb_forall in F.
  assert (Hl : In (calculated_line product item) ls).
  { apply HIn. exists item, product. auto. }
  apply F in Hl. simpl in Hl. apply Z.geb_le in Hl. lia.
Qed.

(** C3, as the code has it: when some line asks for more than the stock of
    its product, [createOrder] throws and writes no order, no order item
    and no stock.  When every line names an existing product the error is
    the out-of-stock error, whose names are exactly the names of the
    products of the lines that ask for too much; otherwise it is the
    not-found error of the first line whose product does not exist. *)
Theorem createOrder_out_of_stock (input : CreateOrderInput.t) (w : World) :
  (exists item product,
     In item (CreateOrderInput.items input) /\
     Db.get Product.id (products w) (CartItem.productId item)
       = Some product /\
     Product.stock product < CartItem.quantity item) ->
  let run := createOrder randomUUID clock input w in
  (exists e, snd run = Err e) /\
  orders (fst run) = orders w /\
  order_items (fst run) = order_items w /\
  products (fst run) = products w /\
  carts (fst run) = carts w /\
  ((forall item, In item (CreateOrderInput.items input) ->
      Db.get Product.id (products w) (CartItem.productId item) <> None) ->
   exists names,
     snd run = Err (ItemsOutOfStock names) /\
     forall n, In n names <->
       exists item product,
         In item (CreateOrderInput.items input) /\
         Db.get Product.id (products w) (CartItem.productId item)
           = Some product /\
         Product.stock product < CartItem.quantity item /\
         Product.name product = n) /\
  ((exists item,
      In item (CreateOrderInput.items input) /\
      Db.get Product.id (products w) (CartItem.productId item) = None) ->
   exists pre missing post,
     CreateOrderInput.items input = pre ++ missing :: post /\
     (forall item, In item pre ->
        Db.get Product.id (products w) (CartItem.productId item) <> None) /\
     Db.get Product.id (products w) (CartItem.productId missing) = None /\
     snd run = Err (ProductNotFound (CartItem.productId missing))).
Proof.
  intros Hout run. subst run.
  rewrite createOrder_spec, map_line_of.
  destruct (totals_of_out_of_stock _ _ Hout) as [e He].
  split; [rewrite He; simpl; eauto|].
  do 4 (split; [rewrite He; reflexivity|]).
  clear e He. destruct Hout as (item & product & Hin & Hget & Hlt). split.
  - intros Hall.
    destruct (resolve_lines_total _ _ Hall) as [ls Els]. rewrite Els.
    pose proof (resolve_lines_In _ _ _ Els) as HIn.
    assert (Hbad : forallb CalculatedItem.inStock ls = false).
    { destruct (forallb CalculatedItem.inStock ls) eqn:F; [|reflexivity].
      rewrite forallb_forall in F.
      assert (Hl : In (calculated_line product item) ls).
      { apply HIn. exists item, product. auto. }
      apply F in Hl. simpl in Hl. apply Z.geb_le in Hl. lia. }
    simpl. rewrite Hbad. simpl.
    eexists. split; [reflexivity|]. intros n.
    rewrite in_map_iff. split.
    + intros (l & Hn & Hl). apply filter_In in Hl. destruct Hl as [Hl Hs].
      apply HIn in Hl. destruct Hl as (i & p & Hi & Hg & El). subst l.
      simpl in *. exists i, p. repeat split; auto.
      apply negb_true_iff in Hs. rewrite Z.geb_leb in Hs.
      apply Z.leb_gt in Hs. exact Hs.
    + intros (i & p & Hi & Hg & Hs & Hn).
      exists (calculated_line p i). split; [exact Hn|].
      apply filter_In. split; [apply HIn; exists i, p; auto|].
      simpl. apply negb_true_iff. rewrite Z.geb_leb. apply Z.leb_gt. exact Hs.
  - intros Hmiss.
    destruct (resolve_lines_missing _ _ Hmiss)
      as (pre & missing & post & Hitems & Hpre & Hm & E).
    exists pre, missing, post. rewrite E. simpl. auto.
Qed.

(** C4: [bulkUpdateInventory] runs its entries in the order given and
    stops at the first throw, keeping what the earlier entries wrote; and
    [createOrder] inserts the order and its items before it runs the
    decrements, so that a decrement that throws leaves the order, its
    items and the earlier decrements on record and its error is the one
    thrown by [createOrder]. *)
Theorem createOrder_partial_failure (input : CreateOrderInput.t)
    (w w' : World) (e : error) :
  createOrder randomUUID clock input w = (w', Err e) ->
  thrown_after randomUUID clock input w w' e /\
  (forall pre u post w0 w1 w2 rs e',
     bulkUpdateInventory clock pre w0 = (w1, Ok rs) ->
     run_update clock u w1 = (w2, Err e') ->
     bulkUpdateInventory clock (pre ++ u :: post) w0 = (w1, Err e')).
Proof.
  intros H. split.
  - unfold thrown_after. rewrite createOrder_spec in H.
    destruct (totals_of _) as [c|e0] eqn:E.
    + right. simpl in H.
      destruct (bulkUpdateInventory clock _ _) as [w1 [rs|e1]] eqn:B;
        [discriminate|].
      inversion H; subst. unfold bulkUpdateInventory in B.
      pose proof (bulkUpdateInventory_frame _ _ _ _ _ _ B)
        as (Ho & Hi & Hc & _).
      apply bulkUpdateInventory_err in B.
      destruct B as (pre & u & post & rs1 & Hus & Hpre & Hu).
      exists c, pre, u, post, rs1. simpl.
      repeat split; assumption.
    + left. inversion H; subst. auto.
  - intros pre u post w0 w1 w2 rs e' Hpre Hu.
    unfold bulkUpdateInventory in *.
    exact (bulkUpdateInventory_abort _ _ _ _ _ _ _ _ _ _ Hpre Hu).
Qed.

End OrderTheorems.

(** ** The active flag *)

Section ActiveFlag.
Variable randomUUID : nat -> string.
Variable clock : nat -> Z.

Variable flags : string -> bool.

Lemma get_reflag (ps : list Product.t) (productId : string) :
  Db.get Product.id (map (reflag_product flags) ps) productId =
    option_map (reflag_product flags) (Db.get Product.id ps productId).
Proof.
  unfold Db.get. induction ps as [|p ps IH]; simpl; [reflexivity|].
  destruct (String.eqb (Product.id p) productId); [reflexivity | exact IH].
Qed.

Lemma update_reflag (ps : list Product.t) (productId : string)
    (data : Product.t) :
  Db.update Product.id (map (reflag_product flags) ps) productId
    (reflag_product flags data) =
  map (reflag_product flags) (Db.update Product.id ps productId data).
Proof.
  unfold Db.update. rewrite !map_map. apply map_ext. intros p. simpl.
  destruct (String.eqb (Product.id p) productId); reflexivity.
Qed.

Lemma resolve_lines_reflag (ps : list Product.t) (items : list CartItem.t) :
  resolve_lines (map (reflag_product flags) ps) items =
    resolve_lines ps items.
Proof.
  induction items as [|item rest IH]; simpl; [reflexivity|].
  rewrite get_reflag, IH.
  destruct (Db.get Product.id ps (CartItem.productId item)); reflexivity.
Qed.

Lemma updateInventory_reflag (w : World) (productId : string) (q : Z)
    (op : InventoryUpdate.operation) :
  updateInventory clock productId q op (reflag flags w) =
    (reflag flags (fst (updateInventory clock productId q op w)),
     map_result (reflag_product flags)
       (snd (updateInventory clock productId q op w))).
Proof.
  destruct (Db.get Product.id (products w) productId) as [p|] eqn:G.
  - assert (G' : Db.get Product.id (products (reflag flags w)) productId
                 = Some (reflag_product flags p)).
    { simpl. rewrite get_reflag, G. reflexivity. }
    rewrite (updateInventory_found _ _ _ _ _ _ G').
    rewrite (updateInventory_found _ _ _ _ _ _ G).
    change (Product.stock (reflag_product flags p)) with (Product.stock p).
    destruct (refused op (Product.stock p) q); [reflexivity|].
    apply get_some_id in G. destruct G as [Hid _].
    cbv zeta. simpl fst. simpl snd. simpl map_result.
    set (s := stock_update _).
    assert (E : merge_updates (reflag_product flags p) s productId
                  (clock (clock_reads (reflag flags w))) =
                reflag_product flags
                  (merge_updates p s productId (clock (clock_reads w)))).
    { unfold reflag_product, with_isActive, merge_updates. simpl.
      rewrite Hid. reflexivity. }
    rewrite E. f_equal. unfold reflag, with_products, tick. simpl.
    rewrite update_reflag. reflexivity.
  - assert (G' : Db.get Product.id (products (reflag flags w)) productId
                 = None).
    { simpl. rewrite get_reflag, G. reflexivity. }
    rewrite (updateInventory_missing _ _ _ _ _ G').
    rewrite (updateInventory_missing _ _ _ _ _ G). reflexivity.
Qed.

Lemma bulkUpdateInventory_reflag (us : list InventoryUpdate.t) :
  forall (rs : list Product.t) (w : World),
    bulkUpdateInventory_from clock (map (reflag_product flags) rs) us
      (reflag flags w) =
    (reflag flags (fst (bulkUpdateInventory_from clock rs us w)),
     map_result (map (reflag_product flags))
       (snd (bulkUpdateInventory_from clock rs us w))).
Proof.
  induction us as [|u us IH]; intros rs w; simpl; [reflexivity|].
  unfold bind. rewrite updateInventory_reflag.
  destruct (updateInventory clock _ _ _ w) as [w1 [p|e]]; simpl;
    [|reflexivity].
  rewrite <- IH. rewrite map_app. reflexivity.
Qed.

Lemma createOrder_reflag (input : CreateOrderInput.t) (w : World) :
  createOrder randomUUID clock input (reflag flags w) =
    (reflag flags (fst (createOrder randomUUID clock input w)),
     snd (createOrder randomUUID clock input w)).
Proof.
  rewrite !createOrder_spec. simpl products. rewrite resolve_lines_reflag.
  destruct (totals_of _) as [c|e]; [|reflexivity].
  cbv zeta.
  change (inserted randomUUID (reflag flags w)
            (order_of randomUUID clock (reflag flags w) input c))
    with (reflag flags
            (inserted randomUUID w (order_of randomUUID clock w input c))).
  unfold bulkUpdateInventory.
  change (@nil Product.t) with (map (reflag_product flags) []) at 1.
  rewrite bulkUpdateInventory_reflag.
  destruct (bulkUpdateInventory_from clock [] _ _) as [w1 [rs|e]];
    reflexivity.
Qed.

End ActiveFlag.

Section SoftDeleted.
Variable randomUUID : nat -> string.
Variable clock : nat -> Z.

(** One decrement that the stock covers. *)
Lemma bulkUpdateInventory_one_decrement (w : World) (productId : string)
    (q : Z) (product : Product.t) :
  Db.get Product.id (products w) productId = Some product ->
  0 <= Product.stock product - q ->
  let updated :=
    merge_updates product (stock_update (Product.stock product - q))
      productId (clock (clock_reads w)) in
  bulkUpdateInventory clock [decrement_of (CartItem.mk productId q)] w =
    (with_products (Db.update Product.id (products w) productId updated)
       (tick w),
     Ok [updated]).
Proof.
  intros G Hq. unfold bulkUpdateInventory. simpl. unfold bind.
  rewrite (updateInventory_found _ _ _ _ _ _ G). simpl.
  destruct (Z.ltb_spec (Product.stock product - q) 0); [lia|reflexivity].
Qed.

(** C10: the order path does not look at the active flag.  For a
    soft-deleted product whose stock covers the quantity asked,
    [calculateOrderTotal] succeeds and [createOrder] records the order
    and stores the stock less the quantity; and whatever the lines are,
    giving other active flags to the products changes neither what
    [calculateOrderTotal] and [createOrder] return nor what they write
    (the flags apart). *)
Theorem order_path_ignores_isActive (w : World) (productId : string)
    (q : Z) (product : Product.t) (input : CreateOrderInput.t) :
  Db.get Product.id (products w) productId = Some product ->
  Product.isActive product = false ->
  q <= Product.stock product ->
  CreateOrderInput.items input = [CartItem.mk productId q] ->
  (exists c,
     calculateOrderTotal (CreateOrderInput.items input) w = (w, Ok c)) /\
  (exists w' order product',
     createOrder randomUUID clock input w = (w', Ok order) /\
     orders w' = orders w ++ [order] /\
     Db.get Product.id (products w') productId = Some product' /\
     Product.stock product' = Product.stock product - q /\
     Product.isActive product' = false) /\
  (forall flags items,
     calculateOrderTotal items (reflag flags w) =
       (reflag flags w, snd (calculateOrderTotal items w))) /\
  (forall flags input',
     createOrder randomUUID clock input' (reflag flags w) =
       (reflag flags (fst (createOrder randomUUID clock input' w)),
        snd (createOrder randomUUID clock input' w))).
Proof.
  intros Hget Hoff Hq Hitems.
  assert (Hlines : resolve_lines (products w) (CreateOrderInput.items input)
                   = Ok [calculated_line product (CartItem.mk productId q)]).
  { rewrite Hitems. simpl. rewrite Hget. reflexivity. }
  assert (Hin : (Product.stock product >=? q) = true).
  { apply Z.geb_le. exact Hq. }
  split; [|split; [|split]].
  - rewrite calculateOrderTotal_spec, Hlines. simpl. rewrite Hin. simpl.
    eexists. reflexivity.
  - rewrite createOrder_spec, map_line_of, Hlines. simpl totals_of.
    rewrite Hin. cbv zeta. cbn [forallb andb].
    rewrite Hitems. cbn [map]. set (o := order_of _ _ _ _ _).
    assert (G : Db.get Product.id (products (inserted randomUUID w o))
                  productId = Some product) by exact Hget.
    rewrite (bulkUpdateInventory_one_decrement _ _ q _ G) by lia.
    eexists _, o, _. split; [reflexivity|]. split; [reflexivity|]. split.
    + cbn [products with_products].
      eapply get_update_same; [exact G | reflexivity].
    + split; [reflexivity | exact Hoff].
  - intros flags items. rewrite !calculateOrderTotal_spec. simpl.
    rewrite resolve_lines_reflag. reflexivity.
  - intros flags input'. apply createOrder_reflag.
Qed.

End SoftDeleted.

(** ** Carts and checkout *)

Section CartFacts.
Variable randomUUID : nat -> string.
Variable clock : nat -> Z.

Lemma getCart_spec (userId : string) (w : World) :
  getCart userId w =
    (w, Ok (map cart_item_of (Db.query (carts w) (where_user userId)))).
Proof. reflexivity. Qed.

Lemma delete_rows_spec (items : list CartRow.t) :
  forall w : World,
    for_each (fun item => db_delete_cart (CartRow.id item)) items w =
      (with_carts (delete_all (map CartRow.id items) (carts w)) w, Ok tt).
Proof.
  induction items as [|item rest IH]; intros w; simpl.
  - unfold ret. destruct w; reflexivity.
  - unfold bind, db_delete_cart. rewrite IH. reflexivity.
Qed.

Lemma clearCart_spec (userId : string) (w : World) :
  clearCart userId w =
    (with_carts
       (delete_all
          (map CartRow.id (Db.query (carts w) (where_user userId)))
          (carts w)) w,
     Ok tt).
Proof.
  unfold clearCart, bind, db_query_carts. apply delete_rows_spec.
Qed.

Lemma In_delete_all (ids : list string) :
  forall (rows : list CartRow.t) (r : CartRow.t),
    In r (delete_all ids rows) <-> In r rows /\ ~ In (CartRow.id r) ids.
Proof.
  induction ids as [|id ids IH]; intros rows r; simpl.
  - tauto.
  - rewrite IH. unfold Db.delete. rewrite filter_In, negb_true_iff.
    rewrite String.eqb_neq. split.
    + intros [[Hin Hne] Hnot]. split; [exact Hin|].
      intros [E | Hi]; [congruence | tauto].
    + intros [Hin Hnot]. repeat split; auto.
Qed.

Lemma filter_none {A} (f : A -> bool) (l : list A) :
  (forall x, In x l -> f x = false) -> filter f l = [].
Proof.
  induction l as [|x l IH]; simpl; intros H; [reflexivity|].
  rewrite (H x) by auto. apply IH. intros y Hy. apply H. auto.
Qed.

(** Once [clearCart] is through, the user has no row left. *)
Lemma clearCart_empties (userId : string) (w : World) :
  Db.query (carts (fst (clearCart userId w))) (where_user userId) = [].
Proof.
  rewrite clearCart_spec. simpl. unfold Db.query at 1.
  apply filter_none. intros r Hr.
  apply In_delete_all in Hr. destruct Hr as [Hin Hnot].
  destruct (where_user userId r) eqn:E; [|reflexivity].
  exfalso. apply Hnot. apply in_map. unfold Db.query.
  apply filter_In. auto.
Qed.

(** [createOrder] never writes to the carts. *)
Lemma createOrder_carts (input : CreateOrderInput.t) (w : World) :
  carts (fst (createOrder randomUUID clock input w)) = carts w.
Proof.
  rewrite createOrder_spec.
  destruct (totals_of _) as [c|e]; [|reflexivity].
  cbv zeta.
  destruct (bulkUpdateInventory clock _ _) as [w' [rs|e]] eqn:B;
    unfold bulkUpdateInventory in B;
    apply bulkUpdateInventory_frame in B; destruct B as (_ & _ & Hc & _);
    exact Hc.
Qed.

(** [checkout], step by step. *)
Lemma checkout_spec (userId : string) (shippingAddress : Address.t)
    (paymentMethodId : option string) (w : World) :
  checkout randomUUID clock userId shippingAddress paymentMethodId w =
    match Db.query (carts w) (where_user userId) with
    | [] => (w, Err CartIsEmpty)
    | _ :: _ =>
        match createOrder randomUUID clock
                (checkout_input userId shippingAddress paymentMethodId w)
                w with
        | (w1, Err e) => (w1, Err e)
        | (w1, Ok order) => (fst (clearCart userId w1), Ok order)
        end
    end.
Proof.
  unfold checkout. unfold bind at 1. rewrite getCart_spec.
  unfold checkout_input.
  destruct (Db.query (carts w) (where_user userId)) as [|row rows];
    [reflexivity|].
  cbn [map List.length Nat.eqb]. unfold bind at 1.
  destruct (createOrder randomUUID clock _ w) as [w1 [order|e]];
    [|reflexivity].
  unfold bind at 1. rewrite clearCart_spec. reflexivity.
Qed.

(** C8: with no cart row for the user, [checkout] throws the empty-cart
    error and leaves the world as it was.  With some row, it runs
    [createOrder] on the lines of the cart; if that throws, [checkout]
    throws the same error and the carts are as they were; if it returns
    an order, [checkout] returns it after [clearCart], which leaves the
    user without any row and touches nothing but the carts. *)
Theorem checkout_cart (userId : string) (shippingAddress : Address.t)
    (paymentMethodId : option string) (w : World) :
  let run := checkout randomUUID clock userId shippingAddress
               paymentMethodId w in
  let created :=
    createOrder randomUUID clock
      (checkout_input userId shippingAddress paymentMethodId w) w in
  (Db.query (carts w) (where_user userId) = [] ->
   run = (w, Err CartIsEmpty)) /\
  (Db.query (carts w) (where_user userId) <> [] ->
   carts (fst created) = carts w /\
   match snd created with
   | Err e => run = (fst created, Err e)
   | Ok order =>
       run = (fst (clearCart userId (fst created)), Ok order) /\
       Db.query (carts (fst run)) (where_user userId) = [] /\
       products (fst run) = products (fst created) /\
       orders (fst run) = orders (fst created) /\
       order_items (fst run) = order_items (fst created)
   end).
Proof.
  intros run created. subst run created. rewrite checkout_spec.
  destruct (Db.query (carts w) (where_user userId)) as [|row rows] eqn:Q.
  - split; [reflexivity | congruence].
  - split; [discriminate|]. intros _.
    split; [apply createOrder_carts|].
    destruct (createOrder randomUUID clock _ w) as [w1 [order|e]];
      [|reflexivity].
    cbn [fst snd]. split; [reflexivity|].
    split; [apply clearCart_empties|].
    rewrite clearCart_spec. repeat split.
Qed.

(** *** The cart round trip *)

Lemma update_absent (rows : list CartRow.t) (id : string)
    (data : CartRow.t) :
  ~ In id (map CartRow.id rows) ->
  Db.update CartRow.id rows id data = rows.
Proof.
  unfold Db.update. induction rows as [|r rows IH]; simpl; intros H;
    [reflexivity|].
  destruct (String.eqb (CartRow.id r) id) eqn:E.
  - apply String.eqb_eq in E. tauto.
  - rewrite IH by tauto. reflexivity.
Qed.

Lemma delete_absent (rows : list CartRow.t) (id : string) :
  ~ In id (map CartRow.id rows) ->
  Db.delete CartRow.id rows id = rows.
Proof.
  unfold Db.delete. induction rows as [|r rows IH]; simpl; intros H;
    [reflexivity|].
  destruct (String.eqb (CartRow.id r) id) eqn:E; simpl.
  - apply String.eqb_eq in E. tauto.
  - rewrite IH by tauto. reflexivity.
Qed.

Lemma update_app (rows rows' : list CartRow.t) (id : string)
    (data : CartRow.t) :
  Db.update CartRow.id (rows ++ rows') id data =
    Db.update CartRow.id rows id data ++ Db.update CartRow.id rows' id data.
Proof. apply map_app. Qed.

Lemma delete_app (rows rows' : list CartRow.t) (id : string) :
  Db.delete CartRow.id (rows ++ rows') id =
    Db.delete CartRow.id rows id ++ Db.delete CartRow.id rows' id.
Proof. apply filter_app. Qed.

(** [addToCart] when the user has no row for the product. *)
Lemma addToCart_new (userId : string) (item : CartItem.t) (w : World) :
  Db.query (carts w) (where_user_product userId (CartItem.productId item))
    = [] ->
  fst (addToCart randomUUID clock userId item w) =
    mkWorld (products w) (orders w) (order_items w)
      (carts w ++
       [CartRow.mk (randomUUID (uuid_draws w)) userId
          (CartItem.productId item) (CartItem.quantity item)
          (clock (clock_reads w)) (clock (S (clock_reads w)))])
      (S (uuid_draws w)) (S (S (clock_reads w))).
Proof.
  intros Q. unfold addToCart. unfold bind at 1. unfold db_query_carts at 1.
  rewrite Q. reflexivity.
Qed.

(** [addToCart] when the first row of the user for the product is
    [existing]. *)
Lemma addToCart_existing (userId : string) (item : CartItem.t) (w : World)
    (existing : CartRow.t) (others : list CartRow.t) :
  Db.query (carts w) (where_user_product userId (CartItem.productId item))
    = existing :: others ->
  addToCart randomUUID clock userId item w =
    getCart userId
      (with_carts
         (Db.update CartRow.id (carts w) (CartRow.id existing)
            (CartRow.mk (CartRow.id existing) (CartRow.userId existing)
               (CartRow.productId existing)
               (CartRow.quantity existing + CartItem.quantity item)
               (CartRow.created_at existing) (clock (clock_reads w))))
         (tick w)).
Proof.
  intros Q. unfold addToCart. unfold bind at 1. unfold db_query_carts at 1.
  rewrite Q. reflexivity.
Qed.

Lemma updateCartItem_missing (userId productId : string) (quantity : Z)
    (w : World) :
  Db.query (carts w) (where_user_product userId productId) = [] ->
  updateCartItem clock userId productId quantity w =
    (w, Err (CartItemNotFound productId)).
Proof.
  intros Q. unfold updateCartItem, bind, db_query_carts. rewrite Q.
  reflexivity.
Qed.

Lemma updateCartItem_zero (userId productId : string) (w : World)
    (item : CartRow.t) (others : list CartRow.t) :
  Db.query (carts w) (where_user_product userId productId)
    = item :: others ->
  updateCartItem clock userId productId 0 w =
    getCart userId
      (with_carts (Db.delete CartRow.id (carts w) (CartRow.id item)) w).
Proof.
  intros Q. unfold updateCartItem. unfold bind at 1.
  unfold db_query_carts at 1. rewrite Q. reflexivity.
Qed.

Lemma query_app (rows rows' : list CartRow.t) (f : CartRow.t -> bool) :
  Db.query (rows ++ rows') f = Db.query rows f ++ Db.query rows' f.
Proof. apply filter_app. Qed.

(** C9: from a world in which the user has no row for the product (and
    the identifier drawn for the new row is not that of a row of the
    collection), adding 2 and then 3 of the product leaves exactly one
    row of the user for the product, of quantity 5; [updateCartItem] with
    quantity 0 then deletes it, and the cart returned, which is the one
    [getCart] returns afterwards, has no line for the product.  And
    [updateCartItem] for a user and a product without a row throws the
    not-found error, the world unchanged. *)
Theorem cart_round_trip (userId productId : string) (w : World) :
  Db.query (carts w) (where_user_product userId productId) = [] ->
  ~ In (randomUUID (uuid_draws w)) (map CartRow.id (carts w)) ->
  let w1 := fst (addToCart randomUUID clock userId
                   (CartItem.mk productId 2) w) in
  let run2 := addToCart randomUUID clock userId
                (CartItem.mk productId 3) w1 in
  let run3 := updateCartItem clock userId productId 0 (fst run2) in
  (exists row,
     Db.query (carts (fst run2)) (where_user_product userId productId)
       = [row] /\
     CartRow.quantity row = 5) /\
  (exists cart,
     snd run2 = Ok cart /\
     filter (fun i => String.eqb (CartItem.productId i) productId) cart
       = [CartItem.mk productId 5]) /\
  (exists cart,
     snd run3 = Ok cart /\
     getCart userId (fst run3) = (fst run3, Ok cart) /\
     forall item, In item cart -> CartItem.productId item <> productId) /\
  (forall (w0 : World) (quantity : Z),
     Db.query (carts w0) (where_user_product userId productId) = [] ->
     updateCartItem clock userId productId quantity w0 =
       (w0, Err (CartItemNotFound productId))).
Proof.
  intros Q Hfresh w1 run2 run3.
  set (id := randomUUID (uuid_draws w)) in Hfresh.
  set (row2 := CartRow.mk id userId productId 2 (clock (clock_reads w))
                 (clock (S (clock_reads w)))).
  set (row5 := CartRow.mk id userId productId 5 (clock (clock_reads w))
                 (clock (S (S (clock_reads w))))).
  assert (Hsel : forall r, CartRow.userId r = userId ->
                   CartRow.productId r = productId ->
                   where_user_product userId productId r = true).
  { intros r Hu Hp. unfold where_user_product.
    rewrite Hu, Hp, !String.eqb_refl. reflexivity. }
  assert (E1 : carts w1 = carts w ++ [row2] /\
               clock_reads w1 = S (S (clock_reads w))).
  { subst w1.
    rewrite (addToCart_new userId (CartItem.mk productId 2) w Q).
    split; reflexivity. }
  destruct E1 as [E1 C1].
  assert (Q1 : Db.query (carts w1) (where_user_product userId productId)
               = [row2]).
  { rewrite E1, query_app, Q. simpl. rewrite Hsel; reflexivity. }
  assert (E2 : run2 = getCart userId
                        (with_carts (carts w ++ [row5]) (tick w1))).
  { subst run2.
    rewrite (addToCart_existing userId (CartItem.mk productId 3) w1
               row2 [] Q1).
    do 2 f_equal.
    rewrite E1, update_app, update_absent by exact Hfresh.
    unfold Db.update. simpl. rewrite String.eqb_refl, C1. reflexivity. }
  assert (Q2 : Db.query (carts (fst run2))
                 (where_user_product userId productId) = [row5]).
  { rewrite E2. simpl. rewrite query_app, Q. simpl.
    rewrite Hsel; reflexivity. }
  assert (Hnone : forall r, In r (Db.query (carts w) (where_user userId)) ->
                    CartRow.productId r <> productId).
  { intros r Hr Hp. apply filter_In in Hr. destruct Hr as [Hin Hu].
    assert (Hr : In r (Db.query (carts w)
                         (where_user_product userId productId))).
    { apply filter_In. split; [exact Hin|]. apply Hsel; [|exact Hp].
      apply String.eqb_eq. exact Hu. }
    rewrite Q in Hr. exact Hr. }
  assert (Hskip : filter (fun i => String.eqb (CartItem.productId i)
                                     productId)
                    (map cart_item_of
                       (Db.query (carts w) (where_user userId))) = []).
  { apply filter_none. intros i Hi. apply in_map_iff in Hi.
    destruct Hi as (r & <- & Hr). simpl. apply String.eqb_neq.
    apply Hnone. exact Hr. }
  split; [|split; [|split]].
  - exists row5. split; [exact Q2 | reflexivity].
  - rewrite E2. simpl. eexists. split; [reflexivity|].
    rewrite query_app, map_app, filter_app, Hskip. simpl.
    unfold where_user. simpl. rewrite String.eqb_refl. simpl.
    rewrite String.eqb_refl. reflexivity.
  - subst run3. rewrite (updateCartItem_zero userId productId _ row5 [] Q2).
    rewrite E2. simpl.
    assert (D : Db.delete CartRow.id (carts w ++ [row5]) id = carts w).
    { rewrite delete_app, delete_absent by exact Hfresh.
      unfold Db.delete. simpl. rewrite String.eqb_refl. simpl.
      apply app_nil_r. }
    rewrite D. eexists. split; [reflexivity|]. split; [reflexivity|].
    intros item Hi. apply in_map_iff in Hi. destruct Hi as (r & <- & Hr).
    simpl. apply Hnone. exact Hr.
  - intros w0 quantity Q0. apply updateCartItem_missing. exact Q0.
Qed.

End CartFacts.

(** ** The calendar *)

Module CalendarFacts.
Import JSDate.

(** The year of the era of a day of the era, and its day of the year. *)
Lemma year_of_doe (doe : Z) :
  0 <= doe < daysPerEra ->
  let yoe := (doe - doe / 1460 + doe / 36524 - doe / 146096) / 365 in
  0 <= yoe < 400 /\ 0 <= doe - yearStart yoe <= 365.
Proof.
  intros H. cbv zeta. unfold daysPerEra, yearStart in *.
  Z.div_mod_to_equations. lia.
Qed.

(** The month (counted from March) and the day of a day of the year. *)
Lemma month_of_doy (doy : Z) :
  0 <= doy <= 365 ->
  let mp := (5 * doy + 2) / 153 in
  0 <= mp <= 11 /\ (153 * mp + 2) / 5 <= doy.
Proof.
  intros H. cbv zeta. Z.div_mod_to_equations. lia.
Qed.

(** The first day of a month of the era, and what [civil_of_doe] computes
    from it. *)
Lemma first_of_month (yoe mp : Z) :
  0 <= yoe < 400 -> 0 <= mp <= 11 ->
  let doy := (153 * mp + 2) / 5 in
  let doe := yearStart yoe + doy in
  0 <= doe < daysPerEra /\
  (doe - doe / 1460 + doe / 36524 - doe / 146096) / 365 = yoe /\
  (5 * doy + 2) / 153 = mp.
Proof.
  intros Hy Hm. cbv zeta. unfold daysPerEra, yearStart in *.
  Z.div_mod_to_equations. lia.
Qed.

Lemma civil_of_doe_inv (doe : Z) :
  0 <= doe < daysPerEra ->
  let '(yoe, m, d) := civil_of_doe doe in
  0 <= yoe < 400 /\ 1 <= m <= 12 /\ doe_of_civil yoe m 1 + d - 1 = doe.
Proof.
  intros H. unfold civil_of_doe, doe_of_civil.
  pose proof (year_of_doe doe H) as Hy. cbv zeta in Hy.
  set (yoe := (doe - doe / 1460 + doe / 36524 - doe / 146096) / 365) in *.
  destruct Hy as [Hy Hdoy].
  pose proof (month_of_doy (doe - yearStart yoe) Hdoy) as Hm.
  cbv zeta in Hm.
  set (mp := (5 * (doe - yearStart yoe) + 2) / 153) in *.
  destruct Hm as [Hm Hle].
  split; [exact Hy|].
  destruct (Z.ltb_spec mp 10).
  - split; [lia|]. destruct (Z.ltb_spec 2 (mp + 3)); [|lia].
    replace (mp + 3 - 3) with mp by lia. lia.
  - split; [lia|]. destruct (Z.ltb_spec 2 (mp - 9)); [lia|].
    replace (mp - 9 + 9) with mp by lia. lia.
Qed.

Lemma doe_of_civil_inv (yoe m : Z) :
  0 <= yoe < 400 -> 1 <= m <= 12 ->
  0 <= doe_of_civil yoe m 1 < daysPerEra /\
  civil_of_doe (doe_of_civil yoe m 1) = (yoe, m, 1).
Proof.
  intros Hy Hm. unfold doe_of_civil.
  set (mp := if 2 <? m then m - 3 else m + 9).
  assert (Hmp : 0 <= mp <= 11) by (subst mp; destruct (Z.ltb_spec 2 m); lia).
  pose proof (first_of_month yoe mp Hy Hmp) as H. cbv zeta in H.
  replace (yearStart yoe + (153 * mp + 2) / 5 + 1 - 1)
    with (yearStart yoe + (153 * mp + 2) / 5) by lia.
  destruct H as (Hdoe & Hyoe & Hmonth). split; [exact Hdoe|].
  unfold civil_of_doe. rewrite Hyoe.
  replace (yearStart yoe + (153 * mp + 2) / 5 - yearStart yoe)
    with ((153 * mp + 2) / 5) by lia.
  rewrite Hmonth. f_equal; [f_equal|lia].
  subst mp. destruct (Z.ltb_spec 2 m).
  - destruct (Z.ltb_spec (m - 3) 10); lia.
  - destruct (Z.ltb_spec (m + 9) 10); lia.
Qed.

(** The day number of a date is that of the first of its month plus the
    day of the month less one. *)
Lemma days_from_civil_from_days_ok (z : Z) :
  let '(y, m, d) := civil_from_days z in
  1 <= m <= 12 /\ days_from_civil y m 1 + d - 1 = z.
Proof.
  unfold civil_from_days.
  pose proof (Z.mod_pos_bound (z + eraShift) daysPerEra
                ltac:(unfold daysPerEra; lia)) as Hb.
  pose proof (civil_of_doe_inv _ Hb) as Hinv.
  destruct (civil_of_doe ((z + eraShift) mod daysPerEra)) as [[yoe m] d].
  destruct Hinv as (Hy & Hm & Hd). split; [exact Hm|].
  unfold days_from_civil.
  set (era := (z + eraShift) / daysPerEra) in *.
  assert (Ey : (if m <=? 2
                then (if m <=? 2 then yoe + era * 400 + 1
                      else yoe + era * 400) - 1
                else (if m <=? 2 then yoe + era * 400 + 1
                      else yoe + era * 400)) = yoe + era * 400).
  { destruct (m <=? 2); lia. }
  rewrite Ey.
  replace ((yoe + era * 400) / 400) with era
    by (Z.div_mod_to_equations; lia).
  replace ((yoe + era * 400) mod 400) with yoe
    by (Z.div_mod_to_equations; lia).
  pose proof (Z.div_mod (z + eraShift) daysPerEra
                ltac:(unfold daysPerEra; lia)) as Hdm.
  fold era in Hdm. lia.
Qed.

(** The first of a month is a date of that month. *)
Lemma civil_from_days_first_ok (y m : Z) :
  1 <= m <= 12 ->
  civil_from_days (days_from_civil y m 1) = (y, m, 1).
Proof.
  intros Hm. unfold days_from_civil.
  set (y' := if m <=? 2 then y - 1 else y).
  pose proof (Z.mod_pos_bound y' 400 ltac:(lia)) as Hyoe.
  destruct (doe_of_civil_inv (y' mod 400) m Hyoe Hm) as [Hdoe Hciv].
  unfold civil_from_days.
  replace (y' / 400 * daysPerEra + doe_of_civil (y' mod 400) m 1
           - eraShift + eraShift)
    with (doe_of_civil (y' mod 400) m 1 + (y' / 400) * daysPerEra) by lia.
  rewrite Z.div_add, Z.mod_add by (unfold daysPerEra; lia).
  rewrite Z.mod_small, Z.div_small by exact Hdoe.
  rewrite Hciv. simpl Z.add.
  pose proof (Z.div_mod y' 400 ltac:(lia)) as Hdm.
  f_equal. f_equal. subst y'. destruct (m <=? 2); lia.
Qed.

End CalendarFacts.

(** ** Period boundaries and revenue statistics *)

(** The facts of this section are those of a zone that keeps one offset
    all year. *)
Section PeriodFacts.
Import JSDate CalendarFacts.
Variable clock : nat -> Z.
Variable LocalTZA : Z -> bool -> Z.
Variable offset : Z.
Hypothesis fixed : forall t isUTC, LocalTZA t isUTC = offset.

Lemma Day_MakeDate (d time : Z) :
  0 <= time < msPerDay -> Day (MakeDate d time) = d.
Proof.
  unfold Day, MakeDate, msPerDay. intros H.
  Z.div_mod_to_equations. lia.
Qed.

Lemma TimeWithinDay_bound (t : Z) : 0 <= TimeWithinDay t < msPerDay.
Proof. apply Z.mod_pos_bound. reflexivity. Qed.

(** [MakeDay] at the year and the month of [t]. *)
Lemma MakeDay_same_month (t date : Z) :
  MakeDay (YearFromTime t) (MonthFromTime t) date =
    Day t - DateFromTime t + date.
Proof.
  unfold MakeDay, YearFromTime, MonthFromTime, DateFromTime.
  pose proof (days_from_civil_from_days_ok (Day t)) as H.
  destruct (civil_from_days (Day t)) as [[y m] d].
  destruct H as [Hm Hd].
  replace ((m - 1) / 12) with 0 by (Z.div_mod_to_equations; lia).
  replace ((m - 1) mod 12 + 1) with m by (Z.div_mod_to_equations; lia).
  rewrite Z.add_0_r. lia.
Qed.

(** The date of the first of a month. *)
Lemma civil_of_MakeDay_first (y mn : Z) :
  0 <= mn < 12 ->
  civil_from_days (MakeDay y mn 1) = (y, mn + 1, 1).
Proof.
  intros H. unfold MakeDay.
  replace (mn / 12) with 0 by (Z.div_mod_to_equations; lia).
  replace (mn mod 12) with mn by (Z.div_mod_to_equations; lia).
  rewrite Z.add_0_r.
  replace (days_from_civil y (mn + 1) 1 + 1 - 1)
    with (days_from_civil y (mn + 1) 1) by lia.
  apply civil_from_days_first_ok. lia.
Qed.

Lemma MonthFromTime_bound (t : Z) : 0 <= MonthFromTime t < 12.
Proof.
  unfold MonthFromTime.
  pose proof (days_from_civil_from_days_ok (Day t)) as H.
  destruct (civil_from_days (Day t)) as [[y m] d]. lia.
Qed.

Lemma LocalTime_UTC (t : Z) : LocalTime LocalTZA (UTC LocalTZA t) = t.
Proof. unfold LocalTime, UTC. rewrite !fixed. lia. Qed.

Lemma Day_midnight (d : Z) :
  Day (LocalTime LocalTZA (midnight LocalTZA d)) = d.
Proof.
  unfold midnight. rewrite LocalTime_UTC.
  apply Day_MakeDate. unfold msPerDay. lia.
Qed.

Lemma setHours_midnight (tv : Z) :
  setHours LocalTZA tv 0 0 0 0 = midnight LocalTZA (Day (LocalTime LocalTZA tv)).
Proof. reflexivity. Qed.

Lemma getPeriodStart_midnight (date : Z) (period : Period) :
  getPeriodStart LocalTZA date period =
    midnight LocalTZA (first_day period (LocalTime LocalTZA date)).
Proof.
  unfold getPeriodStart, first_day.
  destruct period; rewrite setHours_midnight; f_equal.
  - unfold setDate, getDate, getDay. rewrite LocalTime_UTC.
    rewrite MakeDay_same_month, Day_MakeDate by apply TimeWithinDay_bound.
    lia.
  - unfold setDate. rewrite LocalTime_UTC.
    apply Day_MakeDate. apply TimeWithinDay_bound.
  - unfold setMonth. rewrite LocalTime_UTC.
    apply Day_MakeDate. apply TimeWithinDay_bound.
Qed.

(** The first day of a period is the first day of its own period. *)
Lemma first_day_fixed (period : Period) (t : Z) :
  first_day period (LocalTime LocalTZA (midnight LocalTZA (first_day period t))) =
    first_day period t.
Proof.
  set (d := first_day period t).
  assert (Hd : Day (LocalTime LocalTZA (midnight LocalTZA d)) = d)
    by apply Day_midnight.
  destruct period; unfold first_day at 1.
  - exact Hd.
  - unfold WeekDay. rewrite Hd. subst d. unfold first_day, WeekDay.
    Z.div_mod_to_equations. lia.
  - unfold YearFromTime, MonthFromTime. rewrite Hd. subst d.
    unfold first_day.
    rewrite civil_of_MakeDay_first by apply MonthFromTime_bound.
    f_equal. lia.
  - unfold YearFromTime. rewrite Hd. subst d. unfold first_day.
    rewrite civil_of_MakeDay_first by lia. reflexivity.
Qed.

(** The boundary of the period of a boundary is the boundary itself. *)
Lemma getPeriodStart_idempotent (date : Z) (period : Period) :
  getPeriodStart LocalTZA (getPeriodStart LocalTZA date period) period =
    getPeriodStart LocalTZA date period.
Proof.
  rewrite (getPeriodStart_midnight date).
  rewrite getPeriodStart_midnight, first_day_fixed. reflexivity.
Qed.

(** A window that starts and ends at the same instant holds no order. *)
Lemma previousOrders_of_empty (start : Z) (os : list Order.t) :
  previousOrders_of start start os = [].
Proof.
  unfold previousOrders_of. induction os as [|o os IH]; simpl;
    [reflexivity|].
  rewrite IH.
  destruct (Z.geb_spec (Order.created_at o) start);
    destruct (Z.ltb_spec (Order.created_at o) start); simpl;
    try reflexivity; lia.
Qed.

(** The window that [getRevenueStats] calls previous is empty, so both
    of its trends are [0], whatever the orders and the instant. *)
Lemma getRevenueStats_trend_zero (period : Period) (w : World) :
  let now := clock (clock_reads w) in
  let periodStart := getPeriodStart LocalTZA now period in
  previousOrders_of (getPeriodStart LocalTZA periodStart period)
    periodStart (orders w) = [] /\
  exists stats,
    getRevenueStats clock LocalTZA period w = (tick w, Ok stats) /\
    (trend_revenue (trend stats) == 0)%Q /\
    (trend_orders (trend stats) == 0)%Q.
Proof.
  intros now periodStart. subst periodStart.
  rewrite getPeriodStart_idempotent.
  split; [apply previousOrders_of_empty|].
  unfold getRevenueStats, bind, new_Date, ret. simpl.
  fold now. rewrite getPeriodStart_idempotent.
  unfold Db.query. rewrite previousOrders_of_empty.
  eexists. split; [reflexivity|]. simpl. split; reflexivity.
Qed.

End PeriodFacts.

(** ** The order total in double arithmetic *)

Module Binary64Facts.
Import Binary64.

(** The integers up to [2^53] are doubles. *)
Lemma round53_small (n : Z) : Z.abs n <= 2 ^ 53 -> round53 n = n.
Proof.
  intros Hn. unfold round53.
  destruct (Z.leb_spec (Z.log2 (Z.abs n) - 52) 0) as [_|He]; [reflexivity|].
  assert (Hpos : 0 < Z.abs n).
  { destruct (Z.eq_dec (Z.abs n) 0) as [E|E]; [|lia].
    rewrite E in He. simpl in He. lia. }
  assert (Hge : 2 ^ 53 <= Z.abs n).
  { destruct (Z.lt_ge_cases (Z.abs n) (2 ^ 53)) as [Hlt|Hge]; [|exact Hge].
    apply Z.log2_lt_pow2 in Hlt; lia. }
  assert (E : Z.abs n = 2 ^ 53) by lia.
  assert (Hn' : n = 2 ^ 53 \/ n = - 2 ^ 53) by lia.
  destruct Hn' as [-> | ->]; reflexivity.
Qed.

Lemma finite_small (n : Z) : Z.abs n <= 2 ^ 53 -> finite n = true.
Proof.
  intros Hn. unfold finite. apply Z.ltb_lt.
  assert (2 ^ 53 < 2 ^ 1024) by (apply Z.pow_lt_mono_r; lia). lia.
Qed.

Lemma double_small (n : Z) : Z.abs n <= 2 ^ 53 -> double n = Some n.
Proof.
  intros Hn. unfold double. rewrite (round53_small n Hn).
  cbv zeta. rewrite (finite_small n Hn). reflexivity.
Qed.

(** Rounding moves a number by at most half a unit in the last place. *)
Lemma round53_near (n k : Z) :
  1 <= k -> Z.abs n < 2 ^ (53 + k) ->
  2 * Z.abs (round53 n - n) <= 2 ^ k.
Proof.
  intros Hk Hn. unfold round53.
  assert (H2k : 0 < 2 ^ k) by (apply Z.pow_pos_nonneg; lia).
  destruct (Z.leb_spec (Z.log2 (Z.abs n) - 52) 0) as [_|He].
  { replace (n - n) with 0 by lia. simpl. lia. }
  set (e := Z.log2 (Z.abs n) - 52) in *.
  assert (Hpos : 0 < Z.abs n).
  { destruct (Z.eq_dec (Z.abs n) 0) as [E|E]; [|lia].
    subst e. rewrite E in He. simpl in He. lia. }
  assert (Hek : e <= k).
  { apply Z.log2_lt_pow2 in Hn; [|exact Hpos]. subst e. lia. }
  assert (Hpow : 2 ^ e = 2 * 2 ^ (e - 1)).
  { replace e with (1 + (e - 1)) at 1 by lia.
    rewrite Z.pow_add_r by lia. reflexivity. }
  assert (Hle : 2 ^ e <= 2 ^ k) by (apply Z.pow_le_mono_r; lia).
  assert (Hh : 0 < 2 ^ (e - 1)) by (apply Z.pow_pos_nonneg; lia).
  pose proof (Z.div_mod n (2 ^ e) ltac:(lia)) as Hdm.
  pose proof (Z.mod_pos_bound n (2 ^ e) ltac:(lia)) as Hr.
  set (q := n / 2 ^ e) in *. set (r := n mod 2 ^ e) in *.
  destruct ((r <? 2 ^ (e - 1)) || ((r =? 2 ^ (e - 1)) && Z.even q)) eqn:C.
  - assert (Hrh : r <= 2 ^ (e - 1)).
    { apply orb_true_iff in C. destruct C as [C|C].
      - apply Z.ltb_lt in C. lia.
      - apply andb_true_iff in C. destruct C as [C _].
        apply Z.eqb_eq in C. lia. }
    nia.
  - assert (Hrh : 2 ^ (e - 1) <= r).
    { apply orb_false_iff in C. destruct C as [C _].
      apply Z.ltb_ge in C. exact C. }
    nia.
Qed.

(** Below [2^51] the tax is the integer nearest to eight hundredths of the
    subtotal: the rounding of the product and the distance of the double
    [0.08] from eight hundredths together stay under the distance of
    [0.08 * s] from a tie, which is at least [0.02]. *)
Lemma Math_round_times_0_08_nearest (s : Z) :
  Z.abs s <= 2 ^ 51 ->
  100 * Math_round_times_0_08 s - 50 <= 8 * s
    < 100 * Math_round_times_0_08 s + 50.
Proof.
  intros Hs. unfold Math_round_times_0_08.
  assert (Hn : Z.abs (s * eight_hundredths) < 2 ^ (53 + 51)).
  { rewrite Z.abs_mul. unfold eight_hundredths.
    change (Z.abs 5764607523034235) with 5764607523034235.
    change (2 ^ (53 + 51)) with (2 ^ 51 * 2 ^ 53).
    change (2 ^ 53) with 9007199254740992. lia. }
  pose proof (round53_near (s * eight_hundredths) 51 ltac:(lia) Hn) as Hr.
  set (N := round53 (s * eight_hundredths)) in *.
  pose proof (Z.div_mod (N + 2 ^ 55) (2 ^ 56) ltac:(lia)) as Hdm.
  pose proof (Z.mod_pos_bound (N + 2 ^ 55) (2 ^ 56) ltac:(lia)) as Hb.
  set (T := (N + 2 ^ 55) / 2 ^ 56) in *.
  unfold eight_hundredths in *.
  change (2 ^ 51) with 2251799813685248 in *.
  change (2 ^ 55) with 36028797018963968 in *.
  change (2 ^ 56) with 72057594037927936 in *.
  lia.
Qed.

Lemma Math_round_times_0_08_exact (s : Z) :
  Z.abs s <= 2 ^ 51 -> Math_round_times_0_08 s = tax_of s.
Proof.
  intros Hs. pose proof (Math_round_times_0_08_nearest s Hs) as H1.
  pose proof (tax_of_nearest s) as [_ H2]. lia.
Qed.

End Binary64Facts.

(** ** The rounded quotient *)

Module QuotientFacts.
Import Binary64.




End QuotientFacts.

Section DoubleRuns.
Variable randomUUID : nat -> string.
Variable clock : nat -> Z.

Lemma bindF_some {A B} (m : Rounded.F A) (k : A -> Rounded.F B)
    (w w' : World) (r : result B) :
  Rounded.bindF m k w = Some (w', r) ->
  (exists w1 a, m w = Some (w1, Ok a) /\ k a w1 = Some (w', r)) \/
  (exists e, m w = Some (w', Err e) /\ r = Err e).
Proof.
  unfold Rounded.bindF. destruct (m w) as [[w1 [a|e]]|]; [| |discriminate].
  - intros H. left. eauto.
  - intros H. inversion H; subst. right. eauto.
Qed.


(** A step that reads a number changes nothing. *)
Lemma bindF_number {B} (o : option Z) (k : Z -> Rounded.F B)
    (w w' : World) (r : result B) :
  Rounded.bindF (Rounded.number o) k w = Some (w', r) ->
  exists z, o = Some z /\ k z w = Some (w', r).
Proof.
  unfold Rounded.bindF, Rounded.number. destruct o as [z|]; [|discriminate].
  eauto.
Qed.



(** What a calculation that returns holds. *)
Lemma calculateOrderTotal_ok (items : list CartItem.t) (w w' : World)
    (c : OrderCalculation.t) :
  Rounded.calculateOrderTotal items w = Some (w', Ok c) ->
  OrderCalculation.tax c =
    Binary64.Math_round_times_0_08 (OrderCalculation.subtotal c) /\
  OrderCalculation.shipping c = shipping_of (OrderCalculation.subtotal c) /\
  exists withTax,
    Binary64.add (OrderCalculation.subtotal c) (OrderCalculation.tax c)
      = Some withTax /\
    Binary64.add withTax (OrderCalculation.shipping c)
      = Some (OrderCalculation.total c).
Proof.
  unfold Rounded.calculateOrderTotal. intros H.
  apply bindF_some in H.
  destruct H as [(w1 & [ls sub] & E & H) | (e & E & H)]; [|discriminate].
  destruct (negb (forallb CalculatedItem.inStock ls)).
  - unfold Rounded.lift, throw in H. inversion H.
  - apply bindF_number in H. destruct H as (withTax & E1 & H).
    apply bindF_number in H. destruct H as (total & E2 & H).
    unfold Rounded.lift, ret in H. inversion H; subst. simpl.
    split; [reflexivity|]. split; [reflexivity|]. eauto.
Qed.











(** C7, as the code has it: a [calculateOrderTotal] that returns a
    subtotal [s] of at most [2^51] in absolute value returns as tax the
    integer nearest to [s * 0.08] (the floor of [s * 8/100 + 1/2], in
    exact arithmetic); and as shipping [0] when [s > 5000] and [500]
    otherwise, whatever [s]; the boundary is strict, and a subtotal of 1000
    gives a tax of 80. *)
Theorem calculateOrderTotal_tax_shipping (items : list CartItem.t)
    (w w' : World) (c : OrderCalculation.t) :
  Rounded.calculateOrderTotal items w = Some (w', Ok c) ->
  let s := OrderCalculation.subtotal c in
  (Z.abs s <= 2 ^ 51 ->
   OrderCalculation.tax c = Qfloor (inject_Z s * (8 # 100) + (1 # 2)) /\
   100 * OrderCalculation.tax c - 50 <= 8 * s
     < 100 * OrderCalculation.tax c + 50) /\
  (5000 < s -> OrderCalculation.shipping c = 0) /\
  (s <= 5000 -> OrderCalculation.shipping c = 500) /\
  (s = 5000 -> OrderCalculation.shipping c = 500) /\
  (s = 4999 -> OrderCalculation.shipping c = 500) /\
  (s = 5001 -> OrderCalculation.shipping c = 0) /\
  (s = 1000 -> OrderCalculation.tax c = 80).
Proof.
  intros H s. apply calculateOrderTotal_ok in H.
  destruct H as (Htax & Hship & _). fold s in Htax, Hship.
  rewrite Htax, Hship. split.
  - intros Hs. split.
    + rewrite (Binary64Facts.Math_round_times_0_08_exact s Hs). reflexivity.
    + apply Binary64Facts.Math_round_times_0_08_nearest. exact Hs.
  - unfold shipping_of.
    repeat split; intros Hs;
      try (destruct (Z.gtb_spec s 5000); lia);
      subst; try rewrite Hs; reflexivity.
Qed.

End DoubleRuns.

(** ** The exact amounts and the doubles *)

Section ExactLines.

Lemma read_small (z : Z) : Z.abs z <= 2 ^ 53 -> Binary64.read z = Some z.
Proof.
  intros H. unfold Binary64.read.
  rewrite (Binary64Facts.round53_small z H), Z.eqb_refl.
  rewrite (Binary64Facts.finite_small z H). reflexivity.
Qed.

Lemma line_sum_nonneg (ps : list Product.t) (items : list CartItem.t) :
  (forall item product,
     In item items ->
     Db.get Product.id ps (CartItem.productId item) = Some product ->
     0 <= Product.price product /\ 0 <= CartItem.quantity item) ->
  0 <= line_sum ps items.
Proof.
  induction items as [|item rest IH]; intros H; simpl; [lia|].
  assert (Hrest : 0 <= line_sum ps rest).
  { apply IH. intros i p Hi. apply H. right. exact Hi. }
  destruct (Db.get Product.id ps (CartItem.productId item))
    as [product|] eqn:G; [|lia].
  destruct (H item product (or_introl eq_refl) G). nia.
Qed.

(** The loop of the calculation, on lines that the doubles hold. *)
Lemma calculateOrderTotal_from_rounded (items : list CartItem.t) :
  forall (acc : list CalculatedItem.t) (sub : Z) (w : World),
    (forall item product,
       In item items ->
       Db.get Product.id (products w) (CartItem.productId item)
         = Some product ->
       0 <= Product.price product <= 2 ^ 53 /\
       0 <= CartItem.quantity item <= 2 ^ 53 /\
       0 <= Product.stock product <= 2 ^ 53) ->
    0 <= sub -> sub + line_sum (products w) items <= 2 ^ 51 ->
    Rounded.calculateOrderTotal_from acc sub items w =
      Some (calculateOrderTotal_from acc sub items w).
Proof.
  assert (H51 : 2 ^ 51 <= 2 ^ 53) by (apply Z.pow_le_mono_r; lia).
  induction items as [|item rest IH]; intros acc sub w Hall Hsub Hsum.
  - reflexivity.
  - cbn [Rounded.calculateOrderTotal_from calculateOrderTotal_from].
    unfold Rounded.bindF at 1, bind at 1.
    unfold Rounded.lift at 1, getProduct.
    cbn [line_sum fold_right] in Hsum. fold (line_sum (products w) rest) in Hsum.
    assert (Hrest : 0 <= line_sum (products w) rest).
    { apply line_sum_nonneg. intros i p Hi G.
      destruct (Hall i p (or_intror Hi) G) as (? & ? & ?). lia. }
    destruct (Db.get Product.id (products w) (CartItem.productId item))
      as [product|] eqn:G; [|reflexivity].
    destruct (Hall item product (or_introl eq_refl) G) as (Hp & Hq & Hs).
    assert (Hlt : 0 <= Product.price product * CartItem.quantity item)
      by nia.
    unfold Rounded.bindF at 1. unfold Rounded.number at 1.
    rewrite read_small by lia.
    unfold Rounded.bindF at 1. unfold Rounded.number at 1.
    rewrite read_small by lia.
    unfold Rounded.bindF at 1. unfold Rounded.number at 1.
    unfold Binary64.mul. rewrite Binary64Facts.double_small by lia.
    unfold Rounded.bindF at 1. unfold Rounded.number at 1.
    rewrite read_small by lia.
    unfold Rounded.bindF at 1. unfold Rounded.number at 1.
    unfold Binary64.add. rewrite Binary64Facts.double_small by lia.
    apply IH.
    + intros i p Hi. apply Hall. right. exact Hi.
    + lia.
    + lia.
Qed.

Lemma sum_lines_line_sum (ps : list Product.t) (items : list CartItem.t) :
  forall ls, resolve_lines ps items = Ok ls ->
  sum_lines ls = line_sum ps items.
Proof.
  induction items as [|item rest IH]; simpl; intros ls H.
  - inversion H. reflexivity.
  - destruct (Db.get Product.id ps (CartItem.productId item))
      as [product|]; [|discriminate].
    destruct (resolve_lines ps rest) as [ls'|e]; [|discriminate].
    inversion H; subst. unfold sum_lines in *. simpl.
    rewrite (IH ls' eq_refl). reflexivity.
Qed.

(** X26: on lines of amounts that are not negative, with prices,
    quantities and stocks of at most [2^53] and a sum of at most [2^51],
    the calculation in doubles is the calculation in integers: the same
    error, or the same subtotal, tax, shipping and total. *)
Theorem calculateOrderTotal_rounded (items : list CartItem.t) (w : World) :
  exact_lines (products w) items ->
  Rounded.calculateOrderTotal items w = Some (calculateOrderTotal items w).
Proof.
  intros [Hall Hsum].
  unfold Rounded.calculateOrderTotal, calculateOrderTotal.
  unfold Rounded.bindF at 1, bind at 1.
  rewrite (calculateOrderTotal_from_rounded items [] 0 w Hall) by lia.
  rewrite calculateOrderTotal_from_spec.
  destruct (resolve_lines (products w) items) as [ls|e] eqn:R;
    [|reflexivity].
  cbn [app]. rewrite Z.add_0_l.
  destruct (negb (forallb CalculatedItem.inStock ls)); [reflexivity|].
  rewrite (sum_lines_line_sum _ _ _ R).
  assert (Hs : 0 <= line_sum (products w) items).
  { apply line_sum_nonneg. intros i p Hi G.
    destruct (Hall i p Hi G) as (? & ? & ?). lia. }
  set (s := line_sum (products w) items) in *.
  assert (Htax : Binary64.Math_round_times_0_08 s = tax_of s)
    by (apply Binary64Facts.Math_round_times_0_08_exact; lia).
  rewrite Htax.
  pose proof (tax_of_nearest s) as [_ Ht].
  change (2 ^ 51) with 2251799813685248 in Hsum.
  assert (Hship : 0 <= shipping_of s <= 500)
    by (unfold shipping_of; destruct (s >? 5000); lia).
  unfold Rounded.bindF at 1. unfold Rounded.number at 1.
  unfold Binary64.add at 1.
  rewrite Binary64Facts.double_small
    by (change (2 ^ 53) with 9007199254740992; lia).
  unfold Rounded.bindF at 1. unfold Rounded.number at 1.
  unfold Binary64.add at 1. fold (shipping_of s).
  rewrite Binary64Facts.double_small
    by (change (2 ^ 53) with 9007199254740992; lia).
  reflexivity.
Qed.

End ExactLines.

(** * Concrete runs *)

Local Open Scope string_scope.

(** Four widgets at 250: subtotal 1000, tax 80, shipping 500, total 1580,
    and one widget left of five. *)
Example createOrder_run :
  let run := createOrder Sample.uuid Sample.clock
               (Sample.input [CartItem.mk "p1" 4]) (Sample.shop 5 true) in
  exists order,
    snd run = Ok order /\
    (Order.subtotal order, Order.tax order, Order.shipping order,
     Order.total order) = (1000, 80, 500, 1580) /\
    orders (fst run) = [order] /\
    map Product.stock (products (fst run)) = [1].
Proof. eexists. repeat split. Qed.


(** A decrement of seven from a stock of five throws and writes nothing. *)
Example updateInventory_decrement_refused :
  updateInventory Sample.clock "p1" 7 InventoryUpdate.decrement
    (Sample.shop 5 true) =
  (Sample.shop 5 true, Err (InsufficientStock "p1" 5 7)).
Proof. reflexivity. Qed.



(** C3, as stated, fails: with a line that asks for ten widgets of a stock
    of five and a line for a product that does not exist, [createOrder]
    throws the not-found error of the second line, not the out-of-stock
    error. *)
Lemma createOrder_out_of_stock_counterexample :
  let w := Sample.shop 5 true in
  let input := Sample.input [CartItem.mk "p1" 10; CartItem.mk "ghost" 1] in
  let run := createOrder Sample.uuid Sample.clock input w in
  (exists item product,
     In item (CreateOrderInput.items input) /\
     Db.get Product.id (products w) (CartItem.productId item)
       = Some product /\
     Product.stock product < CartItem.quantity item) /\
  snd run = Err (ProductNotFound "ghost") /\
  (forall names, snd run <> Err (ItemsOutOfStock names)).
Proof.
  cbv zeta. split.
  - exists (CartItem.mk "p1" 10), (Sample.widget 5 true).
    split; [left; reflexivity|]. split; [reflexivity | simpl; lia].
  - split; [reflexivity | intros names; discriminate].
Qed.

Lemma createOrder_out_of_stock_witness :
  let w := Sample.shop 5 true in
  let input := Sample.input [CartItem.mk "p1" 10; CartItem.mk "ghost" 1] in
  let run := createOrder Sample.uuid Sample.clock input w in
  (exists e, snd run = Err e) /\
  orders (fst run) = orders w /\
  order_items (fst run) = order_items w /\
  products (fst run) = products w /\
  carts (fst run) = carts w /\
  ((forall item, In item (CreateOrderInput.items input) ->
      Db.get Product.id (products w) (CartItem.productId item) <> None) ->
   exists names,
     snd run = Err (ItemsOutOfStock names) /\
     forall n, In n names <->
       exists item product,
         In item (CreateOrderInput.items input) /\
         Db.get Product.id (products w) (CartItem.productId item)
           = Some product /\
         Product.stock product < CartItem.quantity item /\
         Product.name product = n) /\
  ((exists item,
      In item (CreateOrderInput.items input) /\
      Db.get Product.id (products w) (CartItem.productId item) = None) ->
   exists pre missing post,
     CreateOrderInput.items input = (pre ++ missing :: post)%list /\
     (forall item, In item pre ->
        Db.get Product.id (products w) (CartItem.productId item) <> None) /\
     Db.get Product.id (products w) (CartItem.productId missing) = None /\
     snd run = Err (ProductNotFound (CartItem.productId missing))).
Proof.
  apply (createOrder_out_of_stock Sample.uuid Sample.clock
           (Sample.input [CartItem.mk "p1" 10; CartItem.mk "ghost" 1])
           (Sample.shop 5 true)).
  exists (CartItem.mk "p1" 10), (Sample.widget 5 true).
  split; [left; reflexivity|]. split; [reflexivity | simpl; lia].
Defined.

(** With the one line that asks for ten widgets of a stock of five, the
    error names the widget. *)
Example createOrder_out_of_stock_run :
  createOrder Sample.uuid Sample.clock
    (Sample.input [CartItem.mk "p1" 10]) (Sample.shop 5 true) =
  (tick (Sample.shop 5 true), Err (ItemsOutOfStock ["Widget"])).
Proof. reflexivity. Qed.

(** Two lines of three widgets each pass the stock check of a stock of
    five one by one; the second decrement throws, and leaves the order, its
    two items and the first decrement on record. *)
Example createOrder_partial_failure_run :
  let run := createOrder Sample.uuid Sample.clock
               (Sample.input [CartItem.mk "p1" 3; CartItem.mk "p1" 3])
               (Sample.shop 5 true) in
  snd run = Err (InsufficientStock "p1" 2 3) /\
  map Order.id (orders (fst run)) = ["uuid-0"] /\
  map OrderItemRow.orderId (order_items (fst run)) = ["uuid-0"; "uuid-0"] /\
  map Product.stock (products (fst run)) = [2].
Proof. repeat split. Qed.

Lemma createOrder_partial_failure_witness :
  let w := Sample.shop 5 true in
  let input := Sample.input [CartItem.mk "p1" 3; CartItem.mk "p1" 3] in
  let w' := fst (createOrder Sample.uuid Sample.clock input w) in
  thrown_after Sample.uuid Sample.clock input w w'
    (InsufficientStock "p1" 2 3) /\
  (forall pre u post w0 w1 w2 rs e',
     bulkUpdateInventory Sample.clock pre w0 = (w1, Ok rs) ->
     run_update Sample.clock u w1 = (w2, Err e') ->
     bulkUpdateInventory Sample.clock (pre ++ u :: post) w0 = (w1, Err e')).
Proof.
  intros w input w'.
  apply (createOrder_partial_failure Sample.uuid Sample.clock input w w'
           (InsufficientStock "p1" 2 3)).
  vm_compute. reflexivity.
Defined.



Lemma calculateOrderTotal_tax_shipping_witness :
  let c := OrderCalculation.mk 1000 80 500 1580
             [CalculatedItem.mk "p1" "Widget" 250 4 1000 true] in
  let s := OrderCalculation.subtotal c in
  (Z.abs s <= 2 ^ 51 ->
   OrderCalculation.tax c = Qfloor (inject_Z s * (8 # 100) + (1 # 2)) /\
   100 * OrderCalculation.tax c - 50 <= 8 * s
     < 100 * OrderCalculation.tax c + 50) /\
  (5000 < s -> OrderCalculation.shipping c = 0) /\
  (s <= 5000 -> OrderCalculation.shipping c = 500) /\
  (s = 5000 -> OrderCalculation.shipping c = 500) /\
  (s = 4999 -> OrderCalculation.shipping c = 500) /\
  (s = 5001 -> OrderCalculation.shipping c = 0) /\
  (s = 1000 -> OrderCalculation.tax c = 80).
Proof.
  intros c.
  apply (calculateOrderTotal_tax_shipping [CartItem.mk "p1" 4]
           (Sample.shop 5 true) (Sample.shop 5 true) c).
  vm_compute. reflexivity.
Defined.

(** C7, as stated, fails: eight hundredths of 4000000000000006 end in
    [.48], and the integer nearest to them is 320000000000000; the double
    product ends in [.5], and the tax returned is 320000000000001. *)
Lemma calculateOrderTotal_tax_shipping_counterexample :
  let w := priced 4000000000000006 in
  exists c,
    Rounded.calculateOrderTotal [CartItem.mk "p1" 1] w = Some (w, Ok c) /\
    OrderCalculation.subtotal c = 4000000000000006 /\
    OrderCalculation.tax c = 320000000000001 /\
    Qfloor (inject_Z (OrderCalculation.subtotal c) * (8 # 100) + (1 # 2))
      = 320000000000000 /\
    OrderCalculation.tax c <>
      Qfloor (inject_Z (OrderCalculation.subtotal c) * (8 # 100) + (1 # 2)).
Proof.
  intros w.
  let r := eval vm_compute in
      (Rounded.calculateOrderTotal [CartItem.mk "p1" 1] w) in
  match r with Some (_, Ok ?c) => exists c end.
  split; [vm_compute; reflexivity|].
  split; [reflexivity|]. split; [reflexivity|].
  split; [reflexivity | vm_compute; discriminate].
Qed.

(** The rounding of [Binary64], against the binary64 operations of the
    Standard Library's specification of IEEE 754, on the numbers of the two
    runs above: the literal [0.08], the two products and the sum. *)
Example round53_agrees_with_SpecFloat :
  let binary64 m e := SpecFloat.S754_finite false (Z.to_pos m) e in
  SpecFloat.SFdiv 53 1024 (binary64 8 0) (binary64 100 0)
    = binary64 5764607523034235 (-56) /\
  SpecFloat.SFmul 53 1024 (binary64 4000000000000006 0)
    (binary64 5764607523034235 (-56))
    = binary64 5120000000000008 (-4) /\
  Binary64.round53 (4000000000000006 * Binary64.eight_hundredths)
    = 5120000000000008 * 2 ^ (56 - 4) /\
  SpecFloat.SFmul 53 1024 (binary64 8400000000000025 0)
    (binary64 5764607523034235 (-56))
    = binary64 5376000000000016 (-3) /\
  Binary64.round53 (8400000000000025 * Binary64.eight_hundredths)
    = 5376000000000016 * 2 ^ (56 - 3) /\
  SpecFloat.SFadd 53 1024 (binary64 8400000000000025 0)
    (binary64 672000000000002 0)
    = binary64 4536000000000014 1 /\
  Binary64.add 8400000000000025 672000000000002
    = Some (4536000000000014 * 2 ^ 1).
Proof. vm_compute. repeat split. Qed.

(** The boundary of the shipping rule, and the tax of a subtotal of 1000. *)
Example shipping_boundary :
  shipping_of 4999 = 500 /\ shipping_of 5000 = 500 /\ shipping_of 5001 = 0 /\
  tax_of 1000 = 80.
Proof. repeat split. Qed.

Lemma checkout_cart_witness :
  checkout Sample.uuid Sample.clock "u1" Sample.address None
    (Sample.shop 5 true) = (Sample.shop 5 true, Err CartIsEmpty).
Proof.
  exact (proj1 (checkout_cart Sample.uuid Sample.clock "u1" Sample.address
                  None (Sample.shop 5 true)) eq_refl).
Defined.

(** A cart of ten widgets for a stock of five: [createOrder] throws and the
    cart row is still there; a cart of two: the order is returned and the
    row is gone. *)
Example checkout_run :
  let failed := checkout Sample.uuid Sample.clock "u1" Sample.address None
                  (Sample.shop_with_cart 5 10) in
  let done := checkout Sample.uuid Sample.clock "u1" Sample.address None
                (Sample.shop_with_cart 5 2) in
  snd failed = Err (ItemsOutOfStock ["Widget"]) /\
  carts (fst failed) = carts (Sample.shop_with_cart 5 10) /\
  (exists order, snd done = Ok order /\ Order.total order = 1040) /\
  carts (fst done) = [] /\
  map Product.stock (products (fst done)) = [3].
Proof.
  cbv zeta. split; [reflexivity|]. split; [reflexivity|].
  split; [eexists; split; reflexivity|]. split; reflexivity.
Qed.

Lemma cart_round_trip_witness :
  let w := Sample.shop 5 true in
  let w1 := fst (addToCart Sample.uuid Sample.clock "u1"
                   (CartItem.mk "p1" 2) w) in
  let run2 := addToCart Sample.uuid Sample.clock "u1"
                (CartItem.mk "p1" 3) w1 in
  let run3 := updateCartItem Sample.clock "u1" "p1" 0 (fst run2) in
  (exists row,
     Db.query (carts (fst run2)) (where_user_product "u1" "p1") = [row] /\
     CartRow.quantity row = 5) /\
  (exists cart,
     snd run2 = Ok cart /\
     filter (fun i => String.eqb (CartItem.productId i) "p1") cart
       = [CartItem.mk "p1" 5]) /\
  (exists cart,
     snd run3 = Ok cart /\
     getCart "u1" (fst run3) = (fst run3, Ok cart) /\
     forall item, In item cart -> CartItem.productId item <> "p1") /\
  (forall (w0 : World) (quantity : Z),
     Db.query (carts w0) (where_user_product "u1" "p1") = [] ->
     updateCartItem Sample.clock "u1" "p1" quantity w0 =
       (w0, Err (CartItemNotFound "p1"))).
Proof.
  apply (cart_round_trip Sample.uuid Sample.clock "u1" "p1"
           (Sample.shop 5 true)).
  - reflexivity.
  - simpl. tauto.
Defined.

Lemma order_path_ignores_isActive_witness :
  let w := Sample.shop 5 false in
  let input := Sample.input [CartItem.mk "p1" 3] in
  (exists c,
     calculateOrderTotal (CreateOrderInput.items input) w = (w, Ok c)) /\
  (exists w' order product',
     createOrder Sample.uuid Sample.clock input w = (w', Ok order) /\
     orders w' = (orders w ++ [order])%list /\
     Db.get Product.id (products w') "p1" = Some product' /\
     Product.stock product' = Product.stock (Sample.widget 5 false) - 3 /\
     Product.isActive product' = false) /\
  (forall flags items,
     calculateOrderTotal items (reflag flags w) =
       (reflag flags w, snd (calculateOrderTotal items w))) /\
  (forall flags input',
     createOrder Sample.uuid Sample.clock input' (reflag flags w) =
       (reflag flags (fst (createOrder Sample.uuid Sample.clock input' w)),
        snd (createOrder Sample.uuid Sample.clock input' w))).
Proof.
  apply (order_path_ignores_isActive Sample.uuid Sample.clock
           (Sample.shop 5 false) "p1" 3 (Sample.widget 5 false)
           (Sample.input [CartItem.mk "p1" 3])).
  - reflexivity.
  - reflexivity.
  - simpl. lia.
  - reflexivity.
Defined.

(** The calendar on known dates: the epoch is Thursday the first of
    January 1970, day 19782 is the 29th of February 2024, and the day
    before the first of March of the year 0 is a 29th of February. *)
Example calendar_samples :
  JSDate.civil_from_days 0 = (1970, 1, 1) /\
  JSDate.WeekDay 0 = 4 /\
  JSDate.civil_from_days 19782 = (2024, 2, 29) /\
  JSDate.days_from_civil 2024 2 29 = 19782 /\
  JSDate.civil_from_days (-1) = (1969, 12, 31) /\
  JSDate.civil_from_days (-719469) = (0, 2, 29) /\
  JSDate.MakeDay 2024 0 0 = 19722.
Proof. repeat split. Qed.

(** The boundaries of the periods of Thursday 2024-02-29T15:30:00Z, in
    UTC: that day, Sunday the 25th, the first of February, the first of
    January. *)
Example getPeriodStart_samples :
  getPeriodStart (JSDate.fixed_offset 0) 1709220600000 day = 1709164800000 /\
  getPeriodStart (JSDate.fixed_offset 0) 1709220600000 week = 1708819200000 /\
  getPeriodStart (JSDate.fixed_offset 0) 1709220600000 month = 1706745600000 /\
  getPeriodStart (JSDate.fixed_offset 0) 1709220600000 year = 1704067200000.
Proof. repeat split. Qed.

(** C6 on the ledger, read at noon of the second of January 1970 (UTC) for
    the period [day]: the day before holds an order of total 100 and the
    current day two orders of total 300, so the trends relative to the day
    before are 200 and 100 percent; [getRevenueStats] returns 0 for both. *)
Theorem getRevenueStats_failing_input :
  let w := Sample.ledger in
  let run := getRevenueStats Sample.clock (JSDate.fixed_offset 0) day w in
  exists stats,
    snd run = Ok stats /\
    period_start stats = 86400000 /\
    totalRevenue stats = 300 /\
    totalOrders stats = 2 /\
    sum_totals (previousOrders_of (period_start stats - JSDate.msPerDay)
                  (period_start stats) (orders w)) = 100 /\
    (round2 (percent_change 300 100) == 200)%Q /\
    (round2 (percent_change 2 1) == 100)%Q /\
    (trend_revenue (trend stats) == 0)%Q /\
    (trend_orders (trend stats) == 0)%Q.
Proof.
  cbv zeta. eexists. split; [reflexivity|]. repeat split.
Qed.

(** * Further properties *)

Local Close Scope string_scope.

(** ** The net effect of a bulk update *)

Section BulkEffect.
Variable clock : nat -> Z.




End BulkEffect.

(** ** What a created order holds and takes from the stock *)

Section CreatedOrder.
Variable randomUUID : nat -> string.
Variable clock : nat -> Z.







(** What [createOrder] returned, unfolded: the calculation, the order
    built from it, and the run of the decrements. *)
Lemma createOrder_ok (input : CreateOrderInput.t) (w w' : World)
    (order : Order.t) :
  createOrder randomUUID clock input w = (w', Ok order) ->
  exists c rs,
    totals_of (resolve_lines (products w) (CreateOrderInput.items input))
      = Ok c /\
    order = order_of randomUUID clock w input c /\
    bulkUpdateInventory clock
      (map decrement_of (CreateOrderInput.items input))
      (inserted randomUUID w order) = (w', Ok rs).
Proof.
  rewrite createOrder_spec, map_line_of.
  destruct (totals_of _) as [c|e]; [|discriminate]. cbv zeta.
  destruct (bulkUpdateInventory clock _ _) as [w1 [rs|e]] eqn:B;
    [|discriminate].
  intros H. inversion H; subst. exists c, rs. auto.
Qed.



End CreatedOrder.

(** ** Reading, updating and cancelling orders *)

Section OrderLifecycleFacts.
Variable randomUUID : nat -> string.
Variable clock : nat -> Z.

Lemma getOrder_world (orderId : string) (w : World) :
  fst (getOrder orderId w) = w.
Proof.
  unfold getOrder. destruct (Db.get Order.id (orders w) orderId); reflexivity.
Qed.

(** [getOrder] reads the orders and the order items only. *)
Lemma getOrder_frame (orderId : string) (w w' : World) :
  orders w' = orders w -> order_items w' = order_items w ->
  snd (getOrder orderId w') = snd (getOrder orderId w).
Proof.
  intros Ho Hi. unfold getOrder. rewrite Ho, Hi.
  destruct (Db.get Order.id (orders w) orderId); reflexivity.
Qed.

Lemma getOrder_some_id (orderId : string) (w : World) (order : Order.t) :
  getOrder orderId w = (w, Ok (Some order)) ->
  Order.id order = orderId /\
  exists stored,
    Db.get Order.id (orders w) orderId = Some stored /\
    order =
      with_items
        (map order_item_of_row
           (Db.query (order_items w)
              (fun item => String.eqb (OrderItemRow.orderId item) orderId)))
        stored.
Proof.
  unfold getOrder.
  destruct (Db.get Order.id (orders w) orderId) as [stored|] eqn:G;
    [|discriminate].
  intros H. inversion H; subst. split.
  - simpl. apply get_some_id in G. tauto.
  - exists stored. auto.
Qed.

(** The order read after its record was replaced by [updated]. *)
Lemma getOrder_updated (orderId : string) (w : World) (order : Order.t)
    (status : OrderStatus) (now : Z) (w' : World) :
  getOrder orderId w = (w, Ok (Some order)) ->
  orders w' =
    Db.update Order.id (orders w) orderId (with_status status now order) ->
  order_items w' = order_items w ->
  getOrder orderId w' = (w', Ok (Some (with_status status now order))).
Proof.
  intros H Ho Hi. apply getOrder_some_id in H.
  destruct H as (Hid & stored & G & ->).
  unfold getOrder. rewrite Ho, Hi.
  erewrite get_update_same; [reflexivity | exact G | exact Hid].
Qed.

Lemma updateOrderStatus_found (orderId : string) (status : OrderStatus)
    (w : World) (order : Order.t) :
  getOrder orderId w = (w, Ok (Some order)) ->
  let updated := with_status status (clock (clock_reads w)) order in
  updateOrderStatus clock orderId status w =
    (with_orders (Db.update Order.id (orders w) orderId updated) (tick w),
     Returned updated).
Proof.
  intros H. unfold updateOrderStatus, bindO at 1, await at 1. rewrite H.
  reflexivity.
Qed.

Lemma updateOrderStatus_missing (orderId : string) (status : OrderStatus)
    (w : World) :
  getOrder orderId w = (w, Ok None) ->
  updateOrderStatus clock orderId status w =
    (w, Failed (OrderNotFound orderId)).
Proof.
  intros H. unfold updateOrderStatus, bindO at 1, await at 1. rewrite H.
  reflexivity.
Qed.

Lemma getOrder_cases (orderId : string) (w : World) :
  getOrder orderId w = (w, Ok None) \/
  exists order, getOrder orderId w = (w, Ok (Some order)).
Proof.
  unfold getOrder. destruct (Db.get Order.id (orders w) orderId); eauto.
Qed.

(** X4: [updateOrderStatus] sets any status on an order in any status:
    when the order exists it returns the order with the status asked for
    and the same items and amounts, which is what [getOrder] reads
    afterwards, and it writes to no other collection; when it does not
    exist it throws the not-found error and writes nothing. *)
Theorem updateOrderStatus_any (orderId : string) (status : OrderStatus)
    (w : World) :
  let run := updateOrderStatus clock orderId status w in
  match snd (getOrder orderId w) with
  | Ok (Some order) =>
      exists updated,
        snd run = Returned updated /\
        Order.status updated = status /\
        Order.items updated = Order.items order /\
        Order.total updated = Order.total order /\
        Order.userId updated = Order.userId order /\
        getOrder orderId (fst run) = (fst run, Ok (Some updated)) /\
        products (fst run) = products w /\
        order_items (fst run) = order_items w /\
        carts (fst run) = carts w
  | _ => run = (w, Failed (OrderNotFound orderId))
  end.
Proof.
  intros run. subst run.
  destruct (getOrder_cases orderId w) as [H | [order H]]; rewrite H; simpl.
  - apply updateOrderStatus_missing. exact H.
  - rewrite (updateOrderStatus_found _ status _ _ H). simpl.
    eexists. repeat split.
    apply (getOrder_updated _ w order status _ _ H); reflexivity.
Qed.


(** [cancelOrder], step by step, on an order that is not cancelled. *)
Lemma cancelOrder_open (orderId : string) (restoreInventory : bool)
    (w : World) (order : Order.t) :
  getOrder orderId w = (w, Ok (Some order)) ->
  OrderStatus_eqb (Order.status order) cancelled = false ->
  cancelOrder clock orderId restoreInventory w =
    if restoreInventory
    then
      match bulkUpdateInventory clock (map increment_of (Order.items order))
              w with
      | (w1, Ok _) => updateOrderStatus clock orderId cancelled w1
      | (w1, Err e) => (w1, Failed (Thrown e))
      end
    else updateOrderStatus clock orderId cancelled w.
Proof.
  intros H Hs. unfold cancelOrder. unfold bindO at 1. unfold await at 1.
  rewrite H, Hs. destruct restoreInventory; [|reflexivity].
  unfold bindO at 1. unfold bindO at 1. unfold await at 1.
  destruct (bulkUpdateInventory clock _ w) as [w1 [rs|e]]; reflexivity.
Qed.

Lemma cancelOrder_closed (orderId : string) (restoreInventory : bool)
    (w : World) (order : Order.t) :
  getOrder orderId w = (w, Ok (Some order)) ->
  OrderStatus_eqb (Order.status order) cancelled = true ->
  cancelOrder clock orderId restoreInventory w = (w, Returned order).
Proof.
  intros H Hs. unfold cancelOrder. unfold bindO at 1. unfold await at 1.
  rewrite H, Hs. reflexivity.
Qed.

Lemma cancelOrder_missing (orderId : string) (restoreInventory : bool)
    (w : World) :
  getOrder orderId w = (w, Ok None) ->
  cancelOrder clock orderId restoreInventory w =
    (w, Failed (OrderNotFound orderId)).
Proof.
  intros H. unfold cancelOrder. unfold bindO at 1. unfold await at 1.
  rewrite H. reflexivity.
Qed.

Lemma getOrder_eq (orderId : string) (w : World) (r : result (option Order.t)) :
  snd (getOrder orderId w) = r -> getOrder orderId w = (w, r).
Proof.
  intros <-. rewrite <- (getOrder_world orderId w) at 2.
  destruct (getOrder orderId w); reflexivity.
Qed.

(** What [cancelOrder] does to an order that is not cancelled, given the
    world [w1] after the increments (or the world itself). *)
Lemma cancelOrder_after (orderId : string) (w w1 : World) (order : Order.t) :
  getOrder orderId w = (w, Ok (Some order)) ->
  orders w1 = orders w -> order_items w1 = order_items w ->
  exists w' o,
    updateOrderStatus clock orderId cancelled w1 = (w', Returned o) /\
    Order.status o = cancelled /\
    Order.items o = Order.items order /\
    Order.total o = Order.total order /\
    getOrder orderId w' = (w', Ok (Some o)) /\
    products w' = products w1 /\ carts w' = carts w1 /\
    order_items w' = order_items w1.
Proof.
  intros H Ho Hi.
  assert (H1 : getOrder orderId w1 = (w1, Ok (Some order))).
  { apply getOrder_eq. rewrite (getOrder_frame _ _ _ Ho Hi), H. reflexivity. }
  rewrite (updateOrderStatus_found _ cancelled _ _ H1). cbv zeta.
  eexists _, _. split; [reflexivity|]. repeat split.
  apply (getOrder_updated _ w1 order cancelled _ _ H1); reflexivity.
Qed.


(** X6: [cancelOrder] is idempotent: once it has returned an order, a
    second call, with or without [restoreInventory], returns the same
    order and writes nothing, so that no stock is restored twice. *)
Theorem cancelOrder_twice (orderId : string) (restoreInventory again : bool)
    (w w' : World) (o : Order.t) :
  cancelOrder clock orderId restoreInventory w = (w', Returned o) ->
  Order.status o = cancelled /\
  cancelOrder clock orderId again w' = (w', Returned o).
Proof.
  intros H.
  destruct (getOrder_cases orderId w) as [G | [order G]].
  - rewrite (cancelOrder_missing _ _ _ G) in H. discriminate.
  - destruct (OrderStatus_eqb (Order.status order) cancelled) eqn:Hs.
    + rewrite (cancelOrder_closed _ _ _ _ G Hs) in H.
      inversion H; subst. split.
      * destruct (Order.status o); try discriminate; reflexivity.
      * apply cancelOrder_closed; assumption.
    + rewrite (cancelOrder_open _ _ _ _ G Hs) in H.
      assert (Hrest : exists w1,
                 orders w1 = orders w /\ order_items w1 = order_items w /\
                 updateOrderStatus clock orderId cancelled w1
                   = (w', Returned o)).
      { destruct restoreInventory; [|exists w; auto].
        destruct (bulkUpdateInventory clock _ w) as [w1 [rs|e]] eqn:B;
          [|discriminate].
        unfold bulkUpdateInventory in B.
        apply bulkUpdateInventory_frame in B. destruct B as (Ho & Hi & _).
        exists w1. auto. }
      destruct Hrest as (w1 & Ho & Hi & E).
      destruct (cancelOrder_after _ w w1 order G Ho Hi)
        as (w2 & o2 & E2 & Hst & _ & _ & Hget & _).
      rewrite E in E2. inversion E2; subst w2 o2.
      split; [exact Hst|].
      apply cancelOrder_closed; [exact Hget|]. rewrite Hst. reflexivity.
Qed.

End OrderLifecycleFacts.

(** ** An order read back, and an order created and cancelled *)

Section OrderRoundTrip.
Variable randomUUID : nat -> string.
Variable clock : nat -> Z.

Lemma get_appended {R : Type} (id_of : R -> string) (rows : list R) (r : R) :
  ~ In (id_of r) (map id_of rows) ->
  Db.get id_of (rows ++ [r]) (id_of r) = Some r.
Proof.
  unfold Db.get. induction rows as [|x rows IH]; simpl; intros H.
  - rewrite String.eqb_refl. reflexivity.
  - destruct (String.eqb (id_of x) (id_of r)) eqn:E.
    + apply String.eqb_eq in E. tauto.
    + apply IH. tauto.
Qed.

Lemma order_item_rows_read (orderId : string) (now : Z)
    (items : list OrderItem.t) :
  forall n,
    Db.query (order_item_rows randomUUID orderId now n items)
      (fun item => String.eqb (OrderItemRow.orderId item) orderId)
      = order_item_rows randomUUID orderId now n items /\
    map order_item_of_row (order_item_rows randomUUID orderId now n items)
      = items.
Proof.
  unfold Db.query.
  induction items as [|item items IH]; intros n; [split; reflexivity|].
  destruct (IH (S n)) as [Hq Hm]. split.
  - simpl. rewrite String.eqb_refl. f_equal. exact Hq.
  - simpl. rewrite Hm. destruct item; reflexivity.
Qed.

(** The order just created is the one that [getOrder] reads, when its
    identifier is new. *)
Lemma getOrder_inserted (w w' : World) (order : Order.t) :
  ~ In (Order.id order) (map Order.id (orders w)) ->
  ~ In (Order.id order) (map OrderItemRow.orderId (order_items w)) ->
  orders w' = orders w ++ [order] ->
  order_items w' =
    order_items w ++
    order_item_rows randomUUID (Order.id order) (Order.created_at order)
      (S (uuid_draws w)) (Order.items order) ->
  getOrder (Order.id order) w' = (w', Ok (Some order)).
Proof.
  intros Hid Hrows Ho Hi. unfold getOrder. rewrite Ho, Hi.
  rewrite get_appended by exact Hid.
  unfold Db.query. rewrite filter_app.
  rewrite (filter_none _ (order_items w)).
  - simpl.
    destruct (order_item_rows_read (Order.id order) (Order.created_at order)
                (Order.items order) (S (uuid_draws w))) as [Hq Hm].
    unfold Db.query in Hq. rewrite Hq, Hm. destruct order; reflexivity.
  - intros r Hr. apply String.eqb_neq. intros E. apply Hrows.
    rewrite <- E. apply in_map. exact Hr.
Qed.


(** X7: an order that [createOrder] returned under a new identifier (one
    that no order and no order item of the store carries) is read back by
    [getOrder] exactly as it was returned, items included. *)
Theorem getOrder_created (input : CreateOrderInput.t) (w w' : World)
    (order : Order.t) :
  createOrder randomUUID clock input w = (w', Ok order) ->
  ~ In (randomUUID (uuid_draws w)) (map Order.id (orders w)) ->
  ~ In (randomUUID (uuid_draws w))
       (map OrderItemRow.orderId (order_items w)) ->
  Order.id order = randomUUID (uuid_draws w) /\
  getOrder (Order.id order) w' = (w', Ok (Some order)).
Proof.
  intros H Hid Hrows.
  pose proof (createOrder_ok _ _ _ _ _ _ H) as (c & rs & _ & Eo & B).
  assert (Eid : Order.id order = randomUUID (uuid_draws w))
    by (subst order; reflexivity).
  split; [exact Eid|].
  unfold bulkUpdateInventory in B. apply bulkUpdateInventory_frame in B.
  destruct B as (Ho & Hi & _). cbn [orders order_items inserted] in Ho, Hi.
  apply (getOrder_inserted w w' order);
    [rewrite Eid; exact Hid | rewrite Eid; exact Hrows | exact Ho | exact Hi].
Qed.


End OrderRoundTrip.

(** ** Soft delete and the low-stock list *)

Section ProductCatalogFacts.
Variable clock : nat -> Z.

Lemma update_In {R : Type} (id_of : R -> string) (rows : list R)
    (id : string) (data : R) :
  id_of data = id ->
  forall x, In x (Db.update id_of rows id data) ->
    (x = data \/ (In x rows /\ id_of x <> id)).
Proof.
  intros Hid x Hx. unfold Db.update in Hx. apply in_map_iff in Hx.
  destruct Hx as (r & Hr & Hin).
  destruct (String.eqb (id_of r) id) eqn:E.
  - left. congruence.
  - right. subst x. split; [exact Hin|]. apply String.eqb_neq. exact E.
Qed.

Lemma update_holds {R : Type} (id_of : R -> string) (rows : list R)
    (id : string) (old data : R) :
  Db.get id_of rows id = Some old ->
  In data (Db.update id_of rows id data).
Proof.
  intros G. apply get_some_id in G. destruct G as [Hid Hin].
  unfold Db.update. apply in_map_iff. exists old.
  rewrite Hid, String.eqb_refl. auto.
Qed.

Lemma updateProduct_found (w : World) (productId : string)
    (updates : ProductUpdates.t) (existing : Product.t) :
  Db.get Product.id (products w) productId = Some existing ->
  let updated := merge_updates existing updates productId
                   (clock (clock_reads w)) in
  updateProduct clock productId updates w =
    (with_products (Db.update Product.id (products w) productId updated)
       (tick w),
     Ok updated).
Proof.
  intros Hget. unfold updateProduct, bind, getProduct, new_Date, ret.
  rewrite Hget. reflexivity.
Qed.

Lemma deleteProduct_spec (w : World) (productId : string) :
  deleteProduct clock productId w =
    match Db.get Product.id (products w) productId with
    | Some product =>
        (with_products
           (Db.update Product.id (products w) productId
              (merge_updates product
                 (ProductUpdates.mk None None None (Some false)) productId
                 (clock (clock_reads w))))
           (tick w),
         Ok tt)
    | None => (w, Err (ProductNotFound productId))
    end.
Proof.
  unfold deleteProduct, bind at 1.
  destruct (Db.get Product.id (products w) productId) as [product|] eqn:G.
  - rewrite (updateProduct_found _ _ _ _ G). reflexivity.
  - unfold updateProduct, bind, getProduct, throw. rewrite G. reflexivity.
Qed.

(** X9: [deleteProduct] is a soft delete.  For a product that exists it
    leaves as many products as before, the product is still read by
    [getProduct] with the same name, price and stock and with the active
    flag off, and no product with its identifier is listed by
    [getLowStockProducts] any more, whatever the threshold; for a product
    that does not exist it throws the not-found error and writes
    nothing. *)
Theorem deleteProduct_soft (w : World) (productId : string) :
  let run := deleteProduct clock productId w in
  match Db.get Product.id (products w) productId with
  | Some product =>
      snd run = Ok tt /\
      List.length (products (fst run)) = List.length (products w) /\
      (exists product',
         getProduct productId (fst run) = (fst run, Ok (Some product')) /\
         Product.isActive product' = false /\
         Product.name product' = Product.name product /\
         Product.price product' = Product.price product /\
         Product.stock product' = Product.stock product) /\
      (forall threshold x,
         snd (getLowStockProducts threshold (fst run)) = Ok x ->
         forall p, In p x -> Product.id p <> productId)
  | None => run = (w, Err (ProductNotFound productId))
  end.
Proof.
  intros run. subst run. rewrite deleteProduct_spec.
  destruct (Db.get Product.id (products w) productId) as [product|] eqn:G;
    [|reflexivity].
  cbn [fst snd]. split; [reflexivity|]. split.
  { cbn [products with_products]. unfold Db.update. apply length_map. }
  split.
  - exists (merge_updates product
              (ProductUpdates.mk None None None (Some false)) productId
              (clock (clock_reads w))).
    unfold getProduct. cbn [products with_products].
    split; [|repeat split].
    erewrite get_update_same; [reflexivity | exact G | reflexivity].
  - intros threshold x Hx p Hp Hid. unfold getLowStockProducts in Hx.
    cbn [snd products with_products] in Hx. inversion Hx; subst x.
    apply filter_In in Hp. destruct Hp as [Hp _].
    unfold Db.query in Hp. apply filter_In in Hp. destruct Hp as [Hp Hact].
    apply update_In in Hp; [|reflexivity].
    destruct Hp as [-> | [_ Hne]]; [discriminate | contradiction].
Qed.

(** X10: after an update of the inventory of an active product has
    returned, the product is listed by [getLowStockProducts] exactly when
    its new stock is at most the threshold (the threshold included), 10
    when none is given; the list holds active products of the store only,
    each with a stock at most the threshold. *)
Theorem getLowStockProducts_after_update (w w' : World) (productId : string)
    (q : Z) (op : InventoryUpdate.operation) (updated : Product.t)
    (threshold : option Z) :
  updateInventory clock productId q op w = (w', Ok updated) ->
  Product.isActive updated = true ->
  let limit := match threshold with Some t => t | None => 10 end in
  exists low,
    getLowStockProducts threshold w' = (w', Ok low) /\
    (In updated low <-> Product.stock updated <= limit) /\
    (forall p, In p low ->
       In p (products w') /\ Product.isActive p = true /\
       Product.stock p <= limit).
Proof.
  intros H Hact limit.
  assert (Hin : In updated (products w')).
  { destruct (Db.get Product.id (products w) productId) as [product|] eqn:G.
    - rewrite (updateInventory_found _ _ _ _ _ _ G) in H.
      destruct (refused op (Product.stock product) q); [discriminate|].
      cbv zeta in H. inversion H; subst. cbn [products with_products].
      eapply update_holds. exact G.
    - rewrite (updateInventory_missing _ _ _ _ _ G) in H. discriminate. }
  unfold getLowStockProducts. fold limit. eexists. split; [reflexivity|].
  split.
  - rewrite filter_In. unfold Db.query. rewrite filter_In, Z.leb_le.
    tauto.
  - intros p Hp. apply filter_In in Hp. destruct Hp as [Hp Hs].
    unfold Db.query in Hp. apply filter_In in Hp.
    apply Z.leb_le in Hs. tauto.
Qed.

End ProductCatalogFacts.

(** ** The cart with its products *)

Section CartDetailsFacts.




End CartDetailsFacts.

(** ** Quantities and invariants of the carts *)

Section CartLaws.
Variable randomUUID : nat -> string.
Variable clock : nat -> Z.

Lemma quantity_sum_app (f : CartRow.t -> bool) (rows rows' : list CartRow.t) :
  quantity_sum f (rows ++ rows') = quantity_sum f rows + quantity_sum f rows'.
Proof.
  induction rows as [|r rows IH]; simpl; [reflexivity|]. rewrite IH. lia.
Qed.

(** With distinct identifiers, the row that carries an identifier is the
    only one. *)
Lemma row_of_id (rows : list CartRow.t) (a b : CartRow.t) :
  NoDup (map CartRow.id rows) -> In a rows -> In b rows ->
  CartRow.id a = CartRow.id b -> a = b.
Proof.
  induction rows as [|r rows IH]; simpl; intros Hnd Ha Hb E; [destruct Ha|].
  inversion Hnd as [|? ? Hnot Hnd']; subst.
  destruct Ha as [<- | Ha]; destruct Hb as [<- | Hb].
  - reflexivity.
  - exfalso. apply Hnot. rewrite E. apply in_map. exact Hb.
  - exfalso. apply Hnot. rewrite <- E. apply in_map. exact Ha.
  - apply IH; assumption.
Qed.

(** Replacing the row of an identifier changes that row only. *)
Lemma update_one (rows : list CartRow.t) (existing data : CartRow.t) :
  NoDup (map CartRow.id rows) -> In existing rows ->
  exists before after,
    rows = before ++ existing :: after /\
    Db.update CartRow.id rows (CartRow.id existing) data
      = before ++ data :: after /\
    Db.delete CartRow.id rows (CartRow.id existing) = before ++ after.
Proof.
  induction rows as [|r rows IH]; simpl; intros Hnd Hin; [destruct Hin|].
  inversion Hnd as [|? ? Hnot Hnd']; subst.
  destruct (String.eqb (CartRow.id r) (CartRow.id existing)) eqn:E.
  - apply String.eqb_eq in E.
    assert (r = existing).
    { destruct Hin as [H | H]; [exact H|].
      exfalso. apply Hnot. rewrite E. apply in_map. exact H. }
    subst r. exists [], rows. simpl.
    fold (Db.update CartRow.id rows (CartRow.id existing) data).
    fold (Db.delete CartRow.id rows (CartRow.id existing)).
    rewrite update_absent, delete_absent by exact Hnot. auto.
  - destruct Hin as [H | H].
    { subst r. rewrite String.eqb_refl in E. discriminate. }
    destruct (IH Hnd' H) as (before & after & Hr & Hu & Hd).
    exists (r :: before), after. simpl.
    fold (Db.update CartRow.id rows (CartRow.id existing) data).
    fold (Db.delete CartRow.id rows (CartRow.id existing)).
    rewrite Hu, Hd, Hr at 1. auto.
Qed.

Lemma query_first_In (rows : list CartRow.t) (f : CartRow.t -> bool)
    (r : CartRow.t) (others : list CartRow.t) :
  Db.query rows f = r :: others -> In r rows /\ f r = true.
Proof.
  intros H. apply filter_In. unfold Db.query in H. rewrite H. left.
  reflexivity.
Qed.

Lemma where_user_product_spec (userId productId : string) (r : CartRow.t) :
  where_user_product userId productId r = true <->
  CartRow.userId r = userId /\ CartRow.productId r = productId.
Proof.
  unfold where_user_product. rewrite andb_true_iff, !String.eqb_eq. tauto.
Qed.

(** The selection of a row that has the user and the product of another. *)
Lemma same_pair_selected (f : CartRow.t -> bool) (userId productId : string)
    (a b : CartRow.t) :
  f = where_user_product userId productId ->
  CartRow.userId a = CartRow.userId b ->
  CartRow.productId a = CartRow.productId b -> f a = f b.
Proof.
  intros -> Hu Hp. unfold where_user_product. rewrite Hu, Hp. reflexivity.
Qed.



End CartLaws.

Section CartUpdates.
Variable clock : nat -> Z.

Lemma updateCartItem_found (userId productId : string) (quantity : Z)
    (w : World) (item : CartRow.t) (others : list CartRow.t) :
  Db.query (carts w) (where_user_product userId productId)
    = item :: others ->
  updateCartItem clock userId productId quantity w =
    if quantity =? 0
    then getCart userId
           (with_carts (Db.delete CartRow.id (carts w) (CartRow.id item)) w)
    else getCart userId
           (with_carts
              (Db.update CartRow.id (carts w) (CartRow.id item)
                 (CartRow.mk (CartRow.id item) (CartRow.userId item)
                    (CartRow.productId item) quantity
                    (CartRow.created_at item) (clock (clock_reads w))))
              (tick w)).
Proof.
  intros Q. unfold updateCartItem. unfold bind at 1.
  unfold db_query_carts at 1. rewrite Q.
  destruct (quantity =? 0); reflexivity.
Qed.

(** Rows of other pairs than the one selected. *)
Lemma pair_absent (rows : list CartRow.t) (userId productId : string) :
  ~ In (userId, productId)
       (map (fun r => (CartRow.userId r, CartRow.productId r)) rows) ->
  Db.query rows (where_user_product userId productId) = [] /\
  quantity_sum (where_user_product userId productId) rows = 0.
Proof.
  induction rows as [|r rows IH]; simpl; intros H; [auto|].
  destruct (where_user_product userId productId r) eqn:E.
  - apply where_user_product_spec in E. destruct E as [<- <-]. tauto.
  - destruct IH as [Hq Hs]; [tauto|]. rewrite Hs. split; [exact Hq | lia].
Qed.

Lemma other_pair_unselected (u p : string) (a b : CartRow.t) :
  CartRow.userId a = CartRow.userId b ->
  CartRow.productId a = CartRow.productId b ->
  where_user_product u p a = where_user_product u p b.
Proof. intros Hu Hp. unfold where_user_product. rewrite Hu, Hp. reflexivity. Qed.

(** X13: in a store with distinct cart row identifiers and at most one row
    for a user and a product, [updateCartItem] on a pair that has a row
    makes the quantity of the pair the quantity given: zero deletes the
    row, any other quantity, a negative one included, is written on the
    one row of the pair.  The other pairs keep their quantities and both
    invariants are kept. *)
Theorem updateCartItem_sets (userId productId : string) (quantity : Z)
    (w : World) :
  unique_cart_ids w ->
  one_row_per_pair w ->
  Db.query (carts w) (where_user_product userId productId) <> [] ->
  let run := updateCartItem clock userId productId quantity w in
  let w' := fst run in
  (exists cart, snd run = Ok cart /\ getCart userId w' = (w', Ok cart)) /\
  cart_quantity w' userId productId = quantity /\
  (quantity = 0 ->
   Db.query (carts w') (where_user_product userId productId) = []) /\
  (quantity <> 0 ->
   exists row,
     Db.query (carts w') (where_user_product userId productId) = [row] /\
     CartRow.quantity row = quantity) /\
  (forall u p, (u, p) <> (userId, productId) ->
     cart_quantity w' u p = cart_quantity w u p) /\
  unique_cart_ids w' /\ one_row_per_pair w'.
Proof.
  intros Hids Hpairs Hrow run w'. subst w' run.
  destruct (Db.query (carts w) (where_user_product userId productId))
    as [|item others] eqn:Q; [contradiction|]. clear Hrow.
  rewrite (updateCartItem_found _ _ quantity _ _ _ Q).
  destruct (query_first_In _ _ _ _ Q) as [Hin Hsel].
  set (row := CartRow.mk (CartRow.id item) (CartRow.userId item)
                (CartRow.productId item) quantity (CartRow.created_at item)
                (clock (clock_reads w))).
  destruct (update_one (carts w) item row Hids Hin)
    as (before & after & Hr & Hu & Hd).
  apply where_user_product_spec in Hsel. destruct Hsel as [Eu Ep].
  unfold unique_cart_ids, one_row_per_pair, cart_quantity in *.
  rewrite Hr in Hids, Hpairs.
  rewrite map_app in Hids, Hpairs. simpl in Hids, Hpairs.
  pose proof (NoDup_remove_1 _ _ _ Hids) as Hids'.
  pose proof (NoDup_remove _ _ _ Hpairs) as [Hpairs' Hnot].
  rewrite Eu, Ep in Hnot. rewrite <- map_app in Hnot.
  destruct (pair_absent _ _ _ Hnot) as [Hq0 Hs0].
  assert (Hother : forall u p, (u, p) <> (userId, productId) ->
            forall r, CartRow.userId r = userId ->
              CartRow.productId r = productId ->
              where_user_product u p r = false).
  { intros u p Hne r Hu' Hp'.
    destruct (where_user_product u p r) eqn:E; [|reflexivity].
    apply where_user_product_spec in E. destruct E as [E1 E2].
    exfalso. apply Hne. congruence. }
  assert (Hsel : forall r, CartRow.userId r = userId ->
            CartRow.productId r = productId ->
            where_user_product userId productId r = true).
  { intros r Hu' Hp'. apply where_user_product_spec. auto. }
  rewrite quantity_sum_app in Hs0. unfold Db.query in Hq0.
  rewrite filter_app in Hq0. apply app_eq_nil in Hq0.
  destruct Hq0 as [Hqb Hqa].
  destruct (Z.eqb_spec quantity 0) as [Hz | Hnz].
  - rewrite getCart_spec. cbn [fst snd carts with_carts]. rewrite Hd.
    split; [eexists; split; reflexivity|].
    split; [rewrite quantity_sum_app; lia|].
    split; [intros _; unfold Db.query; rewrite filter_app, Hqb, Hqa;
            reflexivity|].
    split; [intros Hc; contradiction|].
    split.
    + intros u p Hne. rewrite Hr, !quantity_sum_app. simpl.
      rewrite (Hother u p Hne item Eu Ep). lia.
    + rewrite !map_app. split; assumption.
  - rewrite getCart_spec. cbn [fst snd carts with_carts tick]. rewrite Hu.
    split; [eexists; split; reflexivity|].
    split.
    { rewrite quantity_sum_app. simpl.
      rewrite (Hsel row Eu Ep). subst row. simpl. lia. }
    split; [intros Hc; contradiction|].
    split.
    { intros _. exists row. split; [|reflexivity].
      unfold Db.query. rewrite filter_app. simpl.
      rewrite (Hsel row Eu Ep), Hqb, Hqa. reflexivity. }
    split.
    + intros u p Hne. rewrite Hr, !quantity_sum_app. simpl.
      rewrite (Hother u p Hne item Eu Ep), (Hother u p Hne row Eu Ep). lia.
    + rewrite !map_app. simpl. split; assumption.
Qed.

Lemma filter_twice {A} (f g : A -> bool) (l : list A) :
  filter f (filter g l) = filter (fun x => g x && f x) l.
Proof.
  induction l as [|x l IH]; simpl; [reflexivity|].
  destruct (g x); simpl; [|exact IH].
  destruct (f x); rewrite IH; reflexivity.
Qed.

Lemma delete_all_filter (ids : list string) :
  forall rows : list CartRow.t,
    delete_all ids rows =
      filter (fun r => negb (existsb (String.eqb (CartRow.id r)) ids)) rows.
Proof.
  induction ids as [|id ids IH]; intros rows; simpl.
  - induction rows as [|r rows IHr]; simpl; [reflexivity|].
    rewrite <- IHr. reflexivity.
  - rewrite IH. unfold Db.delete. rewrite filter_twice.
    apply filter_ext. intros r.
    destruct (String.eqb (CartRow.id r) id); reflexivity.
Qed.

(** X14: in a store with distinct cart row identifiers, [clearCart]
    deletes the rows of the user and no other: the carts afterwards are
    the rows of the other users, in their order, and nothing else is
    written. *)
Theorem clearCart_only_user (userId : string) (w : World) :
  unique_cart_ids w ->
  let run := clearCart userId w in
  snd run = Ok tt /\
  carts (fst run) = filter (fun r => negb (where_user userId r)) (carts w) /\
  products (fst run) = products w /\
  orders (fst run) = orders w /\
  order_items (fst run) = order_items w.
Proof.
  intros Hids run. subst run. rewrite clearCart_spec.
  cbn [fst snd carts with_carts products orders order_items].
  repeat split. rewrite delete_all_filter. apply filter_ext_in.
  intros r Hr. f_equal.
  destruct (where_user userId r) eqn:E.
  - apply existsb_exists. exists (CartRow.id r).
    split; [|apply String.eqb_refl].
    apply in_map. unfold Db.query. apply filter_In. auto.
  - destruct (existsb _ _) eqn:X; [|reflexivity].
    apply existsb_exists in X. destruct X as (id & Hid & Eid).
    apply String.eqb_eq in Eid. apply in_map_iff in Hid.
    destruct Hid as (r' & Hid' & Hr'). unfold Db.query in Hr'.
    apply filter_In in Hr'. destruct Hr' as [Hin' Hsel'].
    assert (r' = r).
    { apply (row_of_id (carts w)); try assumption. congruence. }
    subst r'. congruence.
Qed.

End CartUpdates.

(** ** Order statistics *)

Section OrderStatsFacts.





End OrderStatsFacts.

(** ** Top products *)

Section TopProductsFacts.
Variable clock : nat -> Z.
Variable LocalTZA : Z -> bool -> Z.



















End TopProductsFacts.

(** ** Period boundaries *)

Section PeriodBounds.
Import JSDate CalendarFacts.
Variable clock : nat -> Z.
Variable LocalTZA : Z -> bool -> Z.
Variable offset : Z.
Hypothesis fixed : forall t isUTC, LocalTZA t isUTC = offset.

Lemma day_of_month_bound (z : Z) :
  let '(_, _, d) := civil_from_days z in 1 <= d <= 31.
Proof.
  unfold civil_from_days.
  pose proof (Z.mod_pos_bound (z + eraShift) daysPerEra
                ltac:(unfold daysPerEra; lia)) as Hb.
  set (doe := (z + eraShift) mod daysPerEra) in *.
  unfold civil_of_doe.
  pose proof (year_of_doe doe Hb) as Hy. cbv zeta in Hy.
  set (yoe := (doe - doe / 1460 + doe / 36524 - doe / 146096) / 365) in *.
  destruct Hy as [_ Hdoy].
  set (doy := doe - yearStart yoe) in *.
  clearbody doy. Z.div_mod_to_equations. lia.
Qed.

Lemma DateFromTime_bound (t : Z) : 1 <= DateFromTime t <= 31.
Proof.
  unfold DateFromTime. pose proof (day_of_month_bound (Day t)) as H.
  destruct (civil_from_days (Day t)) as [[y m] d]. exact H.
Qed.

(** From the first of January to the first of a month of the year. *)
Lemma first_of_year_le (y m : Z) :
  1 <= m <= 12 ->
  days_from_civil y 1 1 <= days_from_civil y m 1 <=
  days_from_civil y 1 1 + 335.
Proof.
  intros H. unfold days_from_civil, doe_of_civil, yearStart, daysPerEra,
    eraShift.
  change (1 <=? 2) with true. change (2 <? 1) with false. cbv iota.
  destruct (Z.leb_spec m 2); destruct (Z.ltb_spec 2 m); try lia;
    Z.div_mod_to_equations; lia.
Qed.

(** The first day of the period of a local time, against its day. *)
Lemma first_day_window (period : Period) (t : Z) :
  let width := match period with
               | day => 1 | week => 7 | month => 31 | year => 366
               end in
  first_day period t <= Day t < first_day period t + width.
Proof.
  destruct period; cbv zeta; unfold first_day.
  - lia.
  - unfold WeekDay.
    pose proof (Z.mod_pos_bound (Day t + 4) 7 ltac:(lia)). lia.
  - rewrite MakeDay_same_month. pose proof (DateFromTime_bound t). lia.
  - unfold MakeDay, YearFromTime.
    pose proof (days_from_civil_from_days_ok (Day t)) as H.
    pose proof (day_of_month_bound (Day t)) as Hd.
    destruct (civil_from_days (Day t)) as [[y m] d]. destruct H as [Hm Hz].
    change (0 / 12) with 0. change (0 mod 12 + 1) with 1.
    rewrite Z.add_0_r.
    pose proof (first_of_year_le y m Hm). lia.
Qed.

(** X18: in a zone that keeps one offset all year, the boundary that
    [getPeriodStart] computes is a local midnight
    that is not after the date given and less than one period before it:
    less than a day for [day], seven days for [week] (and the boundary is
    a Sunday), 31 days for [month] (the boundary is a first of the month),
    366 days for [year] (the boundary is a first of January). *)
Theorem getPeriodStart_window (date : Z) (period : Period) :
  let start := getPeriodStart LocalTZA date period in
  let local := LocalTime LocalTZA start in
  let width := match period with
               | day => 1 | week => 7 | month => 31 | year => 366
               end in
  start <= date < start + width * msPerDay /\
  TimeWithinDay local = 0 /\
  match period with
  | day => Day local = Day (LocalTime LocalTZA date)
  | week => WeekDay local = 0
  | month =>
      DateFromTime local = 1 /\
      MonthFromTime local = MonthFromTime (LocalTime LocalTZA date) /\
      YearFromTime local = YearFromTime (LocalTime LocalTZA date)
  | year =>
      DateFromTime local = 1 /\ MonthFromTime local = 0 /\
      YearFromTime local = YearFromTime (LocalTime LocalTZA date)
  end.
Proof.
  intros start local width. subst start local.
  rewrite (getPeriodStart_midnight LocalTZA offset fixed).
  set (t := LocalTime LocalTZA date).
  pose proof (first_day_window period t) as Hw. cbv zeta in Hw. fold width in Hw.
  assert (Hday : Day (LocalTime LocalTZA (midnight LocalTZA (first_day period t)))
                 = first_day period t)
    by apply (Day_midnight LocalTZA offset fixed).
  split; [|split].
  - unfold midnight, UTC, MakeDate. rewrite fixed.
    assert (Ht : date = t - offset)
      by (subst t; unfold LocalTime; rewrite fixed; lia).
    pose proof (Z.div_mod t msPerDay ltac:(discriminate)) as Hdm.
    pose proof (Z.mod_pos_bound t msPerDay ltac:(reflexivity)) as Hb.
    unfold Day in Hw. unfold msPerDay in *. nia.
  - unfold midnight. rewrite (LocalTime_UTC LocalTZA offset fixed).
    unfold TimeWithinDay, MakeDate. rewrite Z.add_0_r.
    apply Z.mod_mul. discriminate.
  - destruct period.
    + exact Hday.
    + unfold WeekDay. rewrite Hday. unfold first_day, WeekDay.
      Z.div_mod_to_equations. lia.
    + assert (Hc : civil_from_days (first_day month t)
                   = (YearFromTime t, MonthFromTime t + 1, 1)).
      { unfold first_day. apply civil_of_MakeDay_first.
        apply MonthFromTime_bound. }
      split; [|split].
      * unfold DateFromTime. rewrite Hday, Hc. reflexivity.
      * unfold MonthFromTime at 1. rewrite Hday, Hc. lia.
      * unfold YearFromTime at 1. rewrite Hday, Hc. reflexivity.
    + assert (Hc : civil_from_days (first_day year t)
                   = (YearFromTime t, 0 + 1, 1)).
      { unfold first_day. apply civil_of_MakeDay_first. lia. }
      split; [|split].
      * unfold DateFromTime. rewrite Hday, Hc. reflexivity.
      * unfold MonthFromTime. rewrite Hday, Hc. reflexivity.
      * unfold YearFromTime at 1. rewrite Hday, Hc. reflexivity.
Qed.



End PeriodBounds.

(** ** Fees *)

Lemma calculateFee_closed (amount : Z) (plan : option Plan) :
  calculateFee amount plan =
    match plan with
    | Some premium => (amount + 100) / 200
    | _ => (amount + 25) / 50
    end.
Proof.
  unfold calculateFee, Math_round, Qfloor, Qplus, Qmult, inject_Z.
  destruct plan as [[|]|]; cbn [Qnum Qden].
  - change (Z.pos (1 * 100 * 2)) with (50 * 4).
    replace (amount * 2 * 2 + 1 * Z.pos (1 * 100))
      with ((amount + 25) * 4) by lia.
    apply Z.div_mul_cancel_r; lia.
  - change (Z.pos (1 * 1000 * 2)) with (200 * 10).
    replace (amount * 5 * 2 + 1 * Z.pos (1 * 1000))
      with ((amount + 100) * 10) by lia.
    apply Z.div_mul_cancel_r; lia.
  - change (Z.pos (1 * 100 * 2)) with (50 * 4).
    replace (amount * 2 * 2 + 1 * Z.pos (1 * 100))
      with ((amount + 25) * 4) by lia.
    apply Z.div_mul_cancel_r; lia.
Qed.

(** X20: the fee is the integer nearest to 2 percent of the amount on the
    free plan (the plan when none is given) and to 0.5 percent on the
    premium plan, a half going up; so an amount from 0 to 24 pays no fee
    on the free plan and an amount from 0 to 99 none on the premium plan,
    25 and 100 being the first amounts that pay a fee of 1. *)
Theorem calculateFee_nearest (amount : Z) :
  calculateFee amount None = calculateFee amount (Some free) /\
  (100 * calculateFee amount (Some free) - 50 <= 2 * amount
     < 100 * calculateFee amount (Some free) + 50) /\
  (1000 * calculateFee amount (Some premium) - 500 <= 5 * amount
     < 1000 * calculateFee amount (Some premium) + 500) /\
  (0 <= amount ->
   (calculateFee amount (Some free) = 0 <-> amount < 25) /\
   (calculateFee amount (Some premium) = 0 <-> amount < 100)).
Proof.
  rewrite !calculateFee_closed.
  repeat split; intros; Z.div_mod_to_equations; lia.
Qed.

(** X21: for an amount that is not negative the fee lies between 0 and the
    amount, and so does the net amount; the premium fee is never more than
    the free one; and a larger amount never pays a smaller fee nor leaves
    a smaller net amount. *)
Theorem calculateNetAmount_bounds (amount amount' : Z) (plan : option Plan) :
  0 <= amount <= amount' ->
  0 <= calculateFee amount plan <= amount /\
  0 <= calculateNetAmount amount plan <= amount /\
  calculateFee amount (Some premium) <= calculateFee amount (Some free) /\
  calculateFee amount plan <= calculateFee amount' plan /\
  calculateNetAmount amount plan <= calculateNetAmount amount' plan.
Proof.
  intros H. unfold calculateNetAmount. rewrite !calculateFee_closed.
  destruct plan as [[|]|]; repeat split; Z.div_mod_to_equations; lia.
Qed.

(** ** Table names *)

Module TableNameFacts.
Import TableName.

Lemma lower_word_word (c l : N) : lower_word c = Some l -> is_word l = true.
Proof.
  unfold lower_word.
  destruct (is_word c) eqn:W; [intros H; inversion H; subst; exact W|].
  destruct (in_range 65 90 c) eqn:U.
  - intros H. inversion H; subst. unfold in_range in U.
    apply andb_true_iff in U. destruct U as [U1 U2].
    apply N.leb_le in U1, U2.
    unfold is_word, is_alnum, is_lower, in_range.
    replace (97 <=? c + 32)%N with true by (symmetry; apply N.leb_le; lia).
    replace (c + 32 <=? 122)%N with true by (symmetry; apply N.leb_le; lia).
    reflexivity.
  - destruct (c =? 8490)%N; [intros H; inversion H; reflexivity|].
    destruct (c =? 304)%N; [intros H; inversion H; reflexivity|].
    discriminate.
Qed.

Lemma lower_words_word (s : list N) :
  Forall (fun c => is_word c = true) (lower_words s).
Proof.
  unfold lower_words. apply Forall_forall. intros x Hx.
  apply in_flat_map in Hx. destruct Hx as (c & _ & Hx).
  destruct (lower_word c) as [l|] eqn:E; [|destruct Hx].
  destruct Hx as [<- | []]. apply (lower_word_word c l E).
Qed.

(** The characters of [a-z0-9_] are kept as they are. *)
Lemma lower_words_fixed (s : list N) :
  Forall (fun c => is_word c = true) s -> lower_words s = s.
Proof.
  induction 1 as [|c s Hc Hs IH]; [reflexivity|].
  unfold lower_words in *. simpl. unfold lower_word at 1. rewrite Hc.
  simpl. rewrite IH. reflexivity.
Qed.

Lemma lower_words_twice (s : list N) :
  lower_words (lower_words s) = lower_words s.
Proof. apply lower_words_fixed, lower_words_word. Qed.

Lemma lower_words_length (s : list N) :
  (List.length (lower_words s) <= List.length s)%nat.
Proof.
  unfold lower_words. induction s as [|c s IH]; simpl; [lia|].
  destruct (lower_word c); simpl; lia.
Qed.

(** On a string of ASCII, the lower case is that of the letters A to Z. *)
Lemma lower_words_ascii (s : list N) :
  Forall (fun c => (c < 128)%N) s ->
  lower_words s = filter is_word (map lower_ascii s).
Proof.
  induction 1 as [|c s Hc Hs IH]; [reflexivity|].
  unfold lower_words in *. cbn [flat_map map filter]. rewrite IH.
  unfold lower_word, lower_ascii.
  destruct (is_word c) eqn:W.
  - assert (U : in_range 65 90 c = false).
    { unfold is_word, is_alnum, is_lower, is_digit, is_underscore, in_range
        in *.
      destruct (N.leb_spec 65 c); destruct (N.leb_spec c 90);
        try reflexivity.
      destruct (N.leb_spec 97 c); [lia|].
      destruct (N.leb_spec 48 c); destruct (N.leb_spec c 57);
        destruct (N.eqb_spec c 95); simpl in W; try discriminate; lia. }
    rewrite U, W. reflexivity.
  - destruct (in_range 65 90 c) eqn:U.
    + rewrite (lower_word_word c (c + 32)%N); [reflexivity|].
      unfold lower_word. rewrite W, U. reflexivity.
    + rewrite W.
      destruct (N.eqb_spec c 8490); [lia|].
      destruct (N.eqb_spec c 304); [lia|]. reflexivity.
Qed.

Lemma digit_alnum (c : N) : is_digit c = true -> is_alnum c = true.
Proof. unfold is_alnum. intros ->. apply orb_true_r. Qed.

Lemma alnum_word (c : N) : is_alnum c = true -> is_word c = true.
Proof. unfold is_word. intros ->. reflexivity. Qed.

Lemma filter_Forall {A} (f : A -> bool) (l : list A) :
  Forall (fun x => f x = true) (filter f l).
Proof.
  apply Forall_forall. intros x Hx. apply filter_In in Hx. tauto.
Qed.

Lemma project_prefix_safe (projectId : list N) :
  Forall (fun c => is_alnum c = true) (project_prefix projectId) /\
  (List.length (project_prefix projectId) <= 8)%nat.
Proof.
  unfold project_prefix, slice8.
  destruct (all_digits (last_part projectId) &&
            (8 <=? List.length (last_part projectId))%nat) eqn:E.
  - apply andb_true_iff in E. destruct E as [Hd _]. split.
    + unfold all_digits in Hd.
      destruct (last_part projectId) as [|c l] eqn:L; [discriminate|].
      rewrite forallb_forall in Hd. apply Forall_forall. intros x Hx.
      apply digit_alnum, Hd.
      rewrite <- (firstn_skipn 8 (c :: l)). apply in_or_app. left. exact Hx.
    + apply firstn_le_length.
  - unfold lower_alnums. split; [apply filter_Forall|].
    eapply Nat.le_trans; [apply filter_length_le|].
    eapply Nat.le_trans; [apply lower_words_length|].
    apply firstn_le_length.
Qed.

(** Two strings cut at an underscore that neither holds before it. *)
Lemma split_at_underscore (p p' t t' : list N) :
  Forall (fun c => is_alnum c = true) p ->
  Forall (fun c => is_alnum c = true) p' ->
  p ++ literal "_" ++ t = p' ++ literal "_" ++ t' ->
  p = p' /\ t = t'.
Proof.
  intros Hp. revert p'.
  induction Hp as [|c p Hc Hp IH]; intros p' Hp' E.
  - destruct Hp' as [|c' p' Hc' Hp']; simpl in E.
    + inversion E. auto.
    + inversion E; subst c'. discriminate Hc'.
  - destruct Hp' as [|c' p' Hc' Hp']; simpl in E.
    + inversion E; subst c. discriminate Hc.
    + inversion E; subst c'.
      destruct (IH p' Hp' H1) as [-> ->]. auto.
Qed.

(** X23: the name that [getFullTableName] builds holds lower-case letters,
    digits and underscores only, whatever the project identifier and the
    table name hold; its prefix has at most eight characters and no
    underscore.  A table name of lower-case letters, digits and
    underscores is kept as it is, and a table name of ASCII is put in
    lower case and loses its other characters.  Two names are the same
    exactly when the prefixes of the projects and the cleaned table names
    are: table names that differ only in case or in the characters removed
    share one table. *)
Theorem getFullTableName_safe (projectId tableName : list N) :
  Forall (fun c => is_word c = true) (getFullTableName projectId tableName) /\
  Forall (fun c => is_alnum c = true) (project_prefix projectId) /\
  (List.length (project_prefix projectId) <= 8)%nat /\
  (Forall (fun c => is_word c = true) tableName ->
   getFullTableName projectId tableName =
     literal "proj_" ++ project_prefix projectId ++ literal "_" ++
     tableName) /\
  (Forall (fun c => (c < 128)%N) tableName ->
   getFullTableName projectId tableName =
     literal "proj_" ++ project_prefix projectId ++ literal "_" ++
     filter is_word (map lower_ascii tableName)) /\
  getFullTableName projectId (lower_words tableName) =
    getFullTableName projectId tableName /\
  (forall projectId' tableName',
     getFullTableName projectId' tableName' =
       getFullTableName projectId tableName <->
     project_prefix projectId' = project_prefix projectId /\
     lower_words tableName' = lower_words tableName).
Proof.
  destruct (project_prefix_safe projectId) as [Hp Hplen].
  split.
  { unfold getFullTableName.
    apply Forall_app. split; [repeat constructor|].
    apply Forall_app. split.
    - eapply Forall_impl; [|exact Hp]. intros c. apply alnum_word.
    - apply Forall_app. split; [repeat constructor|].
      apply lower_words_word. }
  split; [exact Hp|]. split; [exact Hplen|].
  split.
  { intros Ht. unfold getFullTableName.
    rewrite (lower_words_fixed _ Ht). reflexivity. }
  split.
  { intros Ht. unfold getFullTableName.
    rewrite (lower_words_ascii _ Ht). reflexivity. }
  split.
  { unfold getFullTableName. rewrite lower_words_twice. reflexivity. }
  intros projectId' tableName'. unfold getFullTableName. split.
  - intros E. apply app_inv_head in E.
    destruct (project_prefix_safe projectId') as [Hp' _].
    apply (split_at_underscore _ _ _ _ Hp' Hp E).
  - intros [-> ->]. reflexivity.
Qed.

(** The Kelvin sign and the capital I with a dot above leave a letter. *)
Example getFullTableName_samples :
  getFullTableName (literal "vlibe-brief-abc-1700000000123")
    (literal "User-Profiles") = literal "proj_17000000_userprofiles" /\
  getFullTableName (literal "proj-MyApp_01") (literal "Order_Items")
    = literal "proj_myapp01_order_items" /\
  getFullTableName (literal "abc") [8490; 69; 89]%N = literal "proj_abc_key" /\
  getFullTableName (literal "abc") [304; 68; 233]%N = literal "proj_abc_id".
Proof. repeat split. Qed.

End TableNameFacts.

(** ** The stock floor *)

Section StockFloor.
Variable randomUUID : nat -> string.
Variable clock : nat -> Z.

Lemma update_Forall {R : Type} (id_of : R -> string) (P : R -> Prop)
    (rows : list R) (id : string) (data : R) :
  Forall P rows -> P data -> Forall P (Db.update id_of rows id data).
Proof.
  intros Hall Hd. unfold Db.update. apply Forall_forall. intros x Hx.
  apply in_map_iff in Hx. destruct Hx as (r & <- & Hr).
  destruct (String.eqb (id_of r) id); [exact Hd|].
  rewrite Forall_forall in Hall. apply Hall. exact Hr.
Qed.

Lemma updateInventory_floor (w w' : World) (u : InventoryUpdate.t)
    (r : result Product.t) :
  stocks_non_negative w -> keeps_floor u = true ->
  run_update clock u w = (w', r) -> stocks_non_negative w'.
Proof.
  unfold stocks_non_negative, run_update, keeps_floor. intros Hall Hk.
  destruct (Db.get Product.id (products w) (InventoryUpdate.productId u))
    as [product|] eqn:G.
  - rewrite (updateInventory_found _ _ _ _ _ _ G).
    assert (Hs : 0 <= Product.stock product).
    { apply get_some_id in G. destruct G as [_ Hin].
      rewrite Forall_forall in Hall. apply Hall. exact Hin. }
    destruct (InventoryUpdate.op u) eqn:Eop; cbn [refused target_stock].
    + intros H. inversion H; subst. cbn [products with_products].
      apply update_Forall; [exact Hall|]. simpl. apply Z.leb_le. exact Hk.
    + intros H. inversion H; subst. cbn [products with_products].
      apply update_Forall; [exact Hall|]. simpl. apply Z.leb_le in Hk. lia.
    + destruct (Z.ltb_spec (Product.stock product - InventoryUpdate.quantity u)
                  0) as [Hlt|Hge]; intros H; inversion H; subst;
        [exact Hall|].
      cbn [products with_products]. apply update_Forall; [exact Hall|].
      simpl. exact Hge.
  - rewrite (updateInventory_missing _ _ _ _ _ G).
    intros H. inversion H; subst. exact Hall.
Qed.

Lemma bulkUpdateInventory_from_floor (us : list InventoryUpdate.t) :
  forall (acc : list Product.t) (w w' : World) (r : result (list Product.t)),
    stocks_non_negative w ->
    forallb keeps_floor us = true ->
    bulkUpdateInventory_from clock acc us w = (w', r) ->
    stocks_non_negative w'.
Proof.
  induction us as [|u us IH]; intros acc w w' r Hall Hk; simpl.
  - unfold ret. intros H. inversion H; subst. exact Hall.
  - simpl in Hk. apply andb_true_iff in Hk. destruct Hk as [Hu Hk].
    unfold bind.
    destruct (updateInventory clock _ _ _ w) as [w1 [p|e]] eqn:E;
      pose proof (updateInventory_floor w w1 u _ Hall Hu E) as H1.
    + intros H. eapply IH; eauto.
    + intros H. inversion H; subst. exact H1.
Qed.

Lemma decrements_keep_floor (items : list CartItem.t) :
  forallb keeps_floor (map decrement_of items) = true.
Proof. induction items; simpl; auto. Qed.

(** X24: the floor at zero is an invariant of the inventory.  When no
    stock is negative, none is after [bulkUpdateInventory] on entries that
    are decrements or carry a quantity that is not negative, whether it
    returns or throws partway; and none is after [createOrder], whatever
    the input and the outcome. *)
Theorem stock_floor_kept (w : World) :
  stocks_non_negative w ->
  (forall us,
     forallb keeps_floor us = true ->
     stocks_non_negative (fst (bulkUpdateInventory clock us w))) /\
  (forall input,
     stocks_non_negative (fst (createOrder randomUUID clock input w))).
Proof.
  intros Hall. split.
  - intros us Hk. unfold bulkUpdateInventory.
    destruct (bulkUpdateInventory_from clock [] us w) as [w' r] eqn:B.
    apply (bulkUpdateInventory_from_floor us [] w w' r Hall Hk B).
  - intros input. rewrite createOrder_spec.
    destruct (totals_of _) as [c|e]; [|exact Hall]. cbv zeta.
    unfold bulkUpdateInventory.
    destruct (bulkUpdateInventory_from clock [] _ _) as [w' [rs|e]] eqn:B;
      cbn [fst];
      refine (bulkUpdateInventory_from_floor _ _ _ _ _ _
                (decrements_keep_floor _) B);
      exact Hall.
Qed.


End StockFloor.

(** * Runs of the further methods *)

Local Open Scope string_scope.





Lemma cancelOrder_twice_witness :
  let run := cancelOrder Sample.clock "uuid-0" true Store.placed in
  map Product.stock (products (fst run)) = [5; 3] /\
  exists o,
    snd run = Returned o /\
    Order.status o = cancelled /\
    cancelOrder Sample.clock "uuid-0" true (fst run) = (fst run, Returned o).
Proof.
  intros run. split; [vm_compute; reflexivity|].
  let r := eval vm_compute in (snd run) in
  match r with Returned ?o => exists o end.
  split; [vm_compute; reflexivity|].
  apply (cancelOrder_twice Sample.clock "uuid-0" true true Store.placed
           (fst run)).
  vm_compute; reflexivity.
Defined.

Lemma getOrder_created_witness :
  let w := Store.stocked in
  let run := createOrder Sample.uuid Sample.clock (Sample.input Store.lines)
               w in
  exists order,
    snd run = Ok order /\
    Order.id order = Sample.uuid (uuid_draws w) /\
    getOrder (Order.id order) (fst run) = (fst run, Ok (Some order)).
Proof.
  intros w run.
  let r := eval vm_compute in (snd run) in
  match r with Ok ?o => exists o end.
  split; [vm_compute; reflexivity|].
  apply (getOrder_created Sample.uuid Sample.clock (Sample.input Store.lines)
           w (fst run)).
  - vm_compute; reflexivity.
  - simpl. tauto.
  - simpl. tauto.
Defined.


(** Three widgets less leave two: listed for the threshold 2. *)
Lemma getLowStockProducts_after_update_witness :
  let run := updateInventory Sample.clock "p1" 3 InventoryUpdate.decrement
               Store.stocked in
  exists updated,
    snd run = Ok updated /\
    Product.stock updated = 2 /\
    exists low,
      getLowStockProducts (Some 2) (fst run) = (fst run, Ok low) /\
      (In updated low <-> Product.stock updated <= 2) /\
      (forall p, In p low ->
         In p (products (fst run)) /\ Product.isActive p = true /\
         Product.stock p <= 2).
Proof.
  intros run.
  let r := eval vm_compute in (snd run) in
  match r with Ok ?p => exists p end.
  split; [vm_compute; reflexivity|]. split; [reflexivity|].
  apply (getLowStockProducts_after_update Sample.clock Store.stocked (fst run)
           "p1" 3 InventoryUpdate.decrement _ (Some 2)).
  - vm_compute; reflexivity.
  - reflexivity.
Defined.


(** A negative quantity is written as it is given. *)
Lemma updateCartItem_sets_witness :
  let w := Store.stocked in
  let run := updateCartItem Sample.clock "u1" "p1" (-4) w in
  let w' := fst run in
  (exists cart, snd run = Ok cart /\ getCart "u1" w' = (w', Ok cart)) /\
  cart_quantity w' "u1" "p1" = -4 /\
  (-4 = 0 -> Db.query (carts w') (where_user_product "u1" "p1") = []) /\
  (-4 <> 0 ->
   exists row,
     Db.query (carts w') (where_user_product "u1" "p1") = [row] /\
     CartRow.quantity row = -4) /\
  (forall u p, (u, p) <> ("u1", "p1") ->
     cart_quantity w' u p = cart_quantity w u p) /\
  unique_cart_ids w' /\ one_row_per_pair w'.
Proof.
  intros w run w'.
  apply (updateCartItem_sets Sample.clock "u1" "p1" (-4) w).
  - unfold unique_cart_ids. simpl.
    repeat (constructor; [simpl; intuition discriminate|]). constructor.
  - unfold one_row_per_pair. simpl.
    repeat (constructor; [simpl; intuition discriminate|]). constructor.
  - simpl. discriminate.
Defined.

Lemma clearCart_only_user_witness :
  let w := Store.stocked in
  let run := clearCart "u1" w in
  map CartRow.id (carts (fst run)) = ["c2"] /\
  snd run = Ok tt /\
  carts (fst run) = filter (fun r => negb (where_user "u1" r)) (carts w) /\
  products (fst run) = products w /\
  orders (fst run) = orders w /\
  order_items (fst run) = order_items w.
Proof.
  intros w run. split; [vm_compute; reflexivity|].
  apply (clearCart_only_user "u1" w).
  unfold unique_cart_ids. simpl.
  repeat (constructor; [simpl; intuition discriminate|]). constructor.
Defined.


(** 1999 on the free plan: a fee of 40, 1959 net. *)
Lemma calculateNetAmount_bounds_witness :
  (calculateFee 1999 None, calculateNetAmount 1999 None) = (40, 1959) /\
  0 <= calculateFee 1999 None <= 1999 /\
  0 <= calculateNetAmount 1999 None <= 1999 /\
  calculateFee 1999 (Some premium) <= calculateFee 1999 (Some free) /\
  calculateFee 1999 None <= calculateFee 2000 None /\
  calculateNetAmount 1999 None <= calculateNetAmount 2000 None.
Proof.
  split; [reflexivity|].
  apply (calculateNetAmount_bounds 1999 2000 None). lia.
Defined.

Lemma stock_floor_kept_witness :
  let w := Store.stocked in
  (forall us,
     forallb keeps_floor us = true ->
     stocks_non_negative (fst (bulkUpdateInventory Sample.clock us w))) /\
  (forall input,
     stocks_non_negative
       (fst (createOrder Sample.uuid Sample.clock input w))).
Proof.
  intros w. apply (stock_floor_kept Sample.uuid Sample.clock w).
  unfold stocks_non_negative. simpl. repeat constructor; simpl; lia.
Defined.


(** Under UTC, the week of Thursday 2024-02-29T15:30:00Z starts on Sunday
    the 25th. *)
Lemma getPeriodStart_window_witness :
  let zone := JSDate.fixed_offset 0 in
  let date := 1709220600000 in
  let start := getPeriodStart zone date week in
  let local := JSDate.LocalTime zone start in
  start = 1708819200000 /\
  start <= date < start + 7 * JSDate.msPerDay /\
  JSDate.TimeWithinDay local = 0 /\
  JSDate.WeekDay local = 0.
Proof.
  intros zone date start local. split; [vm_compute; reflexivity|].
  exact (getPeriodStart_window zone 0 (fun _ _ => eq_refl) date week).
Defined.

(** Where the offset changes, a day is not always 24 hours long: in New
    York the third of November 2024 has 25, and at 23:30 of that day
    (4:30 UTC on the fourth) the boundary of the day is 24 hours and a half
    back.  The boundaries of the week, the month and the year of the fifth
    of November at noon lie before the change, four hours behind UTC and
    not five. *)
Example getPeriodStart_new_york :
  let zone := JSDate.new_york_2024 in
  getPeriodStart zone 1730694600000 day = 1730606400000 /\
  1730694600000 - 1730606400000 = JSDate.msPerDay + 1800000 /\
  getPeriodStart zone 1730826000000 day = 1730782800000 /\
  getPeriodStart zone 1730826000000 week = 1730606400000 /\
  getPeriodStart zone 1730826000000 month = 1730433600000 /\
  getPeriodStart zone 1730826000000 year = 1704085200000.
Proof. vm_compute. repeat split. Qed.

(** The lines of [createOrder_run] are lines that the doubles hold. *)
Lemma calculateOrderTotal_rounded_witness :
  let w := Sample.shop 5 true in
  let items := [CartItem.mk "p1" 4] in
  Rounded.calculateOrderTotal items w = Some (calculateOrderTotal items w).
Proof.
  intros w items. apply (calculateOrderTotal_rounded items w).
  split.
  - intros item product [<- | []] G. vm_compute in G.
    inversion G; subst. vm_compute. repeat split; discriminate.
  - vm_compute. discriminate.
Defined.
